(** * Strautomator Core: the weather aggregator

    A shallow embedding of [src/weather/index.ts] (the [Weather] wrapper:
    [init], [getActivityWeather], [getLocationWeather]) and of the Storm Glass
    adapter ([StormGlass.getWeather], [toWeatherSummary], [getDataProperty]),
    with the properties of the weather specification stated over it.

    Conventions of the embedding:
    - a point in time (a JS [Date] or a DayJS object) is its number of
      milliseconds since the epoch, a [Z]; the UTC offset of a DayJS object only
      changes how it is printed and is left out;
    - a geographic coordinate is a decimal number of degrees, kept as an
      integer count of millionths of a degree, or [NaN];
    - [undefined] and [null] are [None];
    - asynchronous code is sequential code: every [await] is awaited at once;
    - mutable objects shared by reference (the registered providers) live in a
      store, the field [providers] of the world, and are referred to by their
      index in it;
    - the world also holds what the code draws from outside: the clock read by
      [dayjs.utc()], which stands still while one operation runs, the random
      numbers drawn by lodash, and the replies of the HTTP requests still to
      come;
    - the calls of the logger and, as ghost state, the completed calls of the
      adapters are kept in the world, to state what was and was not done. *)

From stdpp Require Import gmap strings list.
From Stdlib Require Import ZArith Lia.

Local Open Scope Z_scope.

(** ** Time: what the code uses of DayJS *)

Module Dayjs.

Definition msPerHour : Z := 3600000.
Definition msPerDay : Z := 86400000.

(** [a.diff(b, "hours")]: the whole number of hours from [b] to [a],
    truncated towards zero. *)
Definition diffHours (a b : Z) : Z := Z.quot (a - b) msPerHour.

(** [a.diff(b, "hours")] where [b] may be [null]: the difference with an
    invalid date is [NaN], here [None]. *)
Definition diffHoursOpt (a : Z) (b : option Z) : option Z :=
  match b with
  | Some b' => Some (diffHours a b')
  | None => None
  end.

Definition isBefore (a b : Z) : bool := a <? b.
Definition isAfter (a b : Z) : bool := b <? a.

(** [d.add(n, "hours")] and [d.subtract(n, "hours")]. *)
Definition addHours (d n : Z) : Z := d + n * msPerHour.
Definition subtractHours (d n : Z) : Z := d - n * msPerHour.

(** [d.endOf("day")] of a UTC date: the last millisecond of its day. *)
Definition endOfDay (d : Z) : Z := (d / msPerDay) * msPerDay + (msPerDay - 1).

(** The hour [d.utc().format("YYYY-MM-DDTHH")] names. *)
Definition hourStamp (d : Z) : Z := d / msPerHour.

End Dayjs.

(** ** Data model *)

(** A JS number used as a coordinate: [NaN], or the number that a decimal
    of six places denotes, which is the double nearest to
    [millionths / 10^6]. *)
Inductive JsNumber :=
  | NaN
  | Num (millionths : Z).

Definition isNaN (n : JsNumber) : bool :=
  match n with NaN => true | Num _ => false end.

(** The integer nearest to [num / den], for [den] positive; of two that are
    as near, the even one (the rounding of the doubles). *)
Definition roundHalfEven (num den : Z) : Z :=
  let q := num / den in
  let r := num mod den in
  if 2 * r <? den then q
  else if den <? 2 * r then q + 1
  else if Z.even q then q else q + 1.

(** The fraction [millionths / (10^6 * 2^e)], as a numerator and a positive
    denominator. *)
Definition scaled (millionths e : Z) : Z * Z :=
  (millionths * 2 ^ Z.max 0 (- e), 10 ^ 6 * 2 ^ Z.max 0 e).

(** The double that the decimal [millionths / 10^6] denotes, for
    [millionths] positive: the mantissa [m] of 53 bits and the exponent [e]
    of the double nearest to it, whose value is [m * 2^e]. The decimal lies
    in the range of the normal doubles: it is not under [10^-6], and it is
    taken to be under [2^1024], above which it denotes [Infinity]. *)
Definition nearestDouble (millionths : Z) : Z * Z :=
  let t1 := Z.log2 millionths - 19 in
  let t := if snd (scaled millionths t1) <=? fst (scaled millionths t1)
           then t1 else t1 - 1 in
  let e := t - 52 in
  (roundHalfEven (fst (scaled millionths e)) (snd (scaled millionths e)), e).

(** [x.toFixed(4)] of the double [m * 2^e], not negative, as a count of
    ten-thousandths: the integer nearest to [m * 2^e * 10^4], and of two that
    are as near the larger one. From [10^21] on [toFixed] gives the digits
    of the double itself, which is the same count. *)
Definition toFixed (m e : Z) : Z :=
  (2 * m * 10 ^ 4 * 2 ^ Z.max 0 e + 2 ^ Z.max 0 (- e)) / (2 * 2 ^ Z.max 0 (- e)).

(** [parseFloat(c.toFixed(4))]: the coordinate rounded to four decimals, as a
    count of ten-thousandths of a degree. [toFixed] rounds the double that
    [c] is, not the decimal it was written as, and puts the sign back on the
    digits of its absolute value. *)
Definition toFixed4 (millionths : Z) : Z :=
  let (m, e) := nearestDouble (Z.abs millionths) in
  Z.sgn millionths * toFixed m e.

Record ExtraData := {
  mmPrecipitation : option Z
}.

Record WeatherSummary := {
  provider : string;
  summary : option string;
  icon : option string;
  temperature : option Z;
  feelsLike : option Z;
  humidity : option Z;
  pressure : option Z;
  windSpeed : option Z;
  windDirection : option Z;
  precipitation : option string;
  cloudCover : option Z;
  visibility : option Z;
  extraData : ExtraData
}.

Record ActivityWeather := {
  start : option WeatherSummary;
  mid : option WeatherSummary;
  end_ : option WeatherSummary
}.

Record UserPreferences := {
  weatherProvider : option string;
  weatherUnit : option string
}.

Record UserData := {
  id : string;
  displayName : string;
  isPro : bool;
  preferences : option UserPreferences
}.

Record StravaActivity := {
  activityId : Z;
  hasLocation : bool;
  dateStart : Z;
  dateEnd : option Z;
  utcStartOffset : Z;
  totalTime : Z;
  locationStart : option (list JsNumber);
  locationMid : option (list JsNumber);
  locationEnd : option (list JsNumber)
}.

Record WeatherApiStats := {
  requestCount : Z;
  errorCount : Z;
  lastRequest : option Z
}.

(** A provider module: its static declaration and its runtime state. *)
Record WeatherProvider := {
  name : string;
  hoursPast : Z;
  hoursFuture : Z;
  stats : WeatherApiStats;
  disabledTillDate : option Z
}.

(** The settings the weather code reads ([setmeup]): [settings.weather[name]]
    and [settings.weather.defaultProviders]. *)
Record RateLimit := {
  perDay : Z
}.

Record ProviderSettings := {
  disabled : bool;
  secret : string;
  rateLimit : RateLimit
}.

Record Settings := {
  weather : string -> ProviderSettings;
  defaultProviders : list string;
  cacheDuration : Z
}.

(** ** The outside world *)

(** One value of a Storm Glass reading, by source. *)
Record Sources := {
  sg : option Z;
  dwd : option Z;
  noaa : option Z
}.

Record HourData := {
  rowTime : Z;
  airTemperature : option Sources;
  rowHumidity : option Sources;
  rowPressure : option Sources;
  rowCloudCover : option Sources;
  rowWindDirection : option Sources;
  rowWindSpeed : option Sources;
  rowPrecipitation : option Sources;
  snowDepth : option Sources;
  rowVisibility : option Sources
}.

(** The body of an HTTP response of Storm Glass: nothing, an object with
    neither [hours] nor [data], or the list of hourly readings. *)
Inductive ResponseBody :=
  | NoBody
  | NoHours
  | Hours (rows : list HourData).

(** How an HTTP request ends: with a body, or with an error that carries the
    status of the response when there was one. *)
Inductive NetReply :=
  | Responded (body : ResponseBody)
  | Failed (status : option Z).

Inductive Level := LogDebug | LogInfo | LogWarn | LogError.

(** A call of the logger: its level and its first argument. *)
Record LogEntry := {
  level : Level;
  origin : string
}.

Inductive Outcome := GaveSummary | GaveNothing | Threw.

(** A completed call of a provider's [getWeather], kept as ghost state: who was
    called, with which coordinates and date, and how the call ended. *)
Record AdapterCall := {
  callee : string;
  callCoordinates : list Z;
  callDate : Z;
  outcome : Outcome
}.

(** The key of a cache entry: [`${coordinates.join("-")}-${dDate.valueOf() / 1000}`],
    a string that determines the rounded coordinates and the time. *)
Definition CacheKey : Type := list Z * Z.

Record World := {
  settings : Settings;
  providers : list WeatherProvider;
  maxHoursPast : Z;
  maxHoursFuture : Z;
  cache : gmap CacheKey (option WeatherSummary);
  clock : Z;
  entropy : list nat;
  network : list NetReply;
  logs : list LogEntry;
  calls : list AdapterCall
}.

Definition setProviders (ps : list WeatherProvider) (w : World) : World :=
  {| settings := settings w; providers := ps; maxHoursPast := maxHoursPast w;
     maxHoursFuture := maxHoursFuture w; cache := cache w; clock := clock w;
     entropy := entropy w; network := network w; logs := logs w; calls := calls w |}.

Definition setMaxHoursPast (h : Z) (w : World) : World :=
  {| settings := settings w; providers := providers w; maxHoursPast := h;
     maxHoursFuture := maxHoursFuture w; cache := cache w; clock := clock w;
     entropy := entropy w; network := network w; logs := logs w; calls := calls w |}.

Definition setCache (c : gmap CacheKey (option WeatherSummary)) (w : World) : World :=
  {| settings := settings w; providers := providers w; maxHoursPast := maxHoursPast w;
     maxHoursFuture := maxHoursFuture w; cache := c; clock := clock w;
     entropy := entropy w; network := network w; logs := logs w; calls := calls w |}.

Definition setEntropy (e : list nat) (w : World) : World :=
  {| settings := settings w; providers := providers w; maxHoursPast := maxHoursPast w;
     maxHoursFuture := maxHoursFuture w; cache := cache w; clock := clock w;
     entropy := e; network := network w; logs := logs w; calls := calls w |}.

Definition setNetwork (n : list NetReply) (w : World) : World :=
  {| settings := settings w; providers := providers w; maxHoursPast := maxHoursPast w;
     maxHoursFuture := maxHoursFuture w; cache := cache w; clock := clock w;
     entropy := entropy w; network := n; logs := logs w; calls := calls w |}.

Definition setLogs (l : list LogEntry) (w : World) : World :=
  {| settings := settings w; providers := providers w; maxHoursPast := maxHoursPast w;
     maxHoursFuture := maxHoursFuture w; cache := cache w; clock := clock w;
     entropy := entropy w; network := network w; logs := l; calls := calls w |}.

Definition setCalls (c : list AdapterCall) (w : World) : World :=
  {| settings := settings w; providers := providers w; maxHoursPast := maxHoursPast w;
     maxHoursFuture := maxHoursFuture w; cache := cache w; clock := clock w;
     entropy := entropy w; network := network w; logs := logs w; calls := c |}.

(** ** Exceptions and the monad of the code *)

Inductive Exn :=
  | JsError (message : string)
  | TypeError (message : string)
  | AxiosError (status : option Z).

Inductive Result (A : Type) :=
  | Ret (a : A)
  | Throw (e : Exn).
Arguments Ret {A} a.
Arguments Throw {A} e.

(** A computation reads and changes the world, and returns or throws. *)
Definition M (A : Type) : Type := World -> Result A * World.

Definition ret {A} (a : A) : M A := fun w => (Ret a, w).
Definition throw {A} (e : Exn) : M A := fun w => (Throw e, w).

Definition bind {A B} (m : M A) (k : A -> M B) : M B :=
  fun w =>
    match m w with
    | (Ret a, w') => k a w'
    | (Throw e, w') => (Throw e, w')
    end.

(** [try { m } catch (ex) { h ex }]. *)
Definition tryCatch {A} (m : M A) (h : Exn -> M A) : M A :=
  fun w =>
    match m w with
    | (Ret a, w') => (Ret a, w')
    | (Throw e, w') => h e w'
    end.

Definition gets {A} (f : World -> A) : M A := fun w => (Ret (f w), w).
Definition modify (f : World -> World) : M unit := fun w => (Ret tt, f w).

Notation "'let*' x ':=' m 'in' k" := (bind m (fun x => k))
  (at level 10, x pattern, m at level 100, k at level 200).
Notation "m ';;' k" := (bind m (fun _ => k))
  (at level 100, k at level 200, right associativity).

Definition logged (l : Level) (o : string) (w : World) : World :=
  setLogs (logs w ++ [{| level := l; origin := o |}]) w.

Definition logger (l : Level) (o : string) : M unit := modify (logged l o).

(** ** Collaborators: lodash, the cache, the rate limiter *)

(** [Math.random] as lodash's [baseRandom] uses it: an index below [n], taken
    from the next random number of the world. *)
Definition randomBelow (n : nat) : M nat :=
  fun w =>
    match entropy w with
    | r :: rest => (Ret (r mod n)%nat, setEntropy rest w)
    | [] => (Ret 0%nat, w)
    end.

(** [_.sample(array)]: a random element, [undefined] for an empty array. *)
Definition sample {A} (array : list A) : M (option A) :=
  match array with
  | [] => ret None
  | _ => let* i := randomBelow (length array) in ret (array !! i)
  end.

Definition swap {A} (array : list A) (i j : nat) : list A :=
  match array !! i, array !! j with
  | Some x, Some y => <[i:=y]> (<[j:=x]> array)
  | _, _ => array
  end.

(** lodash's [shuffleSelf]: the first [steps] rounds of a Fisher-Yates
    shuffle, from position [index]. *)
Fixpoint shuffleSelf {A} (steps index : nat) (array : list A) : M (list A) :=
  match steps with
  | O => ret array
  | S steps' =>
      let* r := randomBelow (length array - index) in
      shuffleSelf steps' (S index) (swap array index (index + r))
  end.

(** [_.sampleSize(array, n)]: [n] elements at distinct positions, or all of
    them when there are fewer. *)
Definition sampleSize {A} (array : list A) (n : nat) : M (list A) :=
  let size := Nat.min n (length array) in
  let* shuffled := shuffleSelf size 0 array in
  ret (take size shuffled).

(** [cache.get("weather", key)] and [cache.set("weather", key, value)] of
    bitecache; an entry that expired is an entry that is not there. *)
Definition cacheGet (key : CacheKey) : M (option WeatherSummary) :=
  gets (fun w => mjoin (cache w !! key)).

Definition cacheSet (key : CacheKey) (value : option WeatherSummary) : M unit :=
  modify (fun w => setCache (<[key := value]> (cache w)) w).

(** The provider object behind a reference; reading a property of
    [undefined] throws. *)
Definition getProvider (ref : option nat) : M WeatherProvider :=
  fun w =>
    match ref ≫= (fun i => providers w !! i) with
    | Some p => (Ret p, w)
    | None => (Throw (TypeError "Cannot read properties of undefined"), w)
    end.

Definition updated (i : nat) (f : WeatherProvider -> WeatherProvider) (w : World) : World :=
  match providers w !! i with
  | Some p => setProviders (<[i := f p]> (providers w)) w
  | None => w
  end.

Arguments updated : simpl never.

Definition updateProvider (i : nat) (f : WeatherProvider -> WeatherProvider) : M unit :=
  modify (updated i f).

Definition withStats (f : WeatherApiStats -> WeatherApiStats) (p : WeatherProvider)
    : WeatherProvider :=
  {| name := name p; hoursPast := hoursPast p; hoursFuture := hoursFuture p;
     stats := f (stats p); disabledTillDate := disabledTillDate p |}.

Definition withDisabledTillDate (d : option Z) (p : WeatherProvider) : WeatherProvider :=
  {| name := name p; hoursPast := hoursPast p; hoursFuture := hoursFuture p;
     stats := stats p; disabledTillDate := d |}.

Definition countRequest (now : Z) (s : WeatherApiStats) : WeatherApiStats :=
  {| requestCount := requestCount s + 1; errorCount := errorCount s;
     lastRequest := Some now |}.

Definition countError (s : WeatherApiStats) : WeatherApiStats :=
  {| requestCount := requestCount s; errorCount := errorCount s + 1;
     lastRequest := lastRequest s |}.

(** Modelled from the spec: the rate limiter built by [apiRateLimiter]
    (weather/utils) and [axiosRequest] are not under src/. A scheduled request
    is counted in the provider's [requestCount] and stamps its [lastRequest]
    (section 3, ProviderRuntimeState), then ends as the network decides: with
    the body of the response, or with an error. A request that gets no reply
    at all fails without a response. *)
Definition apiRequest (this : nat) : M ResponseBody :=
  let* now := gets clock in
  updateProvider this (withStats (countRequest now)) ;;
  fun w =>
    match network w with
    | Responded body :: rest => (Ret body, setNetwork rest w)
    | Failed status :: rest => (Throw (AxiosError status), setNetwork rest w)
    | [] => (Throw (AxiosError None), w)
    end.

Definition called (this : string) (coordinates : list Z) (dDate : Z) (o : Outcome)
    (w : World) : World :=
  setCalls (calls w ++ [{| callee := this; callCoordinates := coordinates;
                          callDate := dDate; outcome := o |}]) w.

Definition recordCall (this : string) (coordinates : list Z) (dDate : Z) (o : Outcome)
    : M unit :=
  modify (called this coordinates dDate o).

(** ** The Storm Glass adapter *)

Module StormGlass.

Definition truthy (v : option Z) : bool :=
  match v with
  | Some n => negb (n =? 0)
  | None => false
  end.

(** [a || b] on readings. *)
Definition or (a b : option Z) : option Z := if truthy a then a else b.

Definition getDataProperty (data : option Sources) : option Z :=
  match data with
  | None => None
  | Some d => or (or (sg d) (dwd d)) (noaa d)
  end.

Definition positive (v : option Z) : bool :=
  match v with
  | Some n => 0 <? n
  | None => false
  end.

(** Modelled from the spec: [processWeatherSummary] (weather/utils) is not
    under src/. It fills the canonical summary text and icon of a reading
    (section 4.1, normalization); the conversion of units is left out. *)
Definition processWeatherSummary (result : WeatherSummary) (dDate : Z)
    (preferences : UserPreferences) : WeatherSummary :=
  let text :=
    match precipitation result with
    | Some p => p
    | None => if positive (cloudCover result) then "Cloudy" else "Clear"
    end in
  {| provider := provider result; summary := Some text; icon := Some text;
     temperature := temperature result; feelsLike := feelsLike result;
     humidity := humidity result; pressure := pressure result;
     windSpeed := windSpeed result; windDirection := windDirection result;
     precipitation := precipitation result; cloudCover := cloudCover result;
     visibility := visibility result; extraData := extraData result |}.

(** Lines 100-125 of [toWeatherSummary]: the summary of a reading. The time
    of day of [getSuntimes] (weather/utils) is not kept. *)
Definition summaryOf (this : string) (timeData : HourData) (dDate : Z)
    (preferences : UserPreferences) : WeatherSummary :=
  let cloudCover := getDataProperty (rowCloudCover timeData) in
  let precipLevel := getDataProperty (rowPrecipitation timeData) in
  let snowDepth := getDataProperty (snowDepth timeData) in
  let precipitation :=
    if positive snowDepth && positive precipLevel then Some "Snow" else None in
  let result :=
    {| provider := this;
       summary := None;
       icon := None;
       temperature := getDataProperty (airTemperature timeData);
       feelsLike := getDataProperty (airTemperature timeData);
       humidity := getDataProperty (rowHumidity timeData);
       pressure := getDataProperty (rowPressure timeData);
       windSpeed := getDataProperty (rowWindSpeed timeData);
       windDirection := getDataProperty (rowWindDirection timeData);
       precipitation := precipitation;
       cloudCover := cloudCover;
       visibility := getDataProperty (rowVisibility timeData);
       extraData := {| mmPrecipitation := precipLevel |} |} in
  processWeatherSummary result dDate preferences.

(** The reading of the hour of [dDate]: [data.find(...)]. *)
Definition findTimeData (rows : list HourData) (dDate : Z) : option HourData :=
  List.find (fun r => rowTime r =? Dayjs.hourStamp dDate) rows.

(** [toWeatherSummary]: the reading of the hour of [dDate], as a summary.
    No body and no reading for that hour give [undefined]; a body without a
    list of readings makes [data.find] throw. *)
Definition toWeatherSummary (this : string) (data : ResponseBody) (coordinates : list Z)
    (dDate : Z) (preferences : UserPreferences) : M (option WeatherSummary) :=
  match data with
  | NoBody => ret None
  | NoHours => throw (TypeError "Cannot read properties of undefined (reading 'find')")
  | Hours rows =>
      match findTimeData rows dDate with
      | None => ret None
      | Some timeData => ret (Some (summaryOf this timeData dDate preferences))
      end
  end.

Definition noPreferences : UserPreferences :=
  {| weatherProvider := None; weatherUnit := None |}.

Definition tag : string := "StormGlass.getWeather".

(** The range check of line 47: is the date too far for the provider? *)
Definition outOfRange (self : WeatherProvider) (utcNow dDate : Z) : bool :=
  let diffHours := Z.abs (Dayjs.diffHours utcNow dDate) in
  let isFuture := Dayjs.isBefore utcNow dDate in
  let maxHours := if isFuture then hoursFuture self else hoursPast self in
  maxHours <? diffHours.

Definition outcomeOf (result : option WeatherSummary) : Outcome :=
  match result with
  | Some _ => GaveSummary
  | None => GaveNothing
  end.

(** [getWeather], with [this] the provider of reference [this]. The unit
    and the URL, which only reach the logger and the request, are left out. *)
Definition getWeather (this : nat) (coordinates : list Z) (dDate : Z)
    (preferences : option UserPreferences) : M (option WeatherSummary) :=
  let* self := getProvider (Some this) in
  let* utcNow := gets clock in
  tryCatch
    ((if outOfRange self utcNow dDate
      then throw (JsError "Date out of range")
      else ret tt) ;;
     let preferences := default noPreferences preferences in
     logger LogDebug tag ;;
     let* res := apiRequest this in
     let* result := toWeatherSummary (name self) res coordinates dDate preferences in
     match result with
     | Some _ => logger LogInfo tag
     | None => ret tt
     end ;;
     recordCall (name self) coordinates dDate (outcomeOf result) ;;
     ret result)
    (fun ex =>
       logger LogError tag ;;
       updateProvider this (withStats countError) ;;
       recordCall (name self) coordinates dDate Threw ;;
       throw ex).

End StormGlass.

(** The Storm Glass module as it is declared. *)
Definition stormglass : WeatherProvider :=
  {| name := "stormglass"; hoursPast := 168; hoursFuture := 0;
     stats := {| requestCount := 0; errorCount := 0; lastRequest := None |};
     disabledTillDate := None |}.

(** ** The weather wrapper *)

Module Weather.

Fixpoint forEach {A} (l : list A) (body : A -> M unit) : M unit :=
  match l with
  | [] => ret tt
  | x :: rest => body x ;; forEach rest body
  end.

(** [array.filter(callback)], the callback running in the world. *)
Fixpoint filterM {A} (callback : A -> M bool) (array : list A) : M (list A) :=
  match array with
  | [] => ret []
  | x :: rest =>
      let* keep := callback x in
      let* kept := filterM callback rest in
      ret (if keep then x :: kept else kept)
  end.

Definition freshStats : WeatherApiStats :=
  {| requestCount := 0; errorCount := 0; lastRequest := None |}.

(** The body of the loop of [init], for one provider module. The rate
    limiter it builds is [apiRequest] above. *)
Definition initProvider (provider : WeatherProvider) : M unit :=
  let* pSettings := gets (fun w => weather (settings w) (name provider)) in
  if disabled pSettings then logger LogWarn "Weather.init"
  else if bool_decide (secret pSettings = "") then logger LogError "Weather.init"
  else
    let provider := withStats (fun _ => freshStats) provider in
    modify (fun w => setProviders (providers w ++ [provider]) w) ;;
    let* maxPast := gets maxHoursPast in
    if maxPast <? hoursPast provider
    then modify (setMaxHoursPast (hoursPast provider))
    else ret tt.

(** [init], over the list [all] of the provider modules of the repository,
    of which only Storm Glass is under src/. The settings have an entry for
    every module, so that reading them does not throw; [cache.setup], which
    only fixes the lifetime of the cache entries, is left out. *)
Definition init (all : list WeatherProvider) : M unit :=
  tryCatch
    (forEach all initProvider ;;
     logger LogInfo "Weather.init")
    (fun ex => logger LogError "Weather.init").

(** A string in a condition: [undefined] and the empty string are false. *)
Definition truthyString (s : option string) : bool :=
  match s with
  | Some s' => negb (bool_decide (s' = ""))
  | None => false
  end.

(** Lines 178-183: the provider asked for, and [isDefaultProvider]. *)
Definition resolveProvider (preferences : option UserPreferences) (provider : option string)
    : M (option string * bool) :=
  if truthyString provider then ret (provider, false)
  else
    let* pool := gets (fun w => defaultProviders (settings w)) in
    let* defaultProvider := sample pool in
    let stored := preferences ≫= weatherProvider in
    ret (if truthyString stored then stored else defaultProvider, true).

(** Line 188: may the cached summary be returned? *)
Definition cacheUsable (cached : option WeatherSummary) (isDefaultProvider : bool)
    (wanted : option string) : bool :=
  match cached with
  | Some c => isDefaultProvider || bool_decide (Some (provider c) = wanted)
  | None => false
  end.

(** Lines 194-199: the callback of the filter, on the provider of reference [p]. *)
Definition isAvailable (utcNow hours : Z) (p : nat) : M bool :=
  let* self := getProvider (Some p) in
  if hoursPast self <? hours then ret false
  else if hoursFuture self <? hours * -1 then ret false
  else if match disabledTillDate self with
          | Some till => Dayjs.isBefore utcNow till
          | None => false
          end then ret false
  else
    let* limit := gets (fun w => perDay (rateLimit (weather (settings w) (name self)))) in
    ret ((requestCount (stats self) <? limit)
         || match Dayjs.diffHoursOpt utcNow (lastRequest (stats self)) with
            | Some elapsed => 16 <? elapsed
            | None => false
            end).

(** [this.providers.filter(...)]: the references of the available providers. *)
Definition availableProviders (utcNow hours : Z) : M (list nat) :=
  let* registered := gets (fun w => seq 0 (length (providers w))) in
  filterM (isAvailable utcNow hours) registered.

Definition matchesName (w : World) (provider : option string) (p : nat) : bool :=
  match providers w !! p with
  | Some self => bool_decide (Some (name self) = provider)
  | None => false
  end.

(** [_.remove(array, {name: provider})]: the elements removed, and the array
    as it is left. *)
Definition remove (array : list nat) (provider : option string)
    : M (list nat * list nat) :=
  gets (fun w => (List.filter (matchesName w provider) array,
                  List.filter (fun p => negb (matchesName w provider p)) array)).

(** Lines 212-218: the providers to try, in order. *)
Definition selectProviders (availableProviders : list nat) (provider : option string)
    : M (list (option nat)) :=
  let* (currentProviders, availableProviders) := remove availableProviders provider in
  match currentProviders with
  | _ :: _ =>
      let* other := sample availableProviders in
      ret ((Some <$> currentProviders) ++ [other])
  | [] =>
      let* picked := sampleSize availableProviders 2 in
      ret (Some <$> picked)
  end.

(** [providerModule.getWeather(...)]; calling a method of [undefined] throws.
    Modelled from the spec: the adapters of the other vendors (tomorrow,
    weatherapi, openmeteo, openweathermap, visualcrossing) are not under src/.
    Sections 4.1 and 6 give every adapter one contract, the one of the Storm
    Glass adapter, which is under src/ and is run here for every provider
    module, on the name and the coverage window of that module. *)
Definition callGetWeather (providerModule : option nat) (coordinates : list Z) (dDate : Z)
    (preferences : option UserPreferences) : M (option WeatherSummary) :=
  getProvider providerModule ;;
  match providerModule with
  | Some p => StormGlass.getWeather p coordinates dDate preferences
  | None => throw (TypeError "Cannot read properties of undefined")
  end.

Definition setDisabledTillDate (providerModule : option nat) (d : option Z) : M unit :=
  match providerModule with
  | Some p => updateProvider p (withDisabledTillDate d)
  | None => throw (TypeError "Cannot set properties of undefined")
  end.

(** How the block of lines 211-253 is left: by [return null], or to go on
    with the value of [result]. *)
Inductive Flow :=
  | Return (value : option WeatherSummary)
  | GoOn (result : option WeatherSummary).

Definition is402 (ex : Exn) : bool :=
  match ex with
  | AxiosError (Some status) => status =? 402
  | _ => false
  end.

(** Lines 220-227: the first provider is asked. *)
Definition firstAttempt (providerModule : option nat) (coordinates : list Z) (dDate : Z)
    (preferences : option UserPreferences) : M Flow :=
  let* result := callGetWeather providerModule coordinates dDate preferences in
  match result with
  | None => throw (JsError "No weather summary returned")
  | Some _ => setDisabledTillDate providerModule None ;; ret (GoOn result)
  end.

(** Lines 228-253: the [catch], [providerModule] being the provider that
    failed with [ex]. *)
Definition onFailure (currentProviders : list (option nat)) (providerModule : option nat)
    (coordinates : list Z) (dDate utcNow : Z) (preferences : option UserPreferences)
    (ex : Exn) : M Flow :=
  let* failedProvider := getProvider providerModule in
  (if is402 ex
   then setDisabledTillDate providerModule
          (Some (Dayjs.addHours (Dayjs.endOfDay utcNow) 1)) ;;
        logger LogWarn "Weather.getLocationWeather"
   else ret tt) ;;
  if (1 <? length currentProviders)%nat
  then
    let providerModule := mjoin (currentProviders !! 1%nat) in
    getProvider providerModule ;;
    logger LogWarn "Weather.getLocationWeather" ;;
    tryCatch
      (let* result := callGetWeather providerModule coordinates dDate preferences in
       ret (GoOn result))
      (fun retryEx =>
         logger LogError "Weather.getLocationWeather" ;;
         logger LogError "Weather.getLocationWeather" ;;
         ret (Return None))
  else
    logger LogError "Weather.getLocationWeather" ;;
    ret (GoOn None).

(** Lines 211-253. What comes before the call of [getWeather] in the [try]
    cannot throw and is done first. *)
Definition tryProviders (user : UserData) (coordinates : list Z) (dDate utcNow : Z)
    (provider : option string) (availableProviders : list nat) : M Flow :=
  let preferences := preferences user in
  let* currentProviders := selectProviders availableProviders provider in
  let providerModule := mjoin (currentProviders !! 0%nat) in
  tryCatch
    (firstAttempt providerModule coordinates dDate preferences)
    (onFailure currentProviders providerModule coordinates dDate utcNow preferences).

Definition cacheId (coordinates : list Z) (dDate : Z) : CacheKey := (coordinates, dDate).

(** Lines 193-257: the cache did not answer, the providers are asked. *)
Definition queryProviders (user : UserData) (coordinates : list Z) (dDate utcNow hours : Z)
    (provider : option string) : M (option WeatherSummary) :=
  let* availableProviders := availableProviders utcNow hours in
  match availableProviders with
  | [] => logger LogWarn "Weather.getLocationWeather" ;; ret None
  | _ :: _ =>
      let* flow := tryProviders user coordinates dDate utcNow provider availableProviders in
      match flow with
      | Return value => ret value
      | GoOn result =>
          cacheSet (cacheId coordinates dDate) result ;;
          match result with
          | None =>
              throw (TypeError "Cannot read properties of undefined (reading 'provider')")
          | Some _ => logger LogInfo "Weather.getLocationWeather" ;; ret result
          end
      end
  end.

(** [getLocationWeather], from line 167 on: the date is there, and
    [coordinates] are the two coordinates as line 165 rounded them. *)
Definition locateWeather (user : UserData) (coordinates : list Z) (dDate : Z)
    (provider : option string) : M (option WeatherSummary) :=
  let preferences := preferences user in
  let* utcNow := gets clock in
  let hours := Dayjs.diffHours utcNow dDate in
  let* (provider, isDefaultProvider) := resolveProvider preferences provider in
  let* cached := cacheGet (cacheId coordinates dDate) in
  if cacheUsable cached isDefaultProvider provider
  then logger LogInfo "Weather.getLocationWeather.fromCache" ;; ret cached
  else queryProviders user coordinates dDate utcNow hours provider.

(** Line 157: the condition under which nothing is fetched. An element that
    is not there is [undefined], which [isNaN] takes for [NaN]. *)
Definition malformed (coordinates : option (list JsNumber)) (dDate : option Z) : bool :=
  match dDate, coordinates with
  | None, _ => true
  | Some _, None => true
  | Some _, Some cs =>
      negb (length cs =? 2)%nat
      || isNaN (default NaN (cs !! 0%nat))
      || isNaN (default NaN (cs !! 1%nat))
  end.

(** [getLocationWeather]: the date and the two coordinates are there, which
    is the condition of line 157 negated, and the lookup goes on with the
    coordinates rounded (line 165); or nothing is fetched. *)
Definition getLocationWeather (user : UserData) (coordinates : option (list JsNumber))
    (dDate : option Z) (provider : option string) : M (option WeatherSummary) :=
  match dDate, coordinates with
  | Some dDate, Some [Num c0; Num c1] =>
      locateWeather user [toFixed4 c0; toFixed4 c1] dDate provider
  | _, _ => logger LogWarn "Weather.getLocationWeather" ;; ret None
  end.

Definition noWeather : ActivityWeather :=
  {| start := None; mid := None; end_ := None |}.

Definition setEnd (e : option WeatherSummary) (weather : ActivityWeather) : ActivityWeather :=
  {| start := start weather; mid := mid weather; end_ := e |}.

Definition setMid (m : option WeatherSummary) (weather : ActivityWeather) : ActivityWeather :=
  {| start := start weather; mid := m; end_ := end_ weather |}.

(** Lines 114-120: the start and end lookups, in one [try]. An exception
    of the second lookup leaves [weather.start] as the first one set it. *)
Definition lookupStartEnd (user : UserData) (activity : StravaActivity)
    (dateStart dateEnd : Z) : M ActivityWeather :=
  tryCatch
    (let* s := getLocationWeather user (locationStart activity) (Some dateStart) None in
     let weather := {| start := s; mid := None; end_ := None |} in
     tryCatch
       (let* e := getLocationWeather user (locationEnd activity) (Some dateEnd) None in
        ret (setEnd e weather))
       (fun innerEx => logger LogError "Weather.getActivityWeather" ;; ret weather))
    (fun innerEx => logger LogError "Weather.getActivityWeather" ;; ret noWeather).

(** Lines 123-131: the lookup in the middle of the activity. *)
Definition lookupMid (user : UserData) (activity : StravaActivity)
    (weather : ActivityWeather) : M ActivityWeather :=
  if isPro user && (10800 <? totalTime activity)
  then
    tryCatch
      (let dateMid := dateStart activity + totalTime activity * 500 in
       let* m := getLocationWeather user (locationMid activity) (Some dateMid) None in
       ret (setMid m weather))
      (fun innerEx => logger LogError "Weather.getActivityWeather" ;; ret weather)
  else ret weather.

Definition getActivityWeather (user : UserData) (activity : StravaActivity)
    : M (option ActivityWeather) :=
  tryCatch
    (if negb (hasLocation activity)
     then logger LogWarn "Weather.getActivityWeather" ;; ret None
     else
       let* utcNow := gets clock in
       let* maxPast := gets maxHoursPast in
       let minDate := Dayjs.subtractHours utcNow maxPast in
       if Dayjs.isAfter minDate (default utcNow (dateEnd activity))
       then logger LogWarn "Weather.getActivityWeather" ;; ret None
       else
         let dateStart' := dateStart activity in
         let dateEnd' := dateStart activity in
         let* weather := lookupStartEnd user activity dateStart' dateEnd' in
         let* weather := lookupMid user activity weather in
         match start weather, end_ weather with
         | None, None => throw (JsError "Failed to get the activity weather")
         | _, _ => logger LogInfo "Weather.getActivityWeather" ;; ret (Some weather)
         end)
    (fun ex => logger LogError "Weather.getActivityWeather" ;; ret None).

End Weather.

Arguments Weather.getLocationWeather : simpl never.
Arguments Weather.locateWeather : simpl never.
Arguments Weather.queryProviders : simpl never.
Arguments Weather.tryProviders : simpl never.
Arguments StormGlass.getWeather : simpl never.
Arguments toFixed4 : simpl never.

(** ** What the specification says, in its own words *)

(** Eligibility as the specification words it, with time as it elapses: the
    coverage window holds the point in time, the provider is not disabled,
    and the quota is not reached or the last request is more than 16 hours
    old. To be compared with [Weather.isAvailable]. *)
Definition eligibleAsSpecified (cfg : Settings) (now dDate : Z) (p : WeatherProvider) : bool :=
  (if now <? dDate
   then dDate - now <=? hoursFuture p * Dayjs.msPerHour
   else now - dDate <=? hoursPast p * Dayjs.msPerHour)
  && match disabledTillDate p with
     | Some till => till <=? now
     | None => true
     end
  && ((requestCount (stats p) <? perDay (rateLimit (weather cfg (name p))))
      || match lastRequest (stats p) with
         | Some last => 16 * Dayjs.msPerHour <? now - last
         | None => false
         end).

(** [isDefaultSelection] as the specification words it: the resolution came
    from the default pool, neither from the parameter nor from the stored
    preference. To be compared with [Weather.resolveProvider]. *)
Definition isDefaultSelectionAsSpecified (preferences : option UserPreferences)
    (explicit : option string) : bool :=
  negb (Weather.truthyString explicit)
  && negb (Weather.truthyString (preferences ≫= weatherProvider)).

(** The coverage window of a provider as the specification words it:
    [now - hoursPast, now + hoursFuture]. *)
Definition insideWindow (p : WeatherProvider) (now dDate : Z) : bool :=
  (Dayjs.subtractHours now (hoursPast p) <=? dDate)
  && (dDate <=? Dayjs.addHours now (hoursFuture p)).

(** ** The eligibility filter, as a function *)

Definition eligible (cfg : Settings) (utcNow hours : Z) (self : WeatherProvider) : bool :=
  negb (hoursPast self <? hours)
  && negb (hoursFuture self <? hours * -1)
  && negb match disabledTillDate self with
          | Some till => Dayjs.isBefore utcNow till
          | None => false
          end
  && ((requestCount (stats self) <? perDay (rateLimit (weather cfg (name self))))
      || match Dayjs.diffHoursOpt utcNow (lastRequest (stats self)) with
         | Some elapsed => 16 <? elapsed
         | None => false
         end).

Definition eligibleRef (w : World) (utcNow hours : Z) (p : nat) : bool :=
  match providers w !! p with
  | Some self => eligible (settings w) utcNow hours self
  | None => false
  end.

(** The error counter of the provider of reference [p]. *)
Definition errorCountOf (w : World) (p : nat) : option Z :=
  errorCount ∘ stats <$> providers w !! p.

Definition requestCountOf (w : World) (p : nat) : option Z :=
  requestCount ∘ stats <$> providers w !! p.

Definition disabledTillDateOf (w : World) (p : nat) : option (option Z) :=
  disabledTillDate <$> providers w !! p.

Definition nameOf (w : World) (p : nat) : option string :=
  name <$> providers w !! p.

(** The greatest [hoursPast] of a list of providers, 0 when there is none. *)
Definition greatestHoursPast (ps : list WeatherProvider) : Z :=
  foldl (fun acc p => Z.max acc (hoursPast p)) 0 ps.

(** ** The effects of a call of the adapter, spelled out *)

(** The world once the request of the provider [self], of reference [this],
    has been logged and counted. *)
Definition requested (this : nat) (self : WeatherProvider) (w : World) : World :=
  setProviders (<[this := withStats (countRequest (clock w)) self]> (providers w))
    (logged LogDebug StormGlass.tag w).

(** The world once the [catch] of [getWeather] has run. *)
Definition thrown (this : nat) (self : WeatherProvider) (coordinates : list Z) (dDate : Z)
    (w : World) : World :=
  called (name self) coordinates dDate Threw
    (setProviders (<[this := withStats countError self]> (providers w))
       (logged LogError StormGlass.tag w)).

(** How a call of the adapter ended, from what it returned. *)
Definition resultOutcome (r : Result (option WeatherSummary)) : Outcome :=
  match r with
  | Ret (Some _) => GaveSummary
  | Ret None => GaveNothing
  | Throw _ => Threw
  end.

Definition isThrow {A} (r : Result A) : bool :=
  match r with
  | Ret _ => false
  | Throw _ => true
  end.

(** What a lookup produced: the summary it returned, if it returned one. *)
Definition produced (r : Result (option WeatherSummary)) : option WeatherSummary :=
  match r with
  | Ret value => value
  | Throw _ => None
  end.

(** The field [maxHoursPast] is what [init] makes it: the greatest [hoursPast]
    of the registered providers. *)
Definition coherent (w : World) : Prop :=
  maxHoursPast w = greatestHoursPast (providers w).

(** What the start lookup of [getActivityWeather] produced; nothing when the
    activity is turned away before any lookup. *)
Definition turnedAway (activity : StravaActivity) (w : World) : bool :=
  negb (hasLocation activity)
  || Dayjs.isAfter (Dayjs.subtractHours (clock w) (maxHoursPast w))
       (default (clock w) (dateEnd activity)).

Definition startLookup (user : UserData) (activity : StravaActivity)
    : M (option WeatherSummary) :=
  Weather.getLocationWeather user (locationStart activity) (Some (dateStart activity)) None.

(** The end lookup as the code makes it (with the start date, line 111). *)
Definition endLookup (user : UserData) (activity : StravaActivity)
    : M (option WeatherSummary) :=
  Weather.getLocationWeather user (locationEnd activity) (Some (dateStart activity)) None.

Definition midLookup (user : UserData) (activity : StravaActivity)
    : M (option WeatherSummary) :=
  Weather.getLocationWeather user (locationMid activity)
    (Some (dateStart activity + totalTime activity * 500)) None.

Definition startProduced (user : UserData) (activity : StravaActivity) (w : World)
    : option WeatherSummary :=
  if turnedAway activity w then None else produced (fst (startLookup user activity w)).

(** What the end lookup produced; it is not run when the start lookup threw. *)
Definition endProduced (user : UserData) (activity : StravaActivity) (w : World)
    : option WeatherSummary :=
  if turnedAway activity w then None
  else
    match startLookup user activity w with
    | (Ret _, w1) => produced (fst (endLookup user activity w1))
    | (Throw _, _) => None
    end.

(** What the lookup in the middle produced, when it is run. *)
Definition midProduced (user : UserData) (activity : StravaActivity) (w : World)
    : option WeatherSummary :=
  if turnedAway activity w then None
  else if isPro user && (10800 <? totalTime activity)
  then
    let w2 := snd (Weather.lookupStartEnd user activity (dateStart activity)
                     (dateStart activity) w) in
    produced (fst (midLookup user activity w2))
  else None.

(** The calls of adapters one lookup may add: none, one, or two of which the
    first did not give a summary. *)
Definition attempts (extra : list AdapterCall) : Prop :=
  match extra with
  | [] => True
  | [_] => True
  | [first; _] => outcome first <> GaveSummary
  | _ => False
  end.

(** Two worlds that differ by the random numbers left at most. *)
Definition sameButEntropy (w w' : World) : Prop :=
  settings w' = settings w /\ providers w' = providers w
  /\ maxHoursPast w' = maxHoursPast w /\ maxHoursFuture w' = maxHoursFuture w
  /\ cache w' = cache w /\ clock w' = clock w /\ network w' = network w
  /\ logs w' = logs w /\ calls w' = calls w.

(** A change of a provider that leaves its declaration as it is. *)
Definition keepsStatic (f : WeatherProvider -> WeatherProvider) : Prop :=
  forall p,
    name (f p) = name p /\ hoursPast (f p) = hoursPast p /\ hoursFuture (f p) = hoursFuture p.

(** The coverage of the registry did not change. *)
Definition sameCoverage (w w' : World) : Prop :=
  maxHoursPast w' = maxHoursPast w
  /\ hoursPast <$> providers w' = hoursPast <$> providers w.

(** ** Frames *)

(** A computation that leaves the world as it found it. *)
Definition readOnly {A} (m : M A) : Prop := forall w, snd (m w) = w.

(** Every run of the computation relates the world before to the world after. *)
Definition stepsIn {A} (R : World -> World -> Prop) (m : M A) : Prop :=
  forall w, R w (snd (m w)).

(** The list [f] of the world grew by elements that satisfy [P]. *)
Definition grows {X} (f : World -> list X) (P : X -> Prop) (w w' : World) : Prop :=
  exists extra, f w' = f w ++ extra /\ Forall P extra.

(** The value [f] of the world did not change. *)
Definition keeps {X} (f : World -> X) (w w' : World) : Prop := f w' = f w.

Definition fromCacheTag : string := "Weather.getLocationWeather.fromCache".

Definition notFromCache (e : LogEntry) : Prop := origin e <> fromCacheTag.

(** ** What the rest of the code keeps *)


(** A module as [init] registers it: its statistics are new. *)
Definition registered (provider : WeatherProvider) : WeatherProvider :=
  withStats (fun _ => Weather.freshStats) provider.

(** A change of a provider that leaves its declaration as it is and does not
    lower its counters. *)
Definition bumps (f : WeatherProvider -> WeatherProvider) : Prop :=
  forall p,
    name (f p) = name p /\ hoursPast (f p) = hoursPast p
    /\ hoursFuture (f p) = hoursFuture p
    /\ requestCount (stats p) <= requestCount (stats (f p))
    /\ errorCount (stats p) <= errorCount (stats (f p)).

(** One provider later in its life: the same declaration, counters that did
    not go down. *)
Definition laterProvider (p p' : WeatherProvider) : Prop :=
  name p' = name p /\ hoursPast p' = hoursPast p /\ hoursFuture p' = hoursFuture p
  /\ requestCount (stats p) <= requestCount (stats p')
  /\ errorCount (stats p) <= errorCount (stats p').

(** The registry later in its life: the same providers in the same order,
    each one later in its life; the settings, the clock and [maxHoursPast]
    are the same. *)
Definition laterRegistry (w w' : World) : Prop :=
  settings w' = settings w /\ clock w' = clock w /\ maxHoursPast w' = maxHoursPast w
  /\ Forall2 laterProvider (providers w) (providers w').

(** The exchange of the elements at two positions, on positions. *)
Definition transpose (i j k : nat) : nat :=
  if decide (k = i) then j else if decide (k = j) then i else k.

(** The adapters were called at most [n] times more. *)
Definition asksUpTo (n : nat) (w w' : World) : Prop :=
  exists extra, calls w' = calls w ++ extra /\ (length extra <= n)%nat.

(** Lines 122-123: is the weather in the middle of the activity looked up? *)
Definition wantsMid (user : UserData) (activity : StravaActivity) : bool :=
  isPro user && (10800 <? totalTime activity).

(** ** Sample data *)

Module Sample.

Definition cfg : Settings :=
  {| weather := fun _ =>
       {| disabled := false; secret := "secret"; rateLimit := {| perDay := 50 |} |};
     defaultProviders := ["openmeteo"];
     cacheDuration := 3600 |}.

(** 2021-01-01 12:00:00 UTC. *)
Definition noon : Z := 1609502400000.

Definition halfHour : Z := 1800000.

(** Storm Glass with its daily quota used up, last asked [ago] milliseconds
    before noon. *)
Definition usedUp (ago : Z) : WeatherProvider :=
  {| name := "stormglass"; hoursPast := 168; hoursFuture := 0;
     stats := {| requestCount := 50; errorCount := 0; lastRequest := Some (noon - ago) |};
     disabledTillDate := None |}.

(** A reading of the hour of [dDate]: 20 degrees, nothing else. *)
Definition reading (dDate : Z) : HourData :=
  {| rowTime := Dayjs.hourStamp dDate;
     airTemperature := Some {| sg := Some 20; dwd := None; noaa := None |};
     rowHumidity := None; rowPressure := None; rowCloudCover := None;
     rowWindDirection := None; rowWindSpeed := None; rowPrecipitation := None;
     snowDepth := None; rowVisibility := None |}.

Definition london : list Z := [515073; -1277].

Definition user : UserData :=
  {| id := "1"; displayName := "rider"; isPro := false; preferences := None |}.

(** A ride of one hour, from [from] on, between two places. *)
Definition ride (from : Z) : StravaActivity :=
  {| activityId := 1; hasLocation := true; dateStart := from;
     dateEnd := Some (from + Dayjs.msPerHour); utcStartOffset := 0; totalTime := 3600;
     locationStart := Some [Num 51507310; Num (-127660)];
     locationMid := None;
     locationEnd := Some [Num 51752000; Num (-1257700)] |}.

(** A second provider; [till] is the date until which it was disabled. *)
Definition openmeteo (till : option Z) : WeatherProvider :=
  {| name := "openmeteo"; hoursPast := 48; hoursFuture := 168;
     stats := {| requestCount := 0; errorCount := 0; lastRequest := None |};
     disabledTillDate := till |}.

(** A user whose stored preference is Storm Glass. *)
Definition fan : UserData :=
  {| id := "2"; displayName := "fan"; isPro := false;
     preferences := Some {| weatherProvider := Some "stormglass"; weatherUnit := None |} |}.

(** A ride with a start location only. *)
Definition startOnly (from : Z) : StravaActivity :=
  {| activityId := 2; hasLocation := true; dateStart := from;
     dateEnd := Some (from + Dayjs.msPerHour); utcStartOffset := 0; totalTime := 3600;
     locationStart := Some [Num 51507310; Num (-127660)];
     locationMid := None;
     locationEnd := None |}.

Definition world (ps : list WeatherProvider) (replies : list NetReply) : World :=
  {| settings := cfg; providers := ps; maxHoursPast := greatestHoursPast ps;
     maxHoursFuture := 0; cache := ∅; clock := noon; entropy := [];
     network := replies; logs := []; calls := [] |}.

(** A summary another provider gave, as the cache may hold it. *)
Definition cachedSummary : WeatherSummary :=
  StormGlass.summaryOf "openmeteo" (reading noon) noon StormGlass.noPreferences.

Definition cached (w : World) : World :=
  setCache (<[Weather.cacheId london noon := Some cachedSummary]> (cache w)) w.

End Sample.

(** ** Reasoning about computations *)

Lemma quot_rem_bounds (x m : Z) :
  0 < m ->
  exists r, x = m * Z.quot x m + r /\ Z.abs r < m /\ (0 <= x -> 0 <= r) /\ (x <= 0 -> r <= 0).
Proof.
  intros Hm. exists (Z.rem x m). split; [apply Z.quot_rem'|].
  split; [|split].
  - pose proof (Z.rem_bound_abs x m ltac:(lia)). lia.
  - intros. apply Z.rem_nonneg; lia.
  - intros. apply Z.rem_nonpos; lia.
Qed.

Lemma diffHours_gt_16 (now last : Z) :
  16 < Dayjs.diffHours now last <-> 17 * Dayjs.msPerHour <= now - last.
Proof.
  unfold Dayjs.diffHours, Dayjs.msPerHour.
  destruct (quot_rem_bounds (now - last) 3600000 ltac:(lia)) as (r & E & Hr & Hp & Hn).
  lia.
Qed.

Ltac unfoldM :=
  unfold bind, ret, throw, tryCatch, gets, modify, logger in *.

Lemma readOnly_ret {A} (a : A) : readOnly (ret a).
Proof. intros w. reflexivity. Qed.

Lemma readOnly_gets {A} (f : World -> A) : readOnly (gets f).
Proof. intros w. reflexivity. Qed.

Lemma readOnly_bind {A B} (m : M A) (k : A -> M B) :
  readOnly m -> (forall a, readOnly (k a)) -> readOnly (bind m k).
Proof.
  intros Hm Hk w. unfold bind. specialize (Hm w).
  destruct (m w) as [[a|e] w1]; simpl in Hm; subst; [apply Hk | reflexivity].
Qed.

Lemma readOnly_getProvider ref : readOnly (getProvider ref).
Proof. intros w. unfold getProvider. destruct (ref ≫= _); reflexivity. Qed.

Lemma getProvider_Some (w : World) (p : nat) (self : WeatherProvider) :
  providers w !! p = Some self -> getProvider (Some p) w = (Ret self, w).
Proof. intros H. unfold getProvider. simpl. rewrite H. reflexivity. Qed.

Lemma getProvider_None (w : World) (ref : option nat) :
  ref ≫= (fun i => providers w !! i) = None ->
  exists m, getProvider ref w = (Throw (TypeError m), w).
Proof. intros H. unfold getProvider. rewrite H. eauto. Qed.

Lemma isAvailable_eligible (w : World) (utcNow hours : Z) (p : nat) (self : WeatherProvider) :
  providers w !! p = Some self ->
  Weather.isAvailable utcNow hours p w = (Ret (eligible (settings w) utcNow hours self), w).
Proof.
  intros H. unfold Weather.isAvailable, bind. rewrite (getProvider_Some _ _ _ H).
  unfold eligible.
  destruct (hoursPast self <? hours); [reflexivity|].
  destruct (hoursFuture self <? hours * -1); [reflexivity|].
  destruct (disabledTillDate self) as [till|]; simpl;
    [destruct (Dayjs.isBefore utcNow till); reflexivity | reflexivity].
Qed.

Lemma filterM_pure {A} (callback : A -> M bool) (f : A -> bool) (array : list A) (w : World) :
  (forall x, x ∈ array -> callback x w = (Ret (f x), w)) ->
  Weather.filterM callback array w = (Ret (List.filter f array), w).
Proof.
  induction array as [|x rest IH]; intros H; [reflexivity|].
  simpl. unfold bind. rewrite (H x) by left.
  rewrite IH by (intros y Hy; apply H; right; exact Hy).
  reflexivity.
Qed.

Lemma availableProviders_eligible (w : World) (utcNow hours : Z) :
  Weather.availableProviders utcNow hours w
  = (Ret (List.filter (eligibleRef w utcNow hours) (seq 0 (length (providers w)))), w).
Proof.
  unfold Weather.availableProviders, bind, gets.
  apply filterM_pure. intros p Hp.
  apply list_elem_of_In, in_seq in Hp.
  destruct (lookup_lt_is_Some_2 (providers w) p ltac:(lia)) as [self Hself].
  rewrite (isAvailable_eligible _ _ _ _ _ Hself).
  unfold eligibleRef. rewrite Hself. reflexivity.
Qed.

Lemma elem_of_availableProviders (w : World) (utcNow hours : Z) (p : nat) :
  p ∈ List.filter (eligibleRef w utcNow hours) (seq 0 (length (providers w)))
  <-> exists self, providers w !! p = Some self
                   /\ eligible (settings w) utcNow hours self = true.
Proof.
  rewrite list_elem_of_In, filter_In, in_seq. unfold eligibleRef. split.
  - intros [_ H]. destruct (providers w !! p) as [self|]; [eauto | discriminate].
  - intros (self & Hself & H). rewrite Hself. split; [|exact H].
    apply lookup_lt_Some in Hself. lia.
Qed.

(** ** The eligibility filter (C2, C10) *)

Lemma eligible_iff (cfg : Settings) (now dDate : Z) (p : WeatherProvider) :
  0 <= hoursPast p -> 0 <= hoursFuture p ->
  let h := Dayjs.diffHours now dDate in
  eligible cfg now h p = true
  <-> (if Dayjs.isBefore now dDate then Z.abs h <= hoursFuture p else Z.abs h <= hoursPast p)
      /\ (forall till, disabledTillDate p = Some till -> till <= now)
      /\ (requestCount (stats p) < perDay (rateLimit (weather cfg (name p)))
          \/ exists last, lastRequest (stats p) = Some last
                          /\ 17 * Dayjs.msPerHour <= now - last).
Proof.
  intros HP HF h. unfold eligible.
  rewrite !andb_true_iff, !negb_true_iff, orb_true_iff, !Z.ltb_ge, Z.ltb_lt.
  assert (Hsign : if Dayjs.isBefore now dDate then h <= 0 else 0 <= h).
  { subst h. unfold Dayjs.isBefore, Dayjs.diffHours, Dayjs.msPerHour.
    destruct (quot_rem_bounds (now - dDate) 3600000 ltac:(lia)) as (r & E & Hr & Hp & Hn).
    destruct (Z.ltb_spec now dDate); lia. }
  assert (Hcover : (h <= hoursPast p /\ h * -1 <= hoursFuture p)
                   <-> if Dayjs.isBefore now dDate
                       then Z.abs h <= hoursFuture p else Z.abs h <= hoursPast p).
  { destruct (Dayjs.isBefore now dDate); lia. }
  rewrite <- Hcover.
  assert (Hdis : match disabledTillDate p with
                 | Some till => Dayjs.isBefore now till
                 | None => false
                 end = false
                 <-> forall till, disabledTillDate p = Some till -> till <= now).
  { unfold Dayjs.isBefore. destruct (disabledTillDate p) as [till|].
    - rewrite Z.ltb_ge. split; [intros H t [= <-]; exact H | intros H; apply H; reflexivity].
    - split; [intros _ t [=] | reflexivity]. }
  rewrite Hdis.
  assert (Hlast : match Dayjs.diffHoursOpt now (lastRequest (stats p)) with
                  | Some elapsed => 16 <? elapsed
                  | None => false
                  end = true
                  <-> exists last, lastRequest (stats p) = Some last
                                   /\ 17 * Dayjs.msPerHour <= now - last).
  { destruct (lastRequest (stats p)) as [last|]; simpl.
    - rewrite Z.ltb_lt, diffHours_gt_16. split; [eauto | intros (l & [= <-] & H); exact H].
    - split; [discriminate | intros (l & [=] & _)]. }
  rewrite Hlast. tauto.
Qed.

(** C2 (as amended). For every registered provider and every query, [h] being
    the whole number of hours between now and the point in time of the query
    (truncated towards zero), the provider is in the set [getLocationWeather]
    computes exactly when: (1) [hoursFuture] covers [h] for a future query and
    [hoursPast] covers it for a past one; (2) [disabledTillDate] is null or
    not after now; (3) [requestCount] is below the daily limit, or at least
    17 full hours have elapsed since the last request (the whole number of
    elapsed hours exceeds 16). The coverage windows are not negative. *)
Theorem eligible_set (w : World) (dDate : Z) (p : nat) (self : WeatherProvider) :
  providers w !! p = Some self ->
  0 <= hoursPast self ->
  0 <= hoursFuture self ->
  let utcNow := clock w in
  let h := Dayjs.diffHours utcNow dDate in
  exists available,
    Weather.availableProviders utcNow h w = (Ret available, w)
    /\ (p ∈ available
        <-> (if Dayjs.isBefore utcNow dDate
             then Z.abs h <= hoursFuture self
             else Z.abs h <= hoursPast self)
            /\ (forall till, disabledTillDate self = Some till -> till <= utcNow)
            /\ (requestCount (stats self) < perDay (rateLimit (weather (settings w) (name self)))
                \/ exists last, lastRequest (stats self) = Some last
                                /\ 17 * Dayjs.msPerHour <= utcNow - last)).
Proof.
  intros Hself HP HF utcNow h.
  pose proof (eligible_iff (settings w) utcNow dDate self HP HF) as E.
  cbv zeta in E. subst utcNow h.
  eexists. split; [apply availableProviders_eligible|].
  rewrite elem_of_availableProviders, <- E.
  split.
  - intros (self' & Hself' & H). congruence.
  - intros H. eauto.
Qed.

Lemma eligible_set_witness :
  exists available,
    Weather.availableProviders Sample.noon 0
      (Sample.world [Sample.usedUp (20 * Dayjs.msPerHour)] [])
    = (Ret available, Sample.world [Sample.usedUp (20 * Dayjs.msPerHour)] [])
    /\ 0%nat ∈ available.
Proof.
  destruct (eligible_set (Sample.world [Sample.usedUp (20 * Dayjs.msPerHour)] [])
              Sample.noon 0 (Sample.usedUp (20 * Dayjs.msPerHour)))
    as (available & Hrun & Hin).
  - reflexivity.
  - vm_compute. discriminate.
  - vm_compute. discriminate.
  - exists available. split; [exact Hrun|].
    apply Hin. split; [|split].
    + vm_compute. discriminate.
    + intros till H. discriminate H.
    + right. exists (Sample.noon - 20 * Dayjs.msPerHour). split; [reflexivity|].
      vm_compute. discriminate.
Defined.

(** C2, as it is stated, fails: with the quota used up and the last request
    sixteen and a half hours old, more than 16 hours have elapsed, and yet
    the provider is not eligible. *)
Lemma eligible_set_counterexample :
  let p := Sample.usedUp (16 * Dayjs.msPerHour + Sample.halfHour) in
  eligibleAsSpecified Sample.cfg Sample.noon Sample.noon p = true
  /\ fst (Weather.availableProviders Sample.noon (Dayjs.diffHours Sample.noon Sample.noon)
            (Sample.world [p] []))
     = Ret [].
Proof. split; reflexivity. Qed.

(** C10. Evaluating the filter leaves the world, and so the runtime state of
    every provider, as it was; a provider that is over its quota and is let in
    because its last request is old keeps its [requestCount]. *)
Theorem filter_keeps_runtime_state (w : World) (utcNow hours : Z) :
  snd (Weather.availableProviders utcNow hours w) = w
  /\ forall available p self,
       fst (Weather.availableProviders utcNow hours w) = Ret available ->
       p ∈ available ->
       providers w !! p = Some self ->
       perDay (rateLimit (weather (settings w) (name self))) <= requestCount (stats self) ->
       providers (snd (Weather.availableProviders utcNow hours w)) !! p = Some self
       /\ exists last, lastRequest (stats self) = Some last
                       /\ 16 < Dayjs.diffHours utcNow last.
Proof.
  rewrite availableProviders_eligible. simpl. split; [reflexivity|].
  intros available p self [= <-] Hin Hself Hquota. split; [exact Hself|].
  apply elem_of_availableProviders in Hin as (self' & Hself' & Hel).
  assert (self' = self) as -> by congruence.
  unfold eligible in Hel.
  rewrite !andb_true_iff, orb_true_iff, Z.ltb_lt in Hel.
  destruct Hel as (_ & [Hlt | Hold]); [lia|].
  destruct (lastRequest (stats self)) as [last|]; simpl in Hold; [|discriminate].
  exists last. split; [reflexivity | apply Z.ltb_lt, Hold].
Qed.

Lemma filter_keeps_runtime_state_witness :
  providers (snd (Weather.availableProviders Sample.noon 0
                    (Sample.world [Sample.usedUp (20 * Dayjs.msPerHour)] [])))
    !! 0%nat
  = Some (Sample.usedUp (20 * Dayjs.msPerHour)).
Proof.
  destruct (filter_keeps_runtime_state
              (Sample.world [Sample.usedUp (20 * Dayjs.msPerHour)] []) Sample.noon 0)
    as [_ H].
  apply (H [0%nat] 0%nat (Sample.usedUp (20 * Dayjs.msPerHour))).
  - reflexivity.
  - left.
  - reflexivity.
  - vm_compute. discriminate.
Defined.

(** ** The adapter (C9) *)

Lemma updateProvider_Some (w : World) (i : nat) (f : WeatherProvider -> WeatherProvider)
    (self : WeatherProvider) :
  providers w !! i = Some self ->
  updated i f w = setProviders (<[i := f self]> (providers w)) w.
Proof. intros H. unfold updated. rewrite H. reflexivity. Qed.

Lemma apiRequest_cases (w : World) (this : nat) (self : WeatherProvider) :
  providers w !! this = Some self ->
  apiRequest this w
  = let w1 := setProviders (<[this := withStats (countRequest (clock w)) self]> (providers w)) w in
    match network w with
    | [] => (Throw (AxiosError None), w1)
    | Responded body :: rest => (Ret body, setNetwork rest w1)
    | Failed status :: rest => (Throw (AxiosError status), setNetwork rest w1)
    end.
Proof.
  intros Hself. unfold apiRequest, updateProvider, bind, gets, modify.
  rewrite (updateProvider_Some _ _ _ _ Hself). simpl.
  destruct (network w) as [|[body|status] rest]; reflexivity.
Qed.

Lemma catch_getWeather (w : World) (this : nat) (self : WeatherProvider) (who : string)
    (coordinates : list Z) (dDate : Z) (ex : Exn) :
  providers w !! this = Some self ->
  (logger LogError StormGlass.tag ;;
   updateProvider this (withStats countError) ;;
   recordCall who coordinates dDate Threw ;;
   (throw ex : M (option WeatherSummary))) w
  = (Throw ex,
     called who coordinates dDate Threw
       (setProviders (<[this := withStats countError self]> (providers w))
          (logged LogError StormGlass.tag w))).
Proof.
  intros Hself. unfold logger, updateProvider, recordCall, bind, throw, modify.
  erewrite updateProvider_Some by (simpl; exact Hself). reflexivity.
Qed.

(** [getWeather], case by case. *)
Lemma getWeather_cases (w : World) (this : nat) (self : WeatherProvider)
    (coordinates : list Z) (dDate : Z) (preferences : option UserPreferences) :
  providers w !! this = Some self ->
  StormGlass.getWeather this coordinates dDate preferences w
  = if StormGlass.outOfRange self (clock w) dDate
    then (Throw (JsError "Date out of range"), thrown this self coordinates dDate w)
    else
      let self1 := withStats (countRequest (clock w)) self in
      let w1 := requested this self w in
      match network w with
      | [] => (Throw (AxiosError None), thrown this self1 coordinates dDate w1)
      | Failed status :: rest =>
          (Throw (AxiosError status), thrown this self1 coordinates dDate (setNetwork rest w1))
      | Responded NoBody :: rest =>
          (Ret None, called (name self) coordinates dDate GaveNothing (setNetwork rest w1))
      | Responded NoHours :: rest =>
          (Throw (TypeError "Cannot read properties of undefined (reading 'find')"),
           thrown this self1 coordinates dDate (setNetwork rest w1))
      | Responded (Hours rows) :: rest =>
          match StormGlass.findTimeData rows dDate with
          | None =>
              (Ret None, called (name self) coordinates dDate GaveNothing (setNetwork rest w1))
          | Some timeData =>
              (Ret (Some (StormGlass.summaryOf (name self) timeData dDate
                            (default StormGlass.noPreferences preferences))),
               called (name self) coordinates dDate GaveSummary
                 (logged LogInfo StormGlass.tag (setNetwork rest w1)))
          end
      end.
Proof.
  intros Hself.
  assert (Hlt : (this < length (providers w))%nat) by (eapply lookup_lt_Some; eauto).
  unfold StormGlass.getWeather. unfold bind at 1. rewrite (getProvider_Some _ _ _ Hself).
  unfold bind at 1, gets at 1. unfold tryCatch.
  destruct (StormGlass.outOfRange self (clock w) dDate).
  - unfold bind at 1. unfold throw at 1.
    rewrite (catch_getWeather _ _ self) by exact Hself. reflexivity.
  - unfold bind at 1. unfold ret at 1. unfold bind at 1. unfold logger at 1, modify at 1.
    unfold bind at 1.
    rewrite (apiRequest_cases _ _ self) by exact Hself. cbv zeta.
    assert (Hself1 : forall n,
               providers (setNetwork n (setProviders
                 (<[this := withStats (countRequest (clock w)) self]> (providers w))
                 (logged LogDebug StormGlass.tag w))) !! this
               = Some (withStats (countRequest (clock w)) self)).
    { intros. simpl. apply list_lookup_insert_eq, Hlt. }
    change (network (logged LogDebug StormGlass.tag w)) with (network w).
    destruct (network w) as [|[body|status] rest] eqn:Hnet.
    + rewrite (catch_getWeather _ _ (withStats (countRequest (clock w)) self)).
      * reflexivity.
      * simpl. apply list_lookup_insert_eq, Hlt.
    + destruct body as [| |rows]; simpl.
      * reflexivity.
      * rewrite (catch_getWeather _ _ (withStats (countRequest (clock w)) self)).
        -- reflexivity.
        -- apply Hself1.
      * unfold bind, ret. destruct (StormGlass.findTimeData rows dDate); reflexivity.
    + rewrite (catch_getWeather _ _ (withStats (countRequest (clock w)) self)).
      * reflexivity.
      * apply Hself1.
Qed.

Lemma getWeather_effect (w w' : World) (this : nat) (self : WeatherProvider)
    (coordinates : list Z) (dDate : Z) (preferences : option UserPreferences)
    (r : Result (option WeatherSummary)) :
  providers w !! this = Some self ->
  StormGlass.getWeather this coordinates dDate preferences w = (r, w') ->
  calls w' = calls w ++ [{| callee := name self; callCoordinates := coordinates;
                           callDate := dDate; outcome := resultOutcome r |}]
  /\ (exists extra, logs w' = logs w ++ extra
                    /\ Forall (fun e => origin e = StormGlass.tag) extra)
  /\ errorCountOf w' this
     = Some (errorCount (stats self) + if isThrow r then 1 else 0)
  /\ disabledTillDateOf w' this = Some (disabledTillDate self)
  /\ nameOf w' this = Some (name self)
  /\ (forall other, other <> this -> providers w' !! other = providers w !! other)
  /\ (forall s, r = Ret (Some s) -> provider s = name self)
  /\ settings w' = settings w /\ clock w' = clock w /\ entropy w' = entropy w
  /\ cache w' = cache w /\ maxHoursPast w' = maxHoursPast w.
Proof.
  intros Hself Hrun.
  assert (Hlt : (this < length (providers w))%nat) by (eapply lookup_lt_Some; eauto).
  rewrite (getWeather_cases _ _ _ _ _ _ Hself) in Hrun.
  assert (Hins : forall f g : WeatherProvider -> WeatherProvider,
             <[this := g (f self)]> (<[this := f self]> (providers w)) !! this
             = Some (g (f self))).
  { intros. apply list_lookup_insert_eq. rewrite length_insert. exact Hlt. }
  assert (Hins1 : forall f : WeatherProvider -> WeatherProvider,
             <[this := f self]> (providers w) !! this = Some (f self)).
  { intros. apply list_lookup_insert_eq. exact Hlt. }
  assert (Hne : forall (ps : list WeatherProvider) x other,
             other <> this -> <[this := x]> ps !! other = ps !! other).
  { intros. apply list_lookup_insert_ne. congruence. }
  unfold errorCountOf, disabledTillDateOf, nameOf.
  destruct (StormGlass.outOfRange self (clock w) dDate).
  { injection Hrun as <- <-. unfold thrown, called, logged. simpl.
    rewrite (Hins1 (withStats countError)). simpl.
    repeat split; try reflexivity; try (intros; discriminate); try (intros; apply Hne; assumption).
    eexists; split; [reflexivity | repeat constructor]. }
  cbv zeta in Hrun.
  destruct (network w) as [|[body|status] rest];
    [ | destruct body as [| |rows];
        [ | | destruct (StormGlass.findTimeData rows dDate) as [timeData|] ] | ];
    injection Hrun as <- <-; unfold thrown, requested, called, logged; simpl;
    rewrite ?(Hins (withStats (countRequest (clock w))) (withStats countError)),
            ?(Hins1 (withStats (countRequest (clock w)))); simpl;
    rewrite ?Z.add_0_r;
    (repeat split; try reflexivity; try (intros; discriminate);
     try (intros; rewrite ?Hne by assumption; reflexivity);
     try (rewrite <- ?app_assoc; eexists; split; [reflexivity | repeat constructor])).
  intros s [= <-]. reflexivity.
Qed.

Lemma outOfRange_iff (self : WeatherProvider) (now dDate : Z) :
  0 <= hoursPast self -> 0 <= hoursFuture self ->
  StormGlass.outOfRange self now dDate = true
  <-> dDate <= Dayjs.subtractHours now (hoursPast self + 1)
      \/ Dayjs.addHours now (hoursFuture self + 1) <= dDate.
Proof.
  intros HP HF.
  unfold StormGlass.outOfRange, Dayjs.isBefore, Dayjs.diffHours, Dayjs.subtractHours,
    Dayjs.addHours, Dayjs.msPerHour.
  destruct (quot_rem_bounds (now - dDate) 3600000 ltac:(lia)) as (r & E & Hr & Hp & Hn).
  rewrite Z.ltb_lt. destruct (Z.ltb_spec now dDate); lia.
Qed.

(** C9 (as amended). For every point in time that lies a full hour or more
    outside [now - hoursPast, now + hoursFuture] (the whole number of hours
    to it, truncated, exceeds the bound), [getWeather] throws the
    out-of-range error without a request: the replies of the network and the
    request counter are untouched. And whenever [getWeather] throws, for
    whatever reason, the error counter of the provider is one more than
    before; whenever it returns, with a summary or with none, the counter is
    as before. *)
Theorem getWeather_range_and_errors (w : World) (this : nat) (self : WeatherProvider)
    (coordinates : list Z) (dDate : Z) (preferences : option UserPreferences) :
  providers w !! this = Some self ->
  0 <= hoursPast self ->
  0 <= hoursFuture self ->
  (dDate <= Dayjs.subtractHours (clock w) (hoursPast self + 1)
   \/ Dayjs.addHours (clock w) (hoursFuture self + 1) <= dDate ->
   exists w',
     StormGlass.getWeather this coordinates dDate preferences w
     = (Throw (JsError "Date out of range"), w')
     /\ network w' = network w
     /\ requestCountOf w' this = Some (requestCount (stats self))
     /\ errorCountOf w' this = Some (errorCount (stats self) + 1))
  /\ (forall r w',
        StormGlass.getWeather this coordinates dDate preferences w = (r, w') ->
        errorCountOf w' this
        = Some (errorCount (stats self) + if isThrow r then 1 else 0)).
Proof.
  intros Hself HP HF. split.
  - intros Hout. apply (outOfRange_iff self (clock w) dDate HP HF) in Hout.
    rewrite (getWeather_cases _ _ _ _ _ _ Hself), Hout.
    eexists. split; [reflexivity|].
    unfold thrown, called, logged, requestCountOf, errorCountOf. simpl.
    rewrite list_lookup_insert_eq by (eapply lookup_lt_Some; eauto).
    repeat split.
  - intros r w' Hrun.
    destruct (getWeather_effect _ _ _ _ _ _ _ _ Hself Hrun) as (_ & _ & H & _).
    exact H.
Qed.

Lemma getWeather_range_and_errors_witness :
  exists w',
    StormGlass.getWeather 0 Sample.london (Sample.noon + Dayjs.msPerHour) None
      (Sample.world [stormglass] [])
    = (Throw (JsError "Date out of range"), w')
    /\ network w' = []
    /\ requestCountOf w' 0 = Some 0
    /\ errorCountOf w' 0 = Some (0 + 1).
Proof.
  destruct (getWeather_range_and_errors (Sample.world [stormglass] []) 0 stormglass
              Sample.london (Sample.noon + Dayjs.msPerHour) None) as [H _].
  - reflexivity.
  - vm_compute. discriminate.
  - vm_compute. discriminate.
  - apply H. right. vm_compute. discriminate.
Defined.

(** C9, as it is stated, fails: half an hour from now is outside the window
    of Storm Glass, which forecasts nothing, and yet [getWeather] sends the
    request and returns the summary of the reading. *)
Lemma getWeather_range_counterexample :
  let dDate := Sample.noon + Sample.halfHour in
  let w := Sample.world [stormglass] [Responded (Hours [Sample.reading dDate])] in
  insideWindow stormglass (clock w) dDate = false
  /\ fst (StormGlass.getWeather 0 Sample.london dDate None w)
     = Ret (Some (StormGlass.summaryOf "stormglass" (Sample.reading dDate) dDate
                    StormGlass.noPreferences))
  /\ network (snd (StormGlass.getWeather 0 Sample.london dDate None w)) = []
  /\ errorCountOf (snd (StormGlass.getWeather 0 Sample.london dDate None w)) 0 = Some 0.
Proof. repeat split; reflexivity. Qed.

(** ** Frame rules *)

Section Frames.

Context (R : World -> World -> Prop) `{!PreOrder R}.

Lemma stepsIn_ret {A} (a : A) : stepsIn R (ret a).
Proof. intros w. simpl. reflexivity. Qed.

Lemma stepsIn_throw {A} (e : Exn) : stepsIn R (throw e : M A).
Proof. intros w. simpl. reflexivity. Qed.

Lemma stepsIn_gets {A} (f : World -> A) : stepsIn R (gets f).
Proof. intros w. simpl. reflexivity. Qed.

Lemma stepsIn_readOnly {A} (m : M A) : readOnly m -> stepsIn R m.
Proof. intros H w. rewrite H. reflexivity. Qed.

Lemma stepsIn_modify (f : World -> World) : (forall w, R w (f w)) -> stepsIn R (modify f).
Proof. intros H w. apply H. Qed.

Lemma stepsIn_bind {A B} (m : M A) (k : A -> M B) :
  stepsIn R m -> (forall a, stepsIn R (k a)) -> stepsIn R (bind m k).
Proof.
  intros Hm Hk w. unfold bind. specialize (Hm w).
  destruct (m w) as [[a|e] w1]; simpl in *; [|exact Hm].
  etransitivity; [exact Hm | apply Hk].
Qed.

Lemma stepsIn_tryCatch {A} (m : M A) (h : Exn -> M A) :
  stepsIn R m -> (forall e, stepsIn R (h e)) -> stepsIn R (tryCatch m h).
Proof.
  intros Hm Hh w. unfold tryCatch. specialize (Hm w).
  destruct (m w) as [[a|e] w1]; simpl in *; [exact Hm|].
  etransitivity; [exact Hm | apply Hh].
Qed.

Lemma stepsIn_filterM {A} (callback : A -> M bool) (array : list A) :
  (forall x, stepsIn R (callback x)) -> stepsIn R (Weather.filterM callback array).
Proof.
  intros H. induction array as [|x rest IH]; simpl.
  - apply stepsIn_ret.
  - apply stepsIn_bind; [apply H|]. intros keep.
    apply stepsIn_bind; [apply IH|]. intros kept. apply stepsIn_ret.
Qed.

Lemma stepsIn_forEach {A} (l : list A) (body : A -> M unit) :
  (forall x, stepsIn R (body x)) -> stepsIn R (Weather.forEach l body).
Proof.
  intros H. induction l as [|x rest IH]; simpl.
  - apply stepsIn_ret.
  - apply stepsIn_bind; [apply H | intros _; apply IH].
Qed.

End Frames.

#[export] Instance grows_preorder {X} (f : World -> list X) (P : X -> Prop) :
  PreOrder (grows f P).
Proof.
  split.
  - intros w. exists []. split; [symmetry; apply app_nil_r | constructor].
  - intros w1 w2 w3 (e1 & H1 & P1) (e2 & H2 & P2). exists (e1 ++ e2). split.
    + rewrite H2, H1, app_assoc. reflexivity.
    + apply Forall_app. split; assumption.
Qed.

#[export] Instance keeps_preorder {X} (f : World -> X) : PreOrder (keeps f).
Proof.
  split.
  - intros w. reflexivity.
  - intros w1 w2 w3 H1 H2. unfold keeps in *. congruence.
Qed.

Lemma grows_same {X} (f : World -> list X) (P : X -> Prop) (w w' : World) :
  f w' = f w -> grows f P w w'.
Proof. intros H. exists []. rewrite H, app_nil_r. split; [reflexivity | constructor]. Qed.

Lemma grows_one {X} (f : World -> list X) (P : X -> Prop) (w w' : World) (x : X) :
  f w' = f w ++ [x] -> P x -> grows f P w w'.
Proof. intros H Hx. exists [x]. split; [exact H | repeat constructor; exact Hx]. Qed.

(** ** The registry and the activity lookup (C7, C8) *)

Lemma greatestHoursPast_snoc (ps : list WeatherProvider) (p : WeatherProvider) :
  greatestHoursPast (ps ++ [p]) = Z.max (greatestHoursPast ps) (hoursPast p).
Proof. unfold greatestHoursPast. rewrite foldl_app. reflexivity. Qed.

Lemma initProvider_coherent (provider : WeatherProvider) (w : World) :
  coherent w -> coherent (snd (Weather.initProvider provider w)).
Proof.
  unfold coherent, Weather.initProvider. unfoldM. simpl. intros H.
  destruct (disabled _); [exact H|].
  destruct (bool_decide _); [exact H|]. simpl.
  destruct (Z.ltb_spec (maxHoursPast w) (hoursPast provider)); simpl;
    rewrite greatestHoursPast_snoc; simpl; lia.
Qed.

Lemma initProvider_returns (provider : WeatherProvider) (w : World) :
  fst (Weather.initProvider provider w) = Ret tt.
Proof.
  unfold Weather.initProvider. unfoldM. simpl.
  destruct (disabled _); [reflexivity|].
  destruct (bool_decide _); [reflexivity|]. simpl.
  destruct (_ <? _); reflexivity.
Qed.

(** After [init], [maxHoursPast] is the greatest [hoursPast] of the
    registered providers. *)
Lemma init_coherent (all : list WeatherProvider) (w : World) :
  coherent w -> coherent (snd (Weather.init all w)).
Proof.
  intros H. unfold Weather.init, tryCatch, bind.
  assert (Hloop : forall l w0, coherent w0 ->
            fst (Weather.forEach l Weather.initProvider w0) = Ret tt
            /\ coherent (snd (Weather.forEach l Weather.initProvider w0))).
  { induction l as [|x rest IH]; intros w0 H0; [split; [reflexivity | exact H0]|].
    simpl. unfold bind.
    pose proof (initProvider_returns x w0) as Hr.
    pose proof (initProvider_coherent x w0 H0) as Hc.
    destruct (Weather.initProvider x w0) as [r w1]. simpl in Hr, Hc. subst r.
    apply IH, Hc. }
  destruct (Hloop all w H) as [Hr Hc].
  destruct (Weather.forEach all Weather.initProvider w) as [r w1]. simpl in Hr, Hc.
  subst r. exact Hc.
Qed.

(** C8. An activity that ended more than [maxHoursPast] hours ago, with
    [maxHoursPast] the greatest [hoursPast] of the registered providers, gets
    null, and no adapter is called: no call is recorded and no request is
    sent. *)
Theorem out_of_coverage (w : World) (user : UserData) (activity : StravaActivity) (dEnd : Z) :
  maxHoursPast w = greatestHoursPast (providers w) ->
  dateEnd activity = Some dEnd ->
  dEnd < Dayjs.subtractHours (clock w) (greatestHoursPast (providers w)) ->
  exists w',
    Weather.getActivityWeather user activity w = (Ret None, w')
    /\ calls w' = calls w
    /\ network w' = network w
    /\ providers w' = providers w.
Proof.
  intros Hmax Hend Hold.
  unfold Weather.getActivityWeather, tryCatch.
  destruct (hasLocation activity); simpl.
  - unfold bind at 1. unfold gets at 1. unfold bind at 1. unfold gets at 1.
    rewrite Hmax, Hend. simpl.
    unfold Dayjs.isAfter. destruct (Z.ltb_spec dEnd
      (Dayjs.subtractHours (clock w) (greatestHoursPast (providers w)))); [|lia].
    eexists. split; [reflexivity|]. repeat split.
  - eexists. split; [reflexivity|]. repeat split.
Qed.

Lemma out_of_coverage_witness :
  exists w',
    Weather.getActivityWeather Sample.user (Sample.ride (Sample.noon - 200 * Dayjs.msPerHour))
      (snd (Weather.init [stormglass] (Sample.world [] [])))
    = (Ret None, w')
    /\ calls w' = []
    /\ network w' = []
    /\ providers w' = [stormglass].
Proof.
  apply (out_of_coverage (snd (Weather.init [stormglass] (Sample.world [] [])))
           Sample.user (Sample.ride (Sample.noon - 200 * Dayjs.msPerHour))
           (Sample.noon - 200 * Dayjs.msPerHour + Dayjs.msPerHour)).
  - vm_compute. reflexivity.
  - reflexivity.
  - vm_compute. reflexivity.
Defined.

Lemma lookupStartEnd_produced (user : UserData) (activity : StravaActivity) (w : World) :
  fst (Weather.lookupStartEnd user activity (dateStart activity) (dateStart activity) w)
  = Ret {| start := produced (fst (startLookup user activity w));
           mid := None;
           end_ := match startLookup user activity w with
                   | (Ret _, w1) => produced (fst (endLookup user activity w1))
                   | (Throw _, _) => None
                   end |}.
Proof.
  unfold Weather.lookupStartEnd, startLookup, endLookup, tryCatch, bind, ret, logger, modify.
  destruct (Weather.getLocationWeather user (locationStart activity)
              (Some (dateStart activity)) None w) as [[s|ex] w1]; simpl; [|reflexivity].
  destruct (Weather.getLocationWeather user (locationEnd activity)
              (Some (dateStart activity)) None w1) as [[e|ex] w2]; reflexivity.
Qed.

Lemma lookupMid_produced (user : UserData) (activity : StravaActivity)
    (weather : ActivityWeather) (w : World) :
  mid weather = None ->
  fst (Weather.lookupMid user activity weather w)
  = Ret {| start := start weather;
           mid := if isPro user && (10800 <? totalTime activity)
                  then produced (fst (midLookup user activity w))
                  else None;
           end_ := end_ weather |}.
Proof.
  intros Hmid. unfold Weather.lookupMid, midLookup, tryCatch, bind, ret, logger, modify.
  destruct weather as [s m e]. simpl in *. subst m.
  destruct (isPro user && (10800 <? totalTime activity)); [|reflexivity].
  destruct (Weather.getLocationWeather user (locationMid activity)
              (Some (dateStart activity + totalTime activity * 500)) None w)
    as [[v|ex] w1]; reflexivity.
Qed.

(** [getActivityWeather] in terms of what its lookups produced. *)
Lemma getActivityWeather_produced (user : UserData) (activity : StravaActivity) (w : World) :
  fst (Weather.getActivityWeather user activity w)
  = Ret match startProduced user activity w, endProduced user activity w with
        | None, None => None
        | s, e => Some {| start := s; mid := midProduced user activity w; end_ := e |}
        end.
Proof.
  unfold startProduced, endProduced, midProduced, turnedAway, Weather.getActivityWeather.
  unfold tryCatch at 1.
  destruct (hasLocation activity); simpl; [|reflexivity].
  unfold bind at 1. unfold gets at 1. unfold bind at 1. unfold gets at 1.
  destruct (Dayjs.isAfter _ _); [reflexivity|].
  unfold bind at 1.
  pose proof (lookupStartEnd_produced user activity w) as Hse.
  destruct (Weather.lookupStartEnd user activity (dateStart activity) (dateStart activity) w)
    as [r w2]. simpl in Hse. subst r.
  unfold bind at 1.
  pose proof (lookupMid_produced user activity
                {| start := produced (fst (startLookup user activity w));
                   mid := None;
                   end_ := match startLookup user activity w with
                           | (Ret _, w1) => produced (fst (endLookup user activity w1))
                           | (Throw _, _) => None
                           end |} w2 eq_refl) as Hm.
  destruct (Weather.lookupMid user activity _ w2) as [r w3]. simpl in Hm. subst r.
  simpl.
  destruct (produced (fst (startLookup user activity w))) as [s|];
    [reflexivity|].
  destruct (startLookup user activity w) as [[v|ex] w1]; simpl; [|reflexivity].
  destruct (produced (fst (endLookup user activity w1))); reflexivity.
Qed.

Lemma getLocationWeather_no_coordinates (user : UserData) (dDate : option Z)
    (wanted : option string) (w : World) (coordinates : option (list JsNumber)) :
  coordinates = None \/ coordinates = Some [] ->
  fst (Weather.getLocationWeather user coordinates dDate wanted w) = Ret None.
Proof.
  intros [-> | ->]; unfold Weather.getLocationWeather; destruct dDate; reflexivity.
Qed.

(** C7. [getActivityWeather] returns, and returns null exactly when neither
    the start lookup nor the end lookup produced a summary; otherwise it
    returns the weather with what the start, middle and end lookups produced.
    In particular an activity with a start location only, whose start lookup
    produced a summary, gets a result with [start] set and [end] absent. *)
Theorem activity_partial_results (w : World) (user : UserData) (activity : StravaActivity) :
  (exists result,
     fst (Weather.getActivityWeather user activity w) = Ret result
     /\ (result = None
         <-> startProduced user activity w = None /\ endProduced user activity w = None)
     /\ (forall weather,
           result = Some weather ->
           start weather = startProduced user activity w
           /\ mid weather = midProduced user activity w
           /\ end_ weather = endProduced user activity w))
  /\ (forall s,
        locationEnd activity = None \/ locationEnd activity = Some [] ->
        startProduced user activity w = Some s ->
        exists weather,
          fst (Weather.getActivityWeather user activity w) = Ret (Some weather)
          /\ start weather = Some s
          /\ end_ weather = None).
Proof.
  rewrite getActivityWeather_produced. split.
  - eexists. split; [reflexivity|]. split.
    + destruct (startProduced user activity w), (endProduced user activity w);
        split; try discriminate; try tauto; intros [H1 H2]; discriminate.
    + intros weather.
      destruct (startProduced user activity w), (endProduced user activity w);
        intros [= <-]; repeat split.
  - intros s Hend Hs. rewrite Hs.
    assert (He : endProduced user activity w = None).
    { unfold endProduced. destruct (turnedAway activity w); [reflexivity|].
      destruct (startLookup user activity w) as [[v|ex] w1]; [|reflexivity].
      unfold endLookup. rewrite getLocationWeather_no_coordinates by exact Hend.
      reflexivity. }
    rewrite He. eexists. split; [reflexivity|]. split; reflexivity.
Qed.

Lemma activity_partial_results_witness :
  let from := Sample.noon - 2 * Dayjs.msPerHour in
  exists weather,
    fst (Weather.getActivityWeather Sample.user (Sample.startOnly from)
           (Sample.world [stormglass] [Responded (Hours [Sample.reading from])]))
    = Ret (Some weather)
    /\ start weather
       = Some (StormGlass.summaryOf "stormglass" (Sample.reading from) from
                 StormGlass.noPreferences)
    /\ end_ weather = None.
Proof.
  intros from.
  destruct (activity_partial_results
              (Sample.world [stormglass] [Responded (Hours [Sample.reading from])])
              Sample.user (Sample.startOnly from)) as [_ H].
  apply H.
  - left. reflexivity.
  - vm_compute. reflexivity.
Defined.

(** ** The frame of each step *)

Ltac frame_step :=
  match goal with
  | |- stepsIn ?R (bind _ _) => apply (stepsIn_bind R); [| intros ?]
  | |- stepsIn ?R (tryCatch _ _) => apply (stepsIn_tryCatch R); [| intros ?]
  | |- stepsIn ?R (ret _) => apply (stepsIn_ret R)
  | |- stepsIn ?R (throw _) => apply (stepsIn_throw R)
  | |- stepsIn ?R (gets _) => apply (stepsIn_gets R)
  | |- stepsIn _ (match ?x with _ => _ end) => destruct x
  end.

Lemma keepsStatic_withStats f : keepsStatic (withStats f).
Proof. intros p. repeat split. Qed.

Lemma keepsStatic_withDisabledTillDate d : keepsStatic (withDisabledTillDate d).
Proof. intros p. repeat split. Qed.

Section Quiet.

Context (R : World -> World -> Prop) `{!PreOrder R}.
Hypothesis R_entropy : forall e w, R w (setEntropy e w).
Hypothesis R_network : forall n w, R w (setNetwork n w).
Hypothesis R_cache : forall c w, R w (setCache c w).
Hypothesis R_updated : forall i f w, keepsStatic f -> R w (updated i f w).
Hypothesis R_logged : forall l o w, o <> fromCacheTag -> R w (logged l o w).
Hypothesis R_called : forall who coordinates dDate o w,
  R w (called who coordinates dDate o w).

Lemma quiet_randomBelow (n : nat) : stepsIn R (randomBelow n).
Proof.
  intros w. unfold randomBelow. destruct (entropy w); simpl; [reflexivity | apply R_entropy].
Qed.

Lemma quiet_sample {A} (array : list A) : stepsIn R (sample array).
Proof.
  unfold sample. destruct array; repeat frame_step. apply quiet_randomBelow.
Qed.

Lemma quiet_shuffleSelf {A} (steps index : nat) (array : list A) :
  stepsIn R (shuffleSelf steps index array).
Proof.
  revert index array. induction steps as [|steps IH]; intros index array; simpl.
  - apply (stepsIn_ret R).
  - apply (stepsIn_bind R); [apply quiet_randomBelow | intros r; apply IH].
Qed.

Lemma quiet_sampleSize {A} (array : list A) (n : nat) : stepsIn R (sampleSize array n).
Proof. unfold sampleSize. repeat frame_step. apply quiet_shuffleSelf. Qed.

Lemma quiet_getProvider (ref : option nat) : stepsIn R (getProvider ref).
Proof. apply (stepsIn_readOnly R), readOnly_getProvider. Qed.

Lemma quiet_updateProvider (i : nat) (f : WeatherProvider -> WeatherProvider) :
  keepsStatic f -> stepsIn R (updateProvider i f).
Proof. intros Hf. apply (stepsIn_modify R). intros w. apply R_updated, Hf. Qed.

Lemma quiet_cacheSet (key : CacheKey) (value : option WeatherSummary) :
  stepsIn R (cacheSet key value).
Proof. apply (stepsIn_modify R). intros w. apply R_cache. Qed.

Lemma quiet_apiRequest (this : nat) : stepsIn R (apiRequest this).
Proof.
  unfold apiRequest. repeat frame_step.
  - apply quiet_updateProvider, keepsStatic_withStats.
  - intros w. destruct (network w) as [|[body|status] rest]; simpl;
      [reflexivity | apply R_network | apply R_network].
Qed.

Lemma quiet_toWeatherSummary (this : string) (data : ResponseBody) (coordinates : list Z)
    (dDate : Z) (preferences : UserPreferences) :
  stepsIn R (StormGlass.toWeatherSummary this data coordinates dDate preferences).
Proof. unfold StormGlass.toWeatherSummary. repeat frame_step. Qed.

Lemma quiet_resolveProvider (preferences : option UserPreferences) (wanted : option string) :
  stepsIn R (Weather.resolveProvider preferences wanted).
Proof. unfold Weather.resolveProvider. repeat frame_step. apply quiet_sample. Qed.

Lemma quiet_selectProviders (available : list nat) (wanted : option string) :
  stepsIn R (Weather.selectProviders available wanted).
Proof.
  unfold Weather.selectProviders, Weather.remove. repeat frame_step.
  all: first [apply quiet_sample | apply quiet_sampleSize].
Qed.

Lemma quiet_setDisabledTillDate (providerModule : option nat) (d : option Z) :
  stepsIn R (Weather.setDisabledTillDate providerModule d).
Proof.
  unfold Weather.setDisabledTillDate. destruct providerModule;
    [apply quiet_updateProvider, keepsStatic_withDisabledTillDate | apply (stepsIn_throw R)].
Qed.

Lemma quiet_availableProviders (utcNow hours : Z) :
  stepsIn R (Weather.availableProviders utcNow hours).
Proof.
  intros w. rewrite availableProviders_eligible. simpl. reflexivity.
Qed.

Lemma quiet_logger (l : Level) (o : string) : o <> fromCacheTag -> stepsIn R (logger l o).
Proof. intros H. apply (stepsIn_modify R). intros w. apply R_logged, H. Qed.

Lemma quiet_recordCall who coordinates dDate o :
  stepsIn R (recordCall who coordinates dDate o).
Proof. apply (stepsIn_modify R). intros w. apply R_called. Qed.

Ltac quiet_here :=
  first [ frame_step
        | apply quiet_getProvider | apply quiet_apiRequest | apply quiet_toWeatherSummary
        | apply quiet_recordCall | apply quiet_selectProviders
        | apply quiet_setDisabledTillDate | apply quiet_cacheSet
        | apply quiet_availableProviders
        | apply quiet_updateProvider, keepsStatic_withStats
        | apply quiet_logger; intros Htag; vm_compute in Htag; discriminate Htag ].

Lemma quiet_getWeather this coordinates dDate preferences :
  stepsIn R (StormGlass.getWeather this coordinates dDate preferences).
Proof. unfold StormGlass.getWeather. repeat quiet_here. Qed.

Lemma quiet_callGetWeather providerModule coordinates dDate preferences :
  stepsIn R (Weather.callGetWeather providerModule coordinates dDate preferences).
Proof.
  unfold Weather.callGetWeather. repeat first [apply quiet_getWeather | quiet_here].
Qed.

Lemma quiet_tryProviders user coordinates dDate utcNow wanted available :
  stepsIn R (Weather.tryProviders user coordinates dDate utcNow wanted available).
Proof.
  unfold Weather.tryProviders, Weather.firstAttempt, Weather.onFailure.
  repeat first [apply quiet_callGetWeather | quiet_here].
Qed.

Lemma quiet_queryProviders user coordinates dDate utcNow hours wanted :
  stepsIn R (Weather.queryProviders user coordinates dDate utcNow hours wanted).
Proof.
  unfold Weather.queryProviders. repeat first [apply quiet_tryProviders | quiet_here].
Qed.

(** With a relation that any call of the logger respects, the whole lookups. *)
Hypothesis R_logged_any : forall l o w, R w (logged l o w).

Lemma quiet_logger_any (l : Level) (o : string) : stepsIn R (logger l o).
Proof. apply (stepsIn_modify R). intros w. apply R_logged_any. Qed.

Lemma quiet_getLocationWeather user coordinates dDate wanted :
  stepsIn R (Weather.getLocationWeather user coordinates dDate wanted).
Proof.
  unfold Weather.getLocationWeather, Weather.locateWeather, cacheGet.
  repeat first [ apply quiet_queryProviders | apply quiet_resolveProvider
               | apply quiet_logger_any | quiet_here ].
Qed.

Lemma quiet_getActivityWeather user activity :
  stepsIn R (Weather.getActivityWeather user activity).
Proof.
  unfold Weather.getActivityWeather, Weather.lookupStartEnd, Weather.lookupMid.
  repeat first [ apply quiet_getLocationWeather | apply quiet_logger_any | quiet_here ].
Qed.

End Quiet.

(** *** The registry: [maxHoursPast] stays the greatest [hoursPast] *)

#[export] Instance sameCoverage_preorder : PreOrder sameCoverage.
Proof.
  split.
  - intros w. split; reflexivity.
  - intros w1 w2 w3 [H1 H2] [H3 H4]. split; congruence.
Qed.

Lemma sameCoverage_updated i f w : keepsStatic f -> sameCoverage w (updated i f w).
Proof.
  intros Hf. unfold updated. destruct (providers w !! i) as [p|] eqn:Hp; [|reflexivity].
  split; [reflexivity|]. simpl. rewrite list_fmap_insert.
  apply list_insert_id. rewrite list_lookup_fmap, Hp. simpl.
  destruct (Hf p) as (_ & -> & _). reflexivity.
Qed.

Lemma greatestHoursPast_fmap (ps : list WeatherProvider) :
  greatestHoursPast ps = foldl Z.max 0 (hoursPast <$> ps).
Proof.
  unfold greatestHoursPast. generalize 0.
  induction ps as [|p ps IH]; intros acc; [reflexivity | apply IH].
Qed.

Lemma coherent_sameCoverage (w w' : World) : coherent w -> sameCoverage w w' -> coherent w'.
Proof.
  unfold coherent. intros H [Hmax Hps].
  rewrite Hmax, H, !greatestHoursPast_fmap, Hps. reflexivity.
Qed.

(** The lookups leave the coverage of the registry as [init] made it. *)
Lemma getLocationWeather_coherent user coordinates dDate wanted w :
  coherent w -> coherent (snd (Weather.getLocationWeather user coordinates dDate wanted w)).
Proof.
  intros H. apply (coherent_sameCoverage w); [exact H|].
  apply (quiet_getLocationWeather sameCoverage); try (intros; split; reflexivity).
  apply sameCoverage_updated.
Qed.

Lemma getActivityWeather_coherent user activity w :
  coherent w -> coherent (snd (Weather.getActivityWeather user activity w)).
Proof.
  intros H. apply (coherent_sameCoverage w); [exact H|].
  apply (quiet_getActivityWeather sameCoverage); try (intros; split; reflexivity).
  apply sameCoverage_updated.
Qed.

(** *** The log: nothing but a cache hit logs as one *)

Lemma logs_entropy e w : grows logs notFromCache w (setEntropy e w).
Proof. apply grows_same. reflexivity. Qed.

Lemma logs_network n w : grows logs notFromCache w (setNetwork n w).
Proof. apply grows_same. reflexivity. Qed.

Lemma logs_cache c w : grows logs notFromCache w (setCache c w).
Proof. apply grows_same. reflexivity. Qed.

Lemma logs_updated i f w : keepsStatic f -> grows logs notFromCache w (updated i f w).
Proof.
  intros _. apply grows_same. unfold updated. destruct (providers w !! i); reflexivity.
Qed.

Lemma logs_logged l o w : o <> fromCacheTag -> grows logs notFromCache w (logged l o w).
Proof. intros H. eapply grows_one; [reflexivity | exact H]. Qed.

Lemma logs_called who coordinates dDate o w :
  grows logs notFromCache w (called who coordinates dDate o w).
Proof. apply grows_same. reflexivity. Qed.

Create HintDb frames.
#[export] Hint Resolve logs_entropy logs_network logs_cache logs_updated logs_logged
  logs_called keepsStatic_withStats keepsStatic_withDisabledTillDate : frames.

Ltac quiet :=
  first [ apply quiet_randomBelow | apply quiet_sample | apply quiet_sampleSize
        | apply quiet_getProvider | apply quiet_updateProvider | apply quiet_cacheSet
        | apply quiet_apiRequest | apply quiet_toWeatherSummary
        | apply quiet_resolveProvider | apply quiet_selectProviders
        | apply quiet_setDisabledTillDate | apply quiet_availableProviders
        | apply quiet_logger ];
  try exact _; eauto with frames;
  try (intros Htag; vm_compute in Htag; discriminate Htag).

Lemma logs_queryProviders user coordinates dDate utcNow hours wanted :
  stepsIn (grows logs notFromCache)
    (Weather.queryProviders user coordinates dDate utcNow hours wanted).
Proof. apply quiet_queryProviders; eauto with frames; exact _. Qed.

(** ** Preference and cache (C5) *)

Lemma getLocationWeather_malformed user coordinates dDate wanted w :
  Weather.malformed coordinates dDate = true ->
  Weather.getLocationWeather user coordinates dDate wanted w
  = (Ret None, logged LogWarn "Weather.getLocationWeather" w).
Proof.
  unfold Weather.malformed, Weather.getLocationWeather.
  destruct dDate as [d|]; [|reflexivity].
  destruct coordinates as [[|[|c0] [|[|c1] [|]]]|]; try reflexivity; discriminate.
Qed.

Lemma getLocationWeather_wellformed user coordinates dDate wanted :
  Weather.malformed coordinates dDate = false ->
  exists d c0 c1,
    dDate = Some d /\ coordinates = Some [Num c0; Num c1]
    /\ Weather.getLocationWeather user coordinates dDate wanted
        = Weather.locateWeather user [toFixed4 c0; toFixed4 c1] d wanted.
Proof.
  unfold Weather.malformed, Weather.getLocationWeather.
  destruct dDate as [d|]; [|discriminate].
  destruct coordinates as [[|[|c0] [|[|c1] [|]]]|]; try discriminate.
  intros _. exists d, c0, c1. repeat split.
Qed.

Lemma sample_cases {A} (array : list A) (w : World) :
  exists picked w1,
    sample array w = (Ret picked, w1)
    /\ (w1 = w \/ exists e, w1 = setEntropy e w)
    /\ match picked with
       | Some x => x ∈ array
       | None => array = []
       end.
Proof.
  destruct array as [|x rest]; [exists None, w; repeat split; left; reflexivity|].
  unfold sample, bind, randomBelow, ret.
  destruct (entropy w) as [|r e].
  - exists (Some x), w. repeat split; [left; reflexivity | left].
  - assert (Hlt : (r mod length (x :: rest) < length (x :: rest))%nat)
      by (apply Nat.mod_upper_bound; discriminate).
    destruct (lookup_lt_is_Some_2 _ _ Hlt) as [y Hy].
    exists (Some y), (setEntropy e w). rewrite Hy. repeat split; [right; eauto|].
    eapply list_elem_of_lookup_2, Hy.
Qed.

Lemma resolveProvider_cases (preferences : option UserPreferences) (explicit : option string)
    (w : World) :
  exists resolved w1,
    Weather.resolveProvider preferences explicit w
    = (Ret (resolved, negb (Weather.truthyString explicit)), w1)
    /\ (w1 = w \/ exists e, w1 = setEntropy e w)
    /\ (if Weather.truthyString explicit then resolved = explicit
        else if Weather.truthyString (preferences ≫= weatherProvider)
             then resolved = preferences ≫= weatherProvider
             else match resolved with
                  | Some d => d ∈ defaultProviders (settings w)
                  | None => defaultProviders (settings w) = []
                  end).
Proof.
  unfold Weather.resolveProvider.
  destruct (Weather.truthyString explicit).
  - exists explicit, w. repeat split. left. reflexivity.
  - unfold bind at 1. unfold gets at 1. unfold bind at 1.
    destruct (sample_cases (defaultProviders (settings w)) w) as (picked & w1 & -> & Hw1 & Hp).
    unfold ret.
    destruct (Weather.truthyString (preferences ≫= weatherProvider));
      eexists _, w1; repeat split; assumption.
Qed.

Lemma cacheUsable_iff (cache0 : gmap CacheKey (option WeatherSummary)) (key : CacheKey)
    (isDefaultProvider : bool) (resolved : option string) :
  Weather.cacheUsable (mjoin (cache0 !! key)) isDefaultProvider resolved = true
  <-> exists cached, cache0 !! key = Some (Some cached)
                     /\ (isDefaultProvider = true \/ Some (provider cached) = resolved).
Proof.
  unfold Weather.cacheUsable.
  destruct (cache0 !! key) as [[cached|]|]; simpl.
  - rewrite orb_true_iff, bool_decide_eq_true. split.
    + intros H. exists cached. split; [reflexivity | exact H].
    + intros (c & [= <-] & H). exact H.
  - split; [discriminate | intros (c & [=] & _)].
  - split; [discriminate | intros (c & [=] & _)].
Qed.

(** C5 (as amended). The provider is the explicit parameter, else the stored
    preference of the user, else a random member of the default pool;
    [isDefaultProvider] is true exactly when no explicit provider was given,
    whether the stored preference or the pool then decided. The entry cached
    for the rounded coordinates and the time is returned, with no adapter
    called, exactly when it exists and [isDefaultProvider] is true or its
    provider is the one asked for; otherwise the cache is bypassed and the
    providers are asked. This is the lookup from line 167 on, on the
    coordinates as line 165 rounded them, whatever they are. *)
Theorem provider_resolution_and_cache (w : World) (user : UserData)
    (coordinates : list Z) (dDate : Z) (explicit : option string) :
  let stored := preferences user ≫= weatherProvider in
  let key := Weather.cacheId coordinates dDate in
  let run := Weather.locateWeather user coordinates dDate explicit w in
  exists resolved isDefaultProvider w1,
    Weather.resolveProvider (preferences user) explicit w
    = (Ret (resolved, isDefaultProvider), w1)
    /\ isDefaultProvider = negb (Weather.truthyString explicit)
    /\ (if Weather.truthyString explicit then resolved = explicit
        else if Weather.truthyString stored then resolved = stored
        else match resolved with
             | Some d => d ∈ defaultProviders (settings w)
             | None => defaultProviders (settings w) = []
             end)
    /\ exists extra,
         logs (snd run) = logs w ++ extra
         /\ ((exists e, e ∈ extra /\ origin e = fromCacheTag)
             <-> exists cached,
                   cache w !! key = Some (Some cached)
                   /\ (isDefaultProvider = true \/ Some (provider cached) = resolved))
         /\ (forall cached,
               cache w !! key = Some (Some cached) ->
               isDefaultProvider = true \/ Some (provider cached) = resolved ->
               fst run = Ret (Some cached)
               /\ calls (snd run) = calls w
               /\ network (snd run) = network w
               /\ cache (snd run) = cache w)
         /\ ((forall cached,
                cache w !! key = Some (Some cached) ->
                ~ (isDefaultProvider = true \/ Some (provider cached) = resolved)) ->
             run = Weather.queryProviders user coordinates dDate (clock w)
                     (Dayjs.diffHours (clock w) dDate) resolved w1).
Proof.
  intros stored key run.
  destruct (resolveProvider_cases (preferences user) explicit w)
    as (resolved & w1 & Hres & Hw1 & Horder).
  exists resolved, (negb (Weather.truthyString explicit)), w1.
  split; [exact Hres|]. split; [reflexivity|]. split; [exact Horder|].
  assert (Hsame : clock w1 = clock w /\ cache w1 = cache w /\ logs w1 = logs w
                  /\ calls w1 = calls w /\ network w1 = network w).
  { destruct Hw1 as [-> | [e ->]]; repeat split. }
  destruct Hsame as (Hclock & Hcache & Hlogs & Hcalls & Hnet).
  assert (Hrun : run
                 = if Weather.cacheUsable (mjoin (cache w !! key))
                        (negb (Weather.truthyString explicit)) resolved
                   then (Ret (mjoin (cache w !! key)), logged LogInfo fromCacheTag w1)
                   else Weather.queryProviders user coordinates dDate (clock w)
                          (Dayjs.diffHours (clock w) dDate) resolved w1).
  { subst run. unfold Weather.locateWeather.
    unfold bind at 1. unfold gets at 1. unfold bind at 1. rewrite Hres.
    unfold bind at 1. unfold cacheGet, gets. rewrite Hcache. fold key.
    destruct (Weather.cacheUsable _ _ _); reflexivity. }
  pose proof (cacheUsable_iff (cache w) key (negb (Weather.truthyString explicit)) resolved)
    as Husable.
  destruct (Weather.cacheUsable _ _ _) eqn:Hu.
  - destruct (proj1 Husable eq_refl) as (cached & Hc & Hok).
    exists [{| level := LogInfo; origin := fromCacheTag |}].
    rewrite Hrun. simpl. rewrite Hlogs, Hcalls, Hnet, Hcache.
    split; [reflexivity|]. split; [|split].
    + split; [intros _; eauto|].
      intros _. eexists. split; [left | reflexivity].
    + intros cached' Hc' _. rewrite Hc'. repeat split.
    + intros Hno. exfalso. exact (Hno cached Hc Hok).
  - assert (Hnot : ~ exists cached, cache w !! key = Some (Some cached)
                     /\ (negb (Weather.truthyString explicit) = true
                         \/ Some (provider cached) = resolved)).
    { intros H. apply Husable in H. discriminate H. }
    destruct (logs_queryProviders user coordinates dDate (clock w)
                (Dayjs.diffHours (clock w) dDate) resolved w1) as (extra & Hextra & Hall).
    exists extra. rewrite Hrun, Hextra, Hlogs. split; [reflexivity|]. split; [|split].
    + split; [|intros H; exfalso; exact (Hnot H)].
      intros (e & He & Htag). exfalso.
      rewrite Forall_forall in Hall. exact (Hall e He Htag).
    + intros cached Hc Hok. exfalso. apply Hnot. eauto.
    + intros _. reflexivity.
Qed.

Lemma provider_resolution_and_cache_witness :
  fst (Weather.getLocationWeather Sample.user (Some [Num 51507310; Num (-127660)])
         (Some Sample.noon) None (Sample.cached (Sample.world [stormglass] [])))
  = Ret (Some Sample.cachedSummary)
  /\ calls (snd (Weather.getLocationWeather Sample.user (Some [Num 51507310; Num (-127660)])
                   (Some Sample.noon) None (Sample.cached (Sample.world [stormglass] []))))
     = [].
Proof.
  destruct (provider_resolution_and_cache (Sample.cached (Sample.world [stormglass] []))
              Sample.user [toFixed4 51507310; toFixed4 (-127660)] Sample.noon None)
    as (resolved & isDefaultProvider & w1 & _ & Hdefault & _ & extra & _ & _ & Hhit & _).
  destruct (Hhit Sample.cachedSummary) as (Hresult & Hcalls & _).
  - vm_compute. reflexivity.
  - left. rewrite Hdefault. reflexivity.
  - split; [exact Hresult | exact Hcalls].
Defined.

(** C5, as it is stated, fails: with no explicit provider and a stored
    preference for Storm Glass, the resolution does not come from the default
    pool, and yet [isDefaultProvider] is true, and the summary cached from
    another provider is returned. *)
Lemma provider_resolution_counterexample :
  let w := Sample.cached (Sample.world [stormglass]
                            [Responded (Hours [Sample.reading Sample.noon])]) in
  isDefaultSelectionAsSpecified (preferences Sample.fan) None = false
  /\ fst (Weather.resolveProvider (preferences Sample.fan) None w)
     = Ret (Some "stormglass", true)
  /\ fst (Weather.getLocationWeather Sample.fan (Some [Num 51507310; Num (-127660)])
            (Some Sample.noon) None w)
     = Ret (Some Sample.cachedSummary)
  /\ provider Sample.cachedSummary = "openmeteo".
Proof. repeat split; vm_compute; reflexivity. Qed.

(** ** The attempts of one lookup *)

Lemma calls_entropy e w : keeps calls w (setEntropy e w).
Proof. reflexivity. Qed.

Lemma calls_network n w : keeps calls w (setNetwork n w).
Proof. reflexivity. Qed.

Lemma calls_cache c w : keeps calls w (setCache c w).
Proof. reflexivity. Qed.

Lemma calls_updated i f w : keepsStatic f -> keeps calls w (updated i f w).
Proof. intros _. unfold keeps, updated. destruct (providers w !! i); reflexivity. Qed.

Lemma calls_logged l o w : o <> fromCacheTag -> keeps calls w (logged l o w).
Proof. reflexivity. Qed.

#[export] Hint Resolve calls_entropy calls_network calls_cache calls_updated calls_logged
  : frames.

(** Inversion of the sequence and of [try]. *)
Lemma bind_inv {A B} (m : M A) (k : A -> M B) (w w' : World) (r : Result B) :
  bind m k w = (r, w') ->
  (exists a w1, m w = (Ret a, w1) /\ k a w1 = (r, w'))
  \/ (exists e, m w = (Throw e, w') /\ r = Throw e).
Proof.
  unfold bind. destruct (m w) as [[a|e] w1]; intros H.
  - left. eauto.
  - right. injection H as <- <-. eauto.
Qed.

Lemma tryCatch_inv {A} (m : M A) (h : Exn -> M A) (w w' : World) (r : Result A) :
  tryCatch m h w = (r, w') ->
  (exists a, m w = (Ret a, w') /\ r = Ret a)
  \/ (exists e w1, m w = (Throw e, w1) /\ h e w1 = (r, w')).
Proof.
  unfold tryCatch. destruct (m w) as [[a|e] w1]; intros H.
  - left. injection H as <- <-. eauto.
  - right. eauto.
Qed.

Lemma keeps_run {A X} (f : World -> X) (m : M A) (w w' : World) (r : Result A) :
  stepsIn (keeps f) m -> m w = (r, w') -> f w' = f w.
Proof. intros H E. specialize (H w). rewrite E in H. exact H. Qed.

Lemma callGetWeather_calls providerModule coordinates dDate preferences w r w' :
  Weather.callGetWeather providerModule coordinates dDate preferences w = (r, w') ->
  exists extra,
    calls w' = calls w ++ extra
    /\ match extra with
       | [] => isThrow r = true
       | [call] => outcome call = resultOutcome r
       | _ => False
       end.
Proof.
  unfold Weather.callGetWeather. intros H.
  apply bind_inv in H as [(self & w1 & Hget & H) | (e & Hget & ->)].
  - unfold getProvider in Hget.
    destruct providerModule as [p|]; simpl in Hget; [|discriminate].
    destruct (providers w !! p) as [self'|] eqn:Hp; [|discriminate].
    injection Hget as <- <-.
    destruct (getWeather_effect _ _ _ _ _ _ _ _ Hp H) as (Hcalls & _).
    eexists. split; [exact Hcalls | reflexivity].
  - exists []. rewrite app_nil_r.
    pose proof (readOnly_getProvider providerModule w) as Hro. rewrite Hget in Hro.
    simpl in Hro. subst w'. split; reflexivity.
Qed.

Lemma firstAttempt_calls providerModule coordinates dDate preferences w r w' :
  Weather.firstAttempt providerModule coordinates dDate preferences w = (r, w') ->
  exists extra,
    calls w' = calls w ++ extra
    /\ match extra with
       | [] => isThrow r = true
       | [call] => if isThrow r then outcome call <> GaveSummary
                   else outcome call = GaveSummary
       | _ => False
       end.
Proof.
  unfold Weather.firstAttempt. intros H.
  apply bind_inv in H as [(result & w1 & Hcall & H) | (e & Hcall & ->)].
  - destruct result as [s|].
    + apply bind_inv in H as [(u & w2 & Hset & H) | (e & Hset & ->)].
      * apply callGetWeather_calls in Hcall as (extra & Hcalls & Hshape).
        injection H as <- <-.
        rewrite (keeps_run calls _ _ _ _
                   (quiet_setDisabledTillDate (keeps calls) calls_updated _ _) Hset).
        exists extra. split; [exact Hcalls|].
        destruct extra as [|call [|]]; simpl in *;
          [discriminate Hshape | exact Hshape | exact Hshape].
      * exfalso. destruct providerModule as [p|].
        -- discriminate Hset.
        -- unfold Weather.callGetWeather, bind, getProvider in Hcall. simpl in Hcall.
           discriminate Hcall.
    + apply callGetWeather_calls in Hcall as (extra & Hcalls & Hshape).
      injection H as <- <-. exists extra. split; [exact Hcalls|].
      destruct extra as [|call [|]]; simpl in *;
        [reflexivity | rewrite Hshape; discriminate | exact Hshape].
  - apply callGetWeather_calls in Hcall as (extra & Hcalls & Hshape).
    exists extra. split; [exact Hcalls|].
    destruct extra as [|call [|]]; simpl in *;
      [reflexivity | rewrite Hshape; discriminate | exact Hshape].
Qed.

Lemma keeps_logger l o w r w' : logger l o w = (r, w') -> calls w' = calls w.
Proof. intros [= <- <-]. reflexivity. Qed.

Lemma calls_logger l o : stepsIn (keeps calls) (logger l o).
Proof. intros w. reflexivity. Qed.

Lemma onFailure_calls currentProviders providerModule coordinates dDate utcNow preferences
    ex w r w' :
  Weather.onFailure currentProviders providerModule coordinates dDate utcNow preferences ex w
  = (r, w') ->
  exists extra, calls w' = calls w ++ extra /\ (length extra <= 1)%nat.
Proof.
  unfold Weather.onFailure. intros H.
  assert (Hnone : forall v v' : World, calls v' = calls v ->
            exists extra, calls v' = calls v ++ extra /\ (length extra <= 1)%nat).
  { intros v v' E. exists []. rewrite app_nil_r. split; [exact E | simpl; lia]. }
  apply bind_inv in H as [(failed & w1 & Hget & H) | (e & Hget & ->)];
    pose proof (keeps_run calls _ _ _ _ (quiet_getProvider (keeps calls) _) Hget) as E1;
    [|apply Hnone, E1].
  apply bind_inv in H as [(u & w2 & Hquota & H) | (e & Hquota & ->)].
  2: { apply Hnone. rewrite <- E1. revert Hquota.
       apply (keeps_run calls). destruct (Weather.is402 ex); repeat first [frame_step | quiet]. }
  assert (E2 : calls w2 = calls w).
  { rewrite <- E1. revert Hquota.
    apply (keeps_run calls). destruct (Weather.is402 ex); repeat first [frame_step | quiet]. }
  rewrite <- E2.
  destruct (1 <? length currentProviders)%nat.
  - apply bind_inv in H as [(second & w3 & Hget2 & H) | (e & Hget2 & ->)];
      pose proof (keeps_run calls _ _ _ _ (quiet_getProvider (keeps calls) _) Hget2) as E3;
      [|apply Hnone, E3].
    apply bind_inv in H as [(u' & w4 & Hlog & H) | (e & Hlog & ->)];
      pose proof (keeps_logger _ _ _ _ _ Hlog) as E4;
      [|apply Hnone; congruence].
    rewrite <- E3, <- E4.
    apply tryCatch_inv in H as [(flow & H & ->) | (e & w5 & H & Hh)].
    + apply bind_inv in H as [(result & w5 & Hcall & H) | (e & Hcall & [=])].
      injection H as <- <-.
      apply callGetWeather_calls in Hcall as (extra & Hcalls & Hshape).
      exists extra. split; [exact Hcalls|].
      destruct extra as [|c1 [|]]; simpl in *; [lia | lia | contradiction].
    + apply bind_inv in H as [(result & w6 & Hcall & [=]) | (e' & Hcall & _)].
      apply callGetWeather_calls in Hcall as (extra & Hcalls & Hshape).
      exists extra. split.
      * rewrite <- Hcalls. revert Hh. apply (keeps_run calls).
        repeat first [frame_step | quiet].
      * destruct extra as [|c1 [|]]; simpl in *; [lia | lia | contradiction].
  - apply Hnone. revert H. apply (keeps_run calls). repeat first [frame_step | quiet].
Qed.

Lemma tryProviders_calls user coordinates dDate utcNow wanted available w r w' :
  Weather.tryProviders user coordinates dDate utcNow wanted available w = (r, w') ->
  exists extra, calls w' = calls w ++ extra /\ attempts extra.
Proof.
  unfold Weather.tryProviders. intros H.
  apply bind_inv in H as [(current & w1 & Hsel & H) | (e & Hsel & ->)];
    pose proof (keeps_run calls _ _ _ _
                  (quiet_selectProviders (keeps calls) calls_entropy _ _) Hsel) as E1.
  2: { exists []. rewrite app_nil_r. split; [exact E1 | exact I]. }
  rewrite <- E1.
  apply tryCatch_inv in H as [(flow & H & ->) | (e & w2 & H & Hh)].
  - apply firstAttempt_calls in H as (extra & Hcalls & Hshape).
    exists extra. split; [exact Hcalls|].
    destruct extra as [|c1 [|]]; simpl in *; [exact I | exact I | contradiction].
  - apply firstAttempt_calls in H as (extra1 & Hcalls1 & Hshape1).
    apply onFailure_calls in Hh as (extra2 & Hcalls2 & Hlen).
    exists (extra1 ++ extra2). split; [rewrite Hcalls2, Hcalls1, app_assoc; reflexivity|].
    destruct extra1 as [|c1 [|]]; simpl in *; [| |contradiction].
    + destruct extra2 as [|c2 [|]]; simpl in *; [exact I | exact I | lia].
    + destruct extra2 as [|c2 [|]]; simpl in *; [exact I | exact Hshape1 | lia].
Qed.

Lemma queryProviders_calls user coordinates dDate utcNow hours wanted w r w' :
  Weather.queryProviders user coordinates dDate utcNow hours wanted w = (r, w') ->
  exists extra, calls w' = calls w ++ extra /\ attempts extra.
Proof.
  unfold Weather.queryProviders. intros H.
  unfold bind at 1 in H.
  rewrite availableProviders_eligible in H.
  destruct (List.filter _ _) as [|p available].
  - exists []. rewrite app_nil_r. split; [|exact I].
    revert H. apply (keeps_run calls). repeat first [frame_step | quiet].
  - apply bind_inv in H as [(flow & w1 & Htry & H) | (e & Htry & ->)];
      apply tryProviders_calls in Htry as (extra & Hcalls & Hshape);
      [|eauto].
    exists extra. split; [|exact Hshape]. rewrite <- Hcalls.
    revert H. apply (keeps_run calls).
    destruct flow as [value | result]; repeat first [frame_step | quiet].
Qed.

Lemma getLocationWeather_calls user coordinates dDate wanted w r w' :
  Weather.getLocationWeather user coordinates dDate wanted w = (r, w') ->
  exists extra, calls w' = calls w ++ extra /\ attempts extra.
Proof.
  assert (Hnone : forall m : M (option WeatherSummary),
            stepsIn (keeps calls) m -> m w = (r, w') ->
            exists extra, calls w' = calls w ++ extra /\ attempts extra).
  { intros m Hm Hrun. exists []. rewrite app_nil_r. split; [|exact I].
    revert Hrun. apply (keeps_run calls), Hm. }
  unfold Weather.getLocationWeather.
  destruct dDate as [d|];
    [|solve [destruct coordinates; apply Hnone; repeat first [frame_step | quiet]]].
  destruct coordinates as [[|[|c0] [|[|c1] [|]]]|];
    try solve [apply Hnone; repeat first [frame_step | quiet]].
  unfold Weather.locateWeather. intros H.
  apply bind_inv in H as [(utcNow & w1 & [= <- <-] & H) | (e & [=] & _)].
  apply bind_inv in H as [([resolved isDefaultProvider] & w1 & Hres & H) | (e & Hres & ->)];
    pose proof (keeps_run calls _ _ _ _
                  (quiet_resolveProvider (keeps calls) calls_entropy _ _) Hres) as E1.
  2: { exists []. rewrite app_nil_r. split; [exact E1 | exact I]. }
  apply bind_inv in H as [(cached & w2 & [= <- <-] & H) | (e & [=] & _)].
  rewrite <- E1.
  destruct (Weather.cacheUsable _ _ _).
  - exists []. rewrite app_nil_r. split; [|exact I].
    revert H. apply (keeps_run calls). repeat first [frame_step | apply calls_logger].
  - apply queryProviders_calls in H. exact H.
Qed.

Lemma selectProviders_preferred (w : World) (available : list nat) (wanted : string) (p : nat) :
  List.filter (Weather.matchesName w (Some wanted)) available = [p] ->
  let others :=
    List.filter (fun x => negb (Weather.matchesName w (Some wanted) x)) available in
  Weather.selectProviders available (Some wanted) w
  = (let* other := sample others in ret [Some p; other]) w
  /\ (others <> [] ->
      exists q w1,
        Weather.selectProviders available (Some wanted) w = (Ret [Some p; Some q], w1)
        /\ q ∈ others /\ q ∈ available /\ q <> p
        /\ (w1 = w \/ exists e, w1 = setEntropy e w)).
Proof.
  intros Hp others.
  assert (Hsel : Weather.selectProviders available (Some wanted) w
                 = (let* other := sample others in ret [Some p; other]) w).
  { unfold Weather.selectProviders, Weather.remove. unfold bind at 1. unfold gets.
    rewrite Hp. reflexivity. }
  split; [exact Hsel|]. intros Hothers. rewrite Hsel. unfold bind, ret.
  destruct (sample_cases others w) as (picked & w1 & -> & Hw1 & Hpicked).
  destruct picked as [q|]; [|contradiction].
  exists q, w1. split; [reflexivity|].
  assert (Hq := Hpicked). apply list_elem_of_In, filter_In in Hq as [Hin Hno].
  split; [exact Hpicked|]. split; [apply list_elem_of_In, Hin|]. split; [|exact Hw1].
  intros ->.
  assert (Hyes : In p (List.filter (Weather.matchesName w (Some wanted)) available))
    by (rewrite Hp; left; reflexivity).
  apply filter_In in Hyes as [_ Hyes]. rewrite Hyes in Hno. discriminate Hno.
Qed.

Lemma eligible_in_range (cfg : Settings) (now dDate : Z) (self : WeatherProvider) :
  eligible cfg now (Dayjs.diffHours now dDate) self = true ->
  StormGlass.outOfRange self now dDate = false.
Proof.
  unfold eligible, StormGlass.outOfRange, Dayjs.isBefore, Dayjs.diffHours, Dayjs.msPerHour.
  rewrite !andb_true_iff, !negb_true_iff, !Z.ltb_ge. intros (((HP & HF) & _) & _).
  destruct (quot_rem_bounds (now - dDate) 3600000 ltac:(lia)) as (r & E & Hr & Hp & Hn).
  apply Z.ltb_ge. destruct (Z.ltb_spec now dDate); lia.
Qed.

Lemma callGetWeather_transport (w : World) (p : nat) (self : WeatherProvider)
    (coordinates : list Z) (dDate : Z) (preferences : option UserPreferences)
    (status : option Z) (rest : list NetReply) :
  providers w !! p = Some self ->
  StormGlass.outOfRange self (clock w) dDate = false ->
  network w = Failed status :: rest ->
  Weather.callGetWeather (Some p) coordinates dDate preferences w
  = (Throw (AxiosError status),
     thrown p (withStats (countRequest (clock w)) self) coordinates dDate
       (setNetwork rest (requested p self w))).
Proof.
  intros Hp Hrange Hnet. unfold Weather.callGetWeather, bind.
  rewrite (getProvider_Some _ _ _ Hp), (getWeather_cases _ _ _ _ _ _ Hp), Hrange, Hnet.
  reflexivity.
Qed.

Lemma callGetWeather_summary (w : World) (p : nat) (self : WeatherProvider)
    (coordinates : list Z) (dDate : Z) (preferences : option UserPreferences)
    (rows : list HourData) (timeData : HourData) (rest : list NetReply) :
  providers w !! p = Some self ->
  StormGlass.outOfRange self (clock w) dDate = false ->
  network w = Responded (Hours rows) :: rest ->
  StormGlass.findTimeData rows dDate = Some timeData ->
  Weather.callGetWeather (Some p) coordinates dDate preferences w
  = (Ret (Some (StormGlass.summaryOf (name self) timeData dDate
                  (default StormGlass.noPreferences preferences))),
     called (name self) coordinates dDate GaveSummary
       (logged LogInfo StormGlass.tag (setNetwork rest (requested p self w)))).
Proof.
  intros Hp Hrange Hnet Hfind. unfold Weather.callGetWeather, bind.
  rewrite (getProvider_Some _ _ _ Hp), (getWeather_cases _ _ _ _ _ _ Hp), Hrange, Hnet.
  cbv zeta. rewrite Hfind. reflexivity.
Qed.

Lemma queryProviders_asks user coordinates dDate utcNow hours wanted w :
  List.filter (eligibleRef w utcNow hours) (seq 0 (length (providers w))) <> [] ->
  Weather.queryProviders user coordinates dDate utcNow hours wanted w
  = (let* flow := Weather.tryProviders user coordinates dDate utcNow wanted
                    (List.filter (eligibleRef w utcNow hours) (seq 0 (length (providers w)))) in
     match flow with
     | Weather.Return value => ret value
     | Weather.GoOn result =>
         cacheSet (Weather.cacheId coordinates dDate) result ;;
         match result with
         | None =>
             throw (TypeError "Cannot read properties of undefined (reading 'provider')")
         | Some _ => logger LogInfo "Weather.getLocationWeather" ;; ret result
         end
     end) w.
Proof.
  intros Hne. unfold Weather.queryProviders. unfold bind at 1.
  rewrite availableProviders_eligible.
  destruct (List.filter _ _); [contradiction | reflexivity].
Qed.

#[export] Instance sameButEntropy_preorder : PreOrder sameButEntropy.
Proof.
  split.
  - intros w. unfold sameButEntropy. repeat split.
  - intros w1 w2 w3 H12 H23. unfold sameButEntropy in *.
    destruct H12 as (? & ? & ? & ? & ? & ? & ? & ? & ?).
    destruct H23 as (? & ? & ? & ? & ? & ? & ? & ? & ?).
    repeat split; congruence.
Qed.

Lemma sameButEntropy_entropy e w : sameButEntropy w (setEntropy e w).
Proof. unfold sameButEntropy. repeat split. Qed.

Lemma stepsIn_run {A} (R : World -> World -> Prop) (m : M A) (w w' : World) (r : Result A) :
  stepsIn R m -> m w = (r, w') -> R w w'.
Proof. intros H E. specialize (H w). rewrite E in H. exact H. Qed.

Lemma available_same (w w0 : World) (utcNow hours : Z) :
  sameButEntropy w w0 ->
  List.filter (eligibleRef w0 utcNow hours) (seq 0 (length (providers w0)))
  = List.filter (eligibleRef w utcNow hours) (seq 0 (length (providers w))).
Proof.
  intros (Hset & Hps & _). unfold eligibleRef. rewrite Hps, Hset. reflexivity.
Qed.

(** ** The code at the inputs where it leaves the specification (C1, C3, C4, C6) *)

(** C1. [getLocationWeather] throws where the specification has it return
    null: when the only provider to try fails, the [catch] logs the error and
    goes on to read [result.provider] of a result that is not there; when the
    preferred
    provider is the only eligible one, the second provider to try is
    [undefined], and reading its name throws; and when the second provider
    returns no summary, [result.provider] throws the same way. *)
Theorem getLocationWeather_throws :
  fst (Weather.getLocationWeather Sample.user (Some [Num 51507310; Num (-127660)])
         (Some Sample.noon) None (Sample.world [stormglass] [Failed None]))
  = Throw (TypeError "Cannot read properties of undefined (reading 'provider')")
  /\ fst (Weather.getLocationWeather Sample.user (Some [Num 51507310; Num (-127660)])
            (Some Sample.noon) (Some "stormglass")
            (Sample.world [stormglass] [Failed None]))
     = Throw (TypeError "Cannot read properties of undefined")
  /\ fst (Weather.getLocationWeather Sample.user (Some [Num 51507310; Num (-127660)])
            (Some Sample.noon) (Some "stormglass")
            (Sample.world [stormglass; Sample.openmeteo None]
               [Failed None; Responded NoBody]))
     = Throw (TypeError "Cannot read properties of undefined (reading 'provider')").
Proof. repeat split; vm_compute; reflexivity. Qed.

(** C3. With one provider registered, eligible and preferred, the providers
    to try are not that provider alone: [_.sample] of the empty rest is
    [undefined], and line 215 pushes it as a second provider to try. When the
    preferred provider then fails, the [catch] finds two providers to try,
    takes the second and reads its name: the lookup throws, after one adapter
    call. The sibling path does it: when the provider asked for is not among
    the eligible ones, [_.sampleSize] gives the only eligible provider alone.
    With another provider eligible, the second one to try is that one. *)
Theorem second_candidate_undefined :
  let candidates := fun (wanted : string) (w : World) =>
    fst ((let* available := Weather.availableProviders (clock w) 0 in
          Weather.selectProviders available (Some wanted)) w) in
  let w := Sample.world [stormglass] [Failed None] in
  candidates "stormglass" w = Ret [Some 0%nat; None]
  /\ candidates "openmeteo" w = Ret [Some 0%nat]
  /\ candidates "stormglass" (Sample.world [stormglass; Sample.openmeteo None] [Failed None])
     = Ret [Some 0%nat; Some 1%nat]
  /\ fst (Weather.getLocationWeather Sample.user (Some [Num 51507310; Num (-127660)])
            (Some Sample.noon) (Some "stormglass") w)
     = Throw (TypeError "Cannot read properties of undefined")
  /\ (outcome <$> calls (snd (Weather.getLocationWeather Sample.user
                                (Some [Num 51507310; Num (-127660)])
                                (Some Sample.noon) (Some "stormglass") w)))
     = [Threw].
Proof. repeat split; vm_compute; reflexivity. Qed.

(** [getActivityWeather] does return, whatever its lookups do. *)
Lemma getActivityWeather_returns (user : UserData) (activity : StravaActivity) (w : World) :
  exists result, fst (Weather.getActivityWeather user activity w) = Ret result.
Proof. rewrite getActivityWeather_produced. eauto. Qed.

(** C4. The second provider to try answers, and its [disabledTillDate], a
    date of the day before, is left as it was; it fails with status 402, and
    it is not disabled. The first provider to try is treated as specified:
    disabled until the end of the day plus one hour on a 402, and cleared
    when it answers. *)
Theorem fallback_leaves_disabledTillDate :
  let stale := Sample.noon - Dayjs.msPerDay in
  let ask := fun (wanted : string) (w : World) =>
    Weather.getLocationWeather Sample.user (Some [Num 51507310; Num (-127660)])
      (Some Sample.noon) (Some wanted) w in
  let answer := Responded (Hours [Sample.reading Sample.noon]) in
  (provider <$> produced (fst (ask "stormglass"
      (Sample.world [stormglass; Sample.openmeteo (Some stale)] [Failed None; answer])))
   = Some "openmeteo"
   /\ disabledTillDateOf (snd (ask "stormglass"
        (Sample.world [stormglass; Sample.openmeteo (Some stale)] [Failed None; answer]))) 1
      = Some (Some stale))
  /\ (fst (ask "stormglass"
        (Sample.world [stormglass; Sample.openmeteo None] [Failed None; Failed (Some 402)]))
      = Ret None
      /\ disabledTillDateOf (snd (ask "stormglass"
           (Sample.world [stormglass; Sample.openmeteo None]
              [Failed None; Failed (Some 402)]))) 1
         = Some None)
  /\ disabledTillDateOf (snd (ask "stormglass"
       (Sample.world [stormglass; Sample.openmeteo None] [Failed (Some 402); answer]))) 0
     = Some (Some (Dayjs.addHours (Dayjs.endOfDay Sample.noon) 1))
  /\ disabledTillDateOf (snd (ask "openmeteo"
       (Sample.world [stormglass; Sample.openmeteo (Some stale)] [answer]))) 1
     = Some None.
Proof. repeat split; vm_compute; reflexivity. Qed.

(** C6. The end lookup is made with the start date of the activity, not its
    end date: both adapter calls of a ride of one hour carry the start date.
    And a start lookup that throws keeps the end lookup from being made: the
    reply that would have answered it is still waiting. *)
Theorem end_lookup_uses_start_date :
  let from := Sample.noon - 2 * Dayjs.msPerHour in
  let answer := Responded (Hours [Sample.reading from]) in
  dateEnd (Sample.ride from) = Some (from + Dayjs.msPerHour)
  /\ callDate <$> calls (snd (Weather.getActivityWeather Sample.user (Sample.ride from)
                                (Sample.world [stormglass] [answer; answer])))
     = [from; from]
  /\ Weather.getActivityWeather Sample.user (Sample.ride from)
       (Sample.world [stormglass] [Failed None; answer])
     = (Ret None,
        snd (Weather.getActivityWeather Sample.user (Sample.ride from)
               (Sample.world [stormglass] [Failed None; answer])))
  /\ length (calls (snd (Weather.getActivityWeather Sample.user (Sample.ride from)
                           (Sample.world [stormglass] [Failed None; answer]))))
     = 1%nat
  /\ network (snd (Weather.getActivityWeather Sample.user (Sample.ride from)
                     (Sample.world [stormglass] [Failed None; answer])))
     = [answer].
Proof. repeat split; vm_compute; reflexivity. Qed.

(** * More of the code *)

(** ** [init] *)




(** ** Input validation and rounding *)

(** X2. With no date, no coordinates, coordinates that are not two in
    number, or one of them not a number, [getLocationWeather] returns null
    and logs one warning: nothing else of the world is read or changed. *)
Theorem lookup_refuses_malformed user coordinates dDate wanted w :
  Weather.malformed coordinates dDate = true ->
  Weather.getLocationWeather user coordinates dDate wanted w
  = (Ret None, logged LogWarn "Weather.getLocationWeather" w).
Proof.
  unfold Weather.malformed, Weather.getLocationWeather.
  destruct dDate as [d|]; [|reflexivity].
  destruct coordinates as [[|[|c0] [|[|c1] [|]]]|]; try reflexivity; discriminate.
Qed.

Lemma lookup_refuses_malformed_witness :
  Weather.getLocationWeather Sample.user (Some [Num 51507310; NaN]) (Some Sample.noon) None
    (Sample.world [stormglass] [])
  = (Ret None, logged LogWarn "Weather.getLocationWeather" (Sample.world [stormglass] [])).
Proof. apply lookup_refuses_malformed. reflexivity. Defined.

Lemma roundHalfEven_near (num den : Z) :
  0 < den -> 2 * Z.abs (roundHalfEven num den * den - num) <= den.
Proof.
  intros Hden. unfold roundHalfEven.
  pose proof (Z.div_mod num den ltac:(lia)) as E.
  pose proof (Z.mod_pos_bound num den Hden) as B.
  destruct (Z.ltb_spec (2 * (num mod den)) den);
    [|destruct (Z.ltb_spec den (2 * (num mod den))); [|destruct (Z.even (num / den))]];
    nia.
Qed.

(** The exponent of the double: the decimal lies between 2^52 and 2^53 times 2^e. *)
Lemma nearestDouble_exponent (z : Z) :
  0 < z -> z < 2 ^ 52 ->
  exists k, 0 < k /\ snd (nearestDouble z) = - k
            /\ fst (nearestDouble z) = roundHalfEven (z * 2 ^ k) (10 ^ 6)
            /\ 2 ^ 52 * 10 ^ 6 <= z * 2 ^ k.
Proof.
  intros Hpos Hlt.
  pose proof (Z.log2_spec z Hpos) as [Hlo Hhi].
  assert (HL : 0 <= Z.log2 z <= 51).
  { split; [apply Z.log2_nonneg|].
    destruct (Z.le_gt_cases (Z.log2 z) 51) as [H|H]; [exact H|].
    exfalso. assert (2 ^ 52 <= 2 ^ Z.log2 z) by (apply Z.pow_le_mono_r; lia). lia. }
  unfold nearestDouble. cbv zeta.
  set (t1 := Z.log2 z - 19).
  set (t := if _ <=? _ then t1 else t1 - 1).
  assert (Ht : (t = t1 /\ 10 ^ 6 * 2 ^ Z.max 0 t1 <= z * 2 ^ Z.max 0 (- t1)) \/ t = t1 - 1).
  { subst t. unfold scaled. simpl fst. simpl snd.
    destruct (Z.leb_spec (10 ^ 6 * 2 ^ Z.max 0 t1) (z * 2 ^ Z.max 0 (- t1))); auto. }
  exists (52 - t).
  assert (Htk : 0 < 52 - t) by (destruct Ht as [[-> _] | ->]; subst t1; lia).
  split; [exact Htk|]. split; [simpl; lia|].
  unfold scaled. simpl fst. simpl snd.
  replace (Z.max 0 (- (t - 52))) with (52 - t) by lia.
  replace (Z.max 0 (t - 52)) with 0 by lia.
  rewrite Z.pow_0_r, Z.mul_1_r. split; [reflexivity|].
  destruct Ht as [[-> Hle] | ->].
  - destruct (Z.le_gt_cases 0 t1) as [H0|H0].
    + replace (Z.max 0 t1) with t1 in Hle by lia.
      replace (Z.max 0 (- t1)) with 0 in Hle by lia.
      rewrite Z.pow_0_r, Z.mul_1_r in Hle.
      replace (2 ^ 52) with (2 ^ t1 * 2 ^ (52 - t1))
        by (rewrite <- Z.pow_add_r by lia; f_equal; lia).
      assert (0 < 2 ^ (52 - t1)) by (apply Z.pow_pos_nonneg; lia). nia.
    + replace (Z.max 0 t1) with 0 in Hle by lia.
      replace (Z.max 0 (- t1)) with (- t1) in Hle by lia.
      rewrite Z.pow_0_r, Z.mul_1_r in Hle.
      replace (2 ^ (52 - t1)) with (2 ^ 52 * 2 ^ (- t1))
        by (rewrite <- Z.pow_add_r by lia; f_equal; lia).
      nia.
  - subst t1.
    replace (52 - (Z.log2 z - 19 - 1)) with (72 - Z.log2 z) by lia.
    assert (E : 2 ^ 72 = 2 ^ Z.log2 z * 2 ^ (72 - Z.log2 z))
      by (rewrite <- Z.pow_add_r by lia; f_equal; lia).
    assert (0 < 2 ^ (72 - Z.log2 z)) by (apply Z.pow_pos_nonneg; lia).
    assert (2 ^ 52 * 10 ^ 6 <= 2 ^ 72) by (vm_compute; discriminate).
    nia.
Qed.

Lemma toFixed4_near (z : Z) :
  0 < z -> z < 2 ^ 52 ->
  100 * toFixed4 z - 50 <= z <= 100 * toFixed4 z + 50.
Proof.
  intros Hpos Hlt.
  destruct (nearestDouble_exponent z Hpos Hlt) as (k & Hk & He & Hm & Hscale).
  unfold toFixed4. rewrite Z.abs_eq by lia.
  destruct (nearestDouble z) as [m e]. simpl in He, Hm. subst e m.
  rewrite Z.sgn_pos, Z.mul_1_l by exact Hpos.
  unfold toFixed.
  replace (Z.max 0 (- k)) with 0 by lia.
  replace (Z.max 0 (- - k)) with k by lia.
  rewrite Z.pow_0_r, Z.mul_1_r.
  set (P := 2 ^ k) in *.
  assert (HP : 10 ^ 6 < P) by nia.
  pose proof (roundHalfEven_near (z * P) (10 ^ 6) ltac:(lia)) as Hnear.
  set (m := roundHalfEven (z * P) (10 ^ 6)) in *.
  pose proof (Z.div_mod (2 * m * 10 ^ 4 + P) (2 * P) ltac:(lia)) as E.
  pose proof (Z.mod_pos_bound (2 * m * 10 ^ 4 + P) (2 * P) ltac:(lia)) as B.
  set (n := (2 * m * 10 ^ 4 + P) / (2 * P)) in *.
  set (r := (2 * m * 10 ^ 4 + P) mod (2 * P)) in *.
  change (10 ^ 6) with 1000000 in *. change (10 ^ 4) with 10000 in *.
  assert (Hup : 200 * P * n <= 2 * z * P + 1000000 + 100 * P) by nia.
  assert (Hdn : 2 * z * P - 1000000 + 100 * P < 200 * P * (n + 1)) by nia.
  split.
  - assert (H1 : P * (200 * n) < P * (2 * z + 101)) by nia.
    apply Z.mul_lt_mono_pos_l in H1; lia.
  - assert (H1 : P * (2 * z + 99) < P * (200 * (n + 1))) by nia.
    apply Z.mul_lt_mono_pos_l in H1; lia.
Qed.

Lemma toFixed4_opp (v : Z) : toFixed4 (- v) = - toFixed4 v.
Proof.
  unfold toFixed4. rewrite Z.abs_opp, Z.sgn_opp.
  destruct (nearestDouble (Z.abs v)) as [m e]. lia.
Qed.

Lemma toFixed4_zero : toFixed4 0 = 0.
Proof. reflexivity. Qed.

Lemma toFixed4_bounds (v : Z) :
  Z.abs v < 2 ^ 52 -> 100 * toFixed4 v - 50 <= v <= 100 * toFixed4 v + 50.
Proof.
  intros Hv. destruct (Z.lt_trichotomy v 0) as [Hneg | [-> | Hpos]].
  - pose proof (toFixed4_near (- v) ltac:(lia) ltac:(lia)) as H.
    rewrite toFixed4_opp in H. lia.
  - rewrite toFixed4_zero. lia.
  - apply toFixed4_near; lia.
Qed.

(** X3. Rounding a coordinate to four decimals, for the coordinates under
    [2^52] millionths: the coordinate moves by half a ten-thousandth of a
    degree at most; a coordinate that is not half-way between two
    ten-thousandths goes to the nearest one; the order of coordinates is
    kept; and a coordinate of four decimals is left as it is. Rounding
    commutes with the change of sign. A coordinate written half-way between
    two ten-thousandths goes where the double that it denotes lies:
    51.50725 goes down, and 0.03125, which is a double, goes up. *)
Theorem toFixed4_rounds :
  (forall v, Z.abs v < 2 ^ 52 -> Z.abs (v - 100 * toFixed4 v) <= 50)
  /\ (forall v, Z.abs v < 2 ^ 52 -> Z.abs v mod 100 <> 50 ->
        toFixed4 v = Z.sgn v * ((Z.abs v + 50) / 100))
  /\ (forall v v', Z.abs v < 2 ^ 52 -> Z.abs v' < 2 ^ 52 -> v <= v' ->
        toFixed4 v <= toFixed4 v')
  /\ (forall k, Z.abs (100 * k) < 2 ^ 52 -> toFixed4 (100 * k) = k)
  /\ (forall v, toFixed4 (- v) = - toFixed4 v)
  /\ toFixed4 51507250 = 515072
  /\ toFixed4 31250 = 313.
Proof.
  split; [|split; [|split; [|split; [|split; [|split]]]]].
  - intros v Hv. pose proof (toFixed4_bounds v Hv). lia.
  - intros v Hv Htie. pose proof (toFixed4_bounds v Hv) as H.
    pose proof (Z.div_mod (Z.abs v) 100 ltac:(lia)) as E.
    pose proof (Z.mod_pos_bound (Z.abs v) 100 ltac:(lia)) as B.
    pose proof (Z.div_mod (Z.abs v + 50) 100 ltac:(lia)) as E'.
    pose proof (Z.mod_pos_bound (Z.abs v + 50) 100 ltac:(lia)) as B'.
    destruct (Z.lt_trichotomy v 0) as [Hneg | [-> | Hpos]].
    + rewrite Z.sgn_neg by lia. rewrite Z.abs_neq in * by lia. lia.
    + reflexivity.
    + rewrite Z.sgn_pos by lia. rewrite Z.abs_eq in * by lia. lia.
  - intros v v' Hv Hv' Hle.
    pose proof (toFixed4_bounds v Hv). pose proof (toFixed4_bounds v' Hv').
    destruct (Z.eq_dec v v') as [->|Hne]; lia.
  - intros k Hk. pose proof (toFixed4_bounds (100 * k) Hk). lia.
  - apply toFixed4_opp.
  - vm_compute. reflexivity.
  - vm_compute. reflexivity.
Qed.

Lemma toFixed4_rounds_witness :
  Z.abs (51507310 - 100 * toFixed4 51507310) <= 50
  /\ toFixed4 51507310 = 1 * ((51507310 + 50) / 100)
  /\ toFixed4 51507349 <= toFixed4 51507351
  /\ toFixed4 (100 * 515073) = 515073.
Proof.
  destruct toFixed4_rounds as (Hnear & Hnearest & Hmono & Hfixed & _).
  split; [apply Hnear; vm_compute; reflexivity|].
  split; [apply (Hnearest 51507310); vm_compute; [reflexivity | discriminate]|].
  split; [apply Hmono; vm_compute; [reflexivity | reflexivity | discriminate]|].
  apply Hfixed. vm_compute. reflexivity.
Defined.






(** X6. A call of the adapter of a registered provider changes the
    statistics of that provider, the log, the replies still to come and the
    record of calls, and nothing else: not the cache, the clock, the settings
    or [maxHoursPast], not the name or the [disabledTillDate] of its
    provider, not any other provider. It records one call, under the name of
    its provider, and a summary it returns carries that name. *)
Theorem getWeather_frame (w w' : World) (this : nat) (self : WeatherProvider)
    (coordinates : list Z) (dDate : Z) (preferences : option UserPreferences)
    (r : Result (option WeatherSummary)) :
  providers w !! this = Some self ->
  StormGlass.getWeather this coordinates dDate preferences w = (r, w') ->
  cache w' = cache w /\ clock w' = clock w /\ settings w' = settings w
  /\ entropy w' = entropy w /\ maxHoursPast w' = maxHoursPast w
  /\ (forall other, other <> this -> providers w' !! other = providers w !! other)
  /\ nameOf w' this = Some (name self)
  /\ disabledTillDateOf w' this = Some (disabledTillDate self)
  /\ calls w' = calls w ++ [{| callee := name self; callCoordinates := coordinates;
                              callDate := dDate; outcome := resultOutcome r |}]
  /\ (forall s, r = Ret (Some s) -> provider s = name self).
Proof.
  intros Hself Hrun.
  destruct (getWeather_effect _ _ _ _ _ _ _ _ Hself Hrun)
    as (Hcalls & _ & _ & Hdis & Hname & Hother & Hprov & Hset & Hclock & Hent & Hcache & Hmax).
  repeat split; assumption.
Qed.

Lemma getWeather_frame_witness :
  disabledTillDateOf
    (snd (StormGlass.getWeather 1 Sample.london Sample.noon None
            (Sample.world [stormglass; Sample.openmeteo (Some 5)] [Failed (Some 402)])))
    1
  = Some (Some 5).
Proof.
  destruct (getWeather_frame
              (Sample.world [stormglass; Sample.openmeteo (Some 5)] [Failed (Some 402)])
              (snd (StormGlass.getWeather 1 Sample.london Sample.noon None
                      (Sample.world [stormglass; Sample.openmeteo (Some 5)]
                         [Failed (Some 402)])))
              1 (Sample.openmeteo (Some 5)) Sample.london Sample.noon None
              (fst (StormGlass.getWeather 1 Sample.london Sample.noon None
                      (Sample.world [stormglass; Sample.openmeteo (Some 5)]
                         [Failed (Some 402)]))))
    as (_ & _ & _ & _ & _ & _ & _ & H & _).
  - reflexivity.
  - apply surjective_pairing.
  - exact H.
Defined.

(** ** The providers to try *)

Lemma transpose_inj (i j : nat) : Inj (=) (=) (transpose i j).
Proof. intros a b. unfold transpose. repeat case_decide; congruence. Qed.

Lemma swap_lookup {A} (array : list A) (i j k : nat) :
  (i < length array)%nat -> (j < length array)%nat ->
  swap array i j !! k = array !! transpose i j k.
Proof.
  intros Hi Hj. unfold swap, transpose.
  destruct (lookup_lt_is_Some_2 array i Hi) as [x Hx].
  destruct (lookup_lt_is_Some_2 array j Hj) as [y Hy].
  rewrite Hx, Hy. repeat case_decide; subst.
  - rewrite list_lookup_insert_eq by (rewrite length_insert; exact Hi). symmetry. exact Hy.
  - rewrite list_lookup_insert_ne by congruence.
    rewrite list_lookup_insert_eq by exact Hj. symmetry. exact Hx.
  - rewrite !list_lookup_insert_ne by congruence. reflexivity.
Qed.

Lemma swap_length {A} (array : list A) (i j : nat) : length (swap array i j) = length array.
Proof.
  unfold swap. destruct (array !! i), (array !! j); rewrite ?length_insert; reflexivity.
Qed.

Lemma swap_Permutation {A} (array : list A) (i j : nat) : swap array i j ≡ₚ array.
Proof.
  destruct (decide (i < length array)%nat) as [Hi|Hi];
    [destruct (decide (j < length array)%nat) as [Hj|Hj]|].
  - apply Permutation_inj. split; [apply swap_length|].
    exists (transpose i j). split; [apply transpose_inj|].
    intros k. apply swap_lookup; assumption.
  - unfold swap. rewrite (lookup_ge_None_2 array j) by lia.
    destruct (array !! i); reflexivity.
  - unfold swap. rewrite (lookup_ge_None_2 array i) by lia. reflexivity.
Qed.

Lemma randomBelow_cases (n : nat) (w : World) :
  exists r w1, randomBelow n w = (Ret r, w1) /\ sameButEntropy w w1.
Proof.
  unfold randomBelow. destruct (entropy w) as [|r e].
  - exists 0%nat, w. split; [reflexivity|]. unfold sameButEntropy. repeat split.
  - exists (r mod n)%nat, (setEntropy e w). split; [reflexivity|].
    apply sameButEntropy_entropy.
Qed.

Lemma shuffleSelf_Permutation {A} (steps index : nat) (array : list A) (w : World) :
  exists shuffled w1,
    shuffleSelf steps index array w = (Ret shuffled, w1)
    /\ shuffled ≡ₚ array /\ sameButEntropy w w1.
Proof.
  revert index array w. induction steps as [|steps IH]; intros index array w; simpl.
  - exists array, w. split; [reflexivity|]. split; reflexivity.
  - unfold bind.
    destruct (randomBelow_cases (length array - index) w) as (r & w1 & -> & Hw1).
    destruct (IH (S index) (swap array index (index + r)) w1)
      as (shuffled & w2 & -> & Hperm & Hw2).
    exists shuffled, w2. split; [reflexivity|]. split.
    + rewrite Hperm. apply swap_Permutation.
    + etransitivity; eassumption.
Qed.

Lemma sampleSize_cases {A} (array : list A) (n : nat) (w : World) :
  exists picked w1,
    sampleSize array n w = (Ret picked, w1)
    /\ length picked = Nat.min n (length array)
    /\ (forall x, x ∈ picked -> x ∈ array)
    /\ (NoDup array -> NoDup picked)
    /\ sameButEntropy w w1.
Proof.
  unfold sampleSize, bind, ret.
  destruct (shuffleSelf_Permutation (Nat.min n (length array)) 0 array w)
    as (shuffled & w1 & -> & Hperm & Hw1).
  exists (take (Nat.min n (length array)) shuffled), w1.
  split; [reflexivity|]. split; [|split; [|split; [|exact Hw1]]].
  - rewrite length_take, (Permutation_length Hperm). lia.
  - intros x Hx. rewrite <- Hperm. eapply subseteq_take, Hx.
  - intros Hnd. apply (sublist_NoDup _ shuffled); [rewrite Hperm; exact Hnd|].
    apply sublist_take.
Qed.

Lemma selectProviders_members (available : list nat) (wanted : option string)
    (w w1 : World) (current : list (option nat)) :
  Weather.selectProviders available wanted w = (Ret current, w1) ->
  forall p, Some p ∈ current -> p ∈ available.
Proof.
  unfold Weather.selectProviders, Weather.remove. unfold bind at 1. unfold gets.
  destruct (List.filter (Weather.matchesName w wanted) available) as [|m ms] eqn:Hm.
  - unfold bind, ret.
    destruct (sampleSize_cases
                (List.filter (fun p => negb (Weather.matchesName w wanted p)) available) 2 w)
      as (picked & w2 & -> & _ & Hin & _).
    intros [= <- <-] p Hp. apply list_elem_of_fmap in Hp as (p' & [= <-] & Hp').
    apply Hin, list_elem_of_In, filter_In in Hp' as [Hp' _]. apply list_elem_of_In, Hp'.
  - unfold bind, ret.
    destruct (sample_cases
                (List.filter (fun p => negb (Weather.matchesName w wanted p)) available) w)
      as (picked & w2 & -> & _ & Hpicked).
    intros [= <- <-] p Hp.
    change (Some p ∈ (Some <$> (m :: ms)) ++ [picked]) in Hp.
    apply elem_of_app in Hp as [Hp | Hp].
    + apply list_elem_of_fmap in Hp as (p' & [= <-] & Hp').
      rewrite <- Hm in Hp'. apply list_elem_of_In, filter_In in Hp' as [Hp' _].
      apply list_elem_of_In, Hp'.
    + apply list_elem_of_singleton in Hp. subst picked.
      apply list_elem_of_In, filter_In in Hpicked as [Hp' _]. apply list_elem_of_In, Hp'.
Qed.

Lemma filter_only (l : list nat) (p : nat) :
  NoDup l -> p ∈ l -> List.filter (fun q => (q =? p)%nat) l = [p].
Proof.
  induction l as [|a l IH]; intros Hnd Hin; [inversion Hin|].
  apply NoDup_cons in Hnd as [Ha Hnd]. simpl.
  destruct (Nat.eqb_spec a p) as [->|Hne].
  - f_equal. clear IH Hin. induction l as [|b l IH]; [reflexivity|].
    simpl. apply not_elem_of_cons in Ha as [Hb Ha].
    destruct (Nat.eqb_spec b p) as [->|_]; [contradiction|].
    apply NoDup_cons in Hnd as [_ Hnd]. apply IH; assumption.
  - apply elem_of_cons in Hin as [->|Hin]; [contradiction|]. apply IH; assumption.
Qed.

Lemma available_NoDup (w : World) (utcNow hours : Z) :
  NoDup (List.filter (eligibleRef w utcNow hours) (seq 0 (length (providers w)))).
Proof. apply NoDup_ListNoDup, List.NoDup_filter, NoDup_ListNoDup, NoDup_seq. Qed.

(** X7. When no eligible provider has the name asked for, the providers to
    try are two of the eligible ones, or the only one: as many as there are
    up to two, each of them registered and eligible, no provider twice, and
    none of them undefined. *)
Theorem selectProviders_random (w : World) (utcNow hours : Z) (wanted : option string) :
  let available :=
    List.filter (eligibleRef w utcNow hours) (seq 0 (length (providers w))) in
  (forall p self,
     providers w !! p = Some self ->
     eligible (settings w) utcNow hours self = true -> Some (name self) <> wanted) ->
  exists picked w1,
    Weather.selectProviders available wanted w = (Ret (Some <$> picked), w1)
    /\ length picked = Nat.min 2 (length available)
    /\ (forall p, p ∈ picked ->
          exists self, providers w !! p = Some self
                       /\ eligible (settings w) utcNow hours self = true)
    /\ NoDup picked.
Proof.
  intros available Hnone.
  assert (Hmatch : forall q, In q available -> Weather.matchesName w wanted q = false).
  { intros q Hq. apply list_elem_of_In, elem_of_availableProviders in Hq
      as (other & Hother & Helq).
    unfold Weather.matchesName. rewrite Hother.
    apply bool_decide_eq_false_2. exact (Hnone q other Hother Helq). }
  assert (Hm : List.filter (Weather.matchesName w wanted) available = []).
  { rewrite (List.filter_ext_in _ (fun _ => false) _ Hmatch).
    clear. induction available as [|a l IH]; [reflexivity | exact IH]. }
  assert (Hrest : List.filter (fun p => negb (Weather.matchesName w wanted p)) available
                  = available).
  { rewrite (List.filter_ext_in _ (fun _ => true) available).
    - clear. induction available as [|a l IH]; [reflexivity|]. simpl. f_equal. exact IH.
    - intros q Hq. rewrite (Hmatch q Hq). reflexivity. }
  unfold Weather.selectProviders, Weather.remove. unfold bind at 1. unfold gets.
  rewrite Hm, Hrest. unfold bind, ret.
  destruct (sampleSize_cases available 2 w) as (picked & w1 & -> & Hlen & Hin & Hdup & _).
  exists picked, w1. split; [reflexivity|]. split; [exact Hlen|]. split.
  - intros p Hp. apply elem_of_availableProviders, Hin, Hp.
  - apply Hdup, available_NoDup.
Qed.

Lemma selectProviders_random_witness :
  exists picked w1,
    Weather.selectProviders [0; 1]%nat (Some "tomorrow")
      (Sample.world [stormglass; Sample.openmeteo None] [])
    = (Ret (Some <$> picked), w1)
    /\ length picked = 2%nat
    /\ NoDup picked.
Proof.
  destruct (selectProviders_random (Sample.world [stormglass; Sample.openmeteo None] [])
              Sample.noon 0 (Some "tomorrow"))
    as (picked & w1 & Hsel & Hlen & _ & Hdup).
  - intros [|[|p]] self Hself _; [| |discriminate Hself];
      injection Hself as <-; discriminate.
  - exists picked, w1. split; [exact Hsel|]. split; [exact Hlen | exact Hdup].
Defined.

(** ** The lookup and the cache *)

(** [getLocationWeather] on a date and two coordinates: the cache answers, or
    the providers are asked. *)
Lemma getLocationWeather_cases (w : World) (user : UserData) (c0 c1 dDate : Z)
    (explicit : option string) :
  exists resolved w0,
    Weather.resolveProvider (preferences user) explicit w
    = (Ret (resolved, negb (Weather.truthyString explicit)), w0)
    /\ sameButEntropy w w0
    /\ Weather.getLocationWeather user (Some [Num c0; Num c1]) (Some dDate) explicit w
       = if Weather.cacheUsable
              (mjoin (cache w !! Weather.cacheId [toFixed4 c0; toFixed4 c1] dDate))
              (negb (Weather.truthyString explicit)) resolved
         then (Ret (mjoin (cache w !! Weather.cacheId [toFixed4 c0; toFixed4 c1] dDate)),
               logged LogInfo fromCacheTag w0)
         else Weather.queryProviders user [toFixed4 c0; toFixed4 c1] dDate (clock w)
                (Dayjs.diffHours (clock w) dDate) resolved w0.
Proof.
  destruct (resolveProvider_cases (preferences user) explicit w)
    as (resolved & w0 & Hres & _ & _).
  exists resolved, w0. split; [exact Hres|].
  pose proof (stepsIn_run sameButEntropy _ _ _ _
                (quiet_resolveProvider sameButEntropy sameButEntropy_entropy _ _) Hres)
    as Hw0.
  split; [exact Hw0|].
  destruct Hw0 as (_ & _ & _ & _ & Hcache & _).
  unfold Weather.getLocationWeather, Weather.locateWeather.
  unfold bind at 1. unfold gets at 1. unfold bind at 1. rewrite Hres.
  unfold bind at 1. unfold cacheGet, gets. rewrite Hcache.
  destruct (Weather.cacheUsable _ _ _); reflexivity.
Qed.

(** The block of lines 211-253 is left by [return] with null only. *)
Lemma tryProviders_Return user coordinates dDate utcNow wanted available w w' value :
  Weather.tryProviders user coordinates dDate utcNow wanted available w
  = (Ret (Weather.Return value), w') ->
  value = None.
Proof.
  unfold Weather.tryProviders. intros H.
  apply bind_inv in H as [(current & w1 & _ & H) | (e & _ & [=])].
  apply tryCatch_inv in H as [(flow & H & [= <-]) | (e & w2 & _ & H)].
  - unfold Weather.firstAttempt in H.
    apply bind_inv in H as [(result & w2 & _ & H) | (e & _ & [=])].
    destruct result as [s|]; [|discriminate H].
    apply bind_inv in H as [(u & w3 & _ & [=]) | (e & _ & [=])].
  - unfold Weather.onFailure in H.
    apply bind_inv in H as [(failed & w3 & _ & H) | (e' & _ & [=])].
    apply bind_inv in H as [(u & w4 & _ & H) | (e' & _ & [=])].
    destruct (1 <? length current)%nat.
    + apply bind_inv in H as [(second & w5 & _ & H) | (e' & _ & [=])].
      apply bind_inv in H as [(u' & w6 & _ & H) | (e' & _ & [=])].
      apply tryCatch_inv in H as [(flow & H & [= <-]) | (e' & w7 & _ & H)].
      * apply bind_inv in H as [(result & w7 & _ & [=]) | (e' & _ & [=])].
      * injection H as <- _. reflexivity.
    + apply bind_inv in H as [(u' & w5 & _ & [=]) | (e' & _ & [=])].
Qed.

Lemma keeps_cache_tryProviders user coordinates dDate utcNow wanted available :
  stepsIn (keeps cache)
    (Weather.tryProviders user coordinates dDate utcNow wanted available).
Proof.
  apply quiet_tryProviders; try exact _; try (intros; reflexivity).
  intros i f w _. unfold keeps, updated. destruct (providers w !! i); reflexivity.
Qed.

(** What [queryProviders] returns and what it leaves in the cache. *)
Lemma queryProviders_cache user coordinates dDate utcNow hours wanted w r w' :
  Weather.queryProviders user coordinates dDate utcNow hours wanted w = (r, w') ->
  match r with
  | Ret (Some s) => cache w' = <[Weather.cacheId coordinates dDate := Some s]> (cache w)
  | Ret None => cache w' = cache w
  | Throw _ =>
      cache w' = cache w
      \/ cache w' = <[Weather.cacheId coordinates dDate := None]> (cache w)
  end.
Proof.
  unfold Weather.queryProviders. intros H. unfold bind at 1 in H.
  rewrite availableProviders_eligible in H.
  destruct (List.filter _ _) as [|p available].
  - injection H as <- <-. reflexivity.
  - apply bind_inv in H as [(flow & w1 & Htry & H) | (e & Htry & ->)];
      pose proof (keeps_run cache _ _ _ _ (keeps_cache_tryProviders _ _ _ _ _ _) Htry)
        as Hcache; [|left; exact Hcache].
    destruct flow as [value | [s|]].
    + apply tryProviders_Return in Htry. subst value. injection H as <- <-. exact Hcache.
    + injection H as <- <-. simpl. rewrite Hcache. reflexivity.
    + injection H as <- <-. right. simpl. rewrite Hcache. reflexivity.
Qed.

(** A summary that a lookup returns is in the cache afterwards. *)
Lemma lookup_caches_summary (w w' : World) (user : UserData) (c0 c1 dDate : Z)
    (explicit : option string) (s : WeatherSummary) :
  Weather.getLocationWeather user (Some [Num c0; Num c1]) (Some dDate) explicit w
  = (Ret (Some s), w') ->
  cache w' !! Weather.cacheId [toFixed4 c0; toFixed4 c1] dDate = Some (Some s).
Proof.
  intros Hrun.
  destruct (getLocationWeather_cases w user c0 c1 dDate explicit)
    as (resolved & w0 & _ & Hw0 & Hcases).
  destruct Hw0 as (_ & _ & _ & _ & Hcache0 & _).
  rewrite Hcases in Hrun. destruct (Weather.cacheUsable _ _ _).
  - injection Hrun as Hhit <-. simpl. rewrite Hcache0.
    destruct (cache w !! _) as [[c|]|]; simpl in Hhit; try discriminate Hhit.
    injection Hhit as <-. reflexivity.
  - apply queryProviders_cache in Hrun. rewrite Hrun. apply lookup_insert_eq.
Qed.

(** A lookup that the cache answers. *)
Lemma lookup_from_cache (w : World) (user : UserData) (c0 c1 dDate : Z)
    (explicit : option string) (s : WeatherSummary) :
  cache w !! Weather.cacheId [toFixed4 c0; toFixed4 c1] dDate = Some (Some s) ->
  Weather.truthyString explicit = false \/ explicit = Some (provider s) ->
  exists w',
    Weather.getLocationWeather user (Some [Num c0; Num c1]) (Some dDate) explicit w
    = (Ret (Some s), w')
    /\ calls w' = calls w /\ network w' = network w
    /\ providers w' = providers w /\ cache w' = cache w
    /\ clock w' = clock w /\ maxHoursPast w' = maxHoursPast w.
Proof.
  intros Hheld Hwanted.
  destruct (getLocationWeather_cases w user c0 c1 dDate explicit)
    as (resolved & w0 & Hres & Hw0 & Hcases).
  rewrite Hheld in Hcases. simpl in Hcases.
  assert (Husable : negb (Weather.truthyString explicit)
                    || bool_decide (Some (provider s) = resolved) = true).
  { destruct Hwanted as [-> | ->]; [reflexivity|].
    destruct (resolveProvider_cases (preferences user) (Some (provider s)) w)
      as (resolved' & w0' & Hres' & _ & Horder).
    rewrite Hres in Hres'. injection Hres' as <- <-.
    destruct (Weather.truthyString (Some (provider s))) eqn:Ht; [|reflexivity].
    subst resolved. simpl. apply bool_decide_eq_true_2. reflexivity. }
  rewrite Husable in Hcases.
  destruct Hw0 as (_ & Hps & Hmax & _ & Hcache & Hclock & Hnet & _ & Hcalls).
  eexists. split; [exact Hcases|]. simpl. repeat split; assumption.
Qed.

(** X8. Whenever [getLocationWeather] returns a summary, the cache then
    holds that summary for the rounded coordinates and the time. And as long
    as the cache holds it, a lookup at coordinates that round to the same, at
    the same time, with no provider asked for or with the provider of the
    summary, returns it again: no adapter is called, no request is sent, no
    provider and no cache entry is changed. *)
Theorem cache_round_trip (w w' : World) (user : UserData) (c0 c1 dDate : Z)
    (explicit : option string) (s : WeatherSummary) :
  Weather.getLocationWeather user (Some [Num c0; Num c1]) (Some dDate) explicit w
  = (Ret (Some s), w') ->
  cache w' !! Weather.cacheId [toFixed4 c0; toFixed4 c1] dDate = Some (Some s)
  /\ forall (w2 : World) (user2 : UserData) (c0' c1' : Z) (explicit2 : option string),
       cache w2 !! Weather.cacheId [toFixed4 c0; toFixed4 c1] dDate = Some (Some s) ->
       toFixed4 c0' = toFixed4 c0 ->
       toFixed4 c1' = toFixed4 c1 ->
       Weather.truthyString explicit2 = false \/ explicit2 = Some (provider s) ->
       exists w2',
         Weather.getLocationWeather user2 (Some [Num c0'; Num c1']) (Some dDate) explicit2 w2
         = (Ret (Some s), w2')
         /\ calls w2' = calls w2 /\ network w2' = network w2
         /\ providers w2' = providers w2 /\ cache w2' = cache w2.
Proof.
  intros Hrun. split; [exact (lookup_caches_summary _ _ _ _ _ _ _ _ Hrun)|].
  intros w2 user2 c0' c1' explicit2 Hheld Hc0 Hc1 Hwanted.
  rewrite <- Hc0, <- Hc1 in Hheld.
  destruct (lookup_from_cache w2 user2 c0' c1' dDate explicit2 s Hheld Hwanted)
    as (w2' & Hagain & Hcalls & Hnet & Hps & Hcache & _).
  exists w2'. repeat split; assumption.
Qed.

Lemma cache_round_trip_witness :
  exists w2',
    Weather.getLocationWeather Sample.fan (Some [Num 51507349; Num (-127651)])
      (Some Sample.noon) None
      (snd (Weather.getLocationWeather Sample.user (Some [Num 51507310; Num (-127660)])
              (Some Sample.noon) None
              (Sample.world [stormglass]
                 [Responded (Hours [Sample.reading Sample.noon])])))
    = (Ret (Some (StormGlass.summaryOf "stormglass" (Sample.reading Sample.noon)
                    Sample.noon StormGlass.noPreferences)), w2')
    /\ calls w2'
       = calls (snd (Weather.getLocationWeather Sample.user
                       (Some [Num 51507310; Num (-127660)]) (Some Sample.noon) None
                       (Sample.world [stormglass]
                          [Responded (Hours [Sample.reading Sample.noon])]))).
Proof.
  destruct (cache_round_trip
              (Sample.world [stormglass] [Responded (Hours [Sample.reading Sample.noon])])
              (snd (Weather.getLocationWeather Sample.user
                      (Some [Num 51507310; Num (-127660)]) (Some Sample.noon) None
                      (Sample.world [stormglass]
                         [Responded (Hours [Sample.reading Sample.noon])])))
              Sample.user 51507310 (-127660) Sample.noon None
              (StormGlass.summaryOf "stormglass" (Sample.reading Sample.noon)
                 Sample.noon StormGlass.noPreferences))
    as [Hheld Hagain].
  - vm_compute. reflexivity.
  - destruct (Hagain _ Sample.fan 51507349 (-127651) None Hheld)
      as (w2' & Hrun & Hcalls & _); [reflexivity | reflexivity | left; reflexivity |].
    exists w2'. split; [exact Hrun | exact Hcalls].
Defined.

(** X9. A lookup writes at most one entry of the cache, the one of the
    rounded coordinates and the time: every other entry is as it was. The
    entry it writes is the summary it returns; a lookup that returns null
    leaves the whole cache as it was, so that nothing keeps the next lookup
    from asking the providers again. *)
Theorem lookup_touches_one_key (w w' : World) (user : UserData) (c0 c1 dDate : Z)
    (explicit : option string) (r : Result (option WeatherSummary)) :
  Weather.getLocationWeather user (Some [Num c0; Num c1]) (Some dDate) explicit w = (r, w') ->
  (forall key, key <> Weather.cacheId [toFixed4 c0; toFixed4 c1] dDate ->
               cache w' !! key = cache w !! key)
  /\ (r = Ret None -> cache w' = cache w)
  /\ (forall s, r = Ret (Some s) ->
        cache w' !! Weather.cacheId [toFixed4 c0; toFixed4 c1] dDate = Some (Some s)).
Proof.
  intros Hrun.
  destruct (getLocationWeather_cases w user c0 c1 dDate explicit)
    as (resolved & w0 & _ & Hw0 & Hcases).
  destruct Hw0 as (_ & _ & _ & _ & Hcache0 & _).
  rewrite Hcases in Hrun. destruct (Weather.cacheUsable _ _ _).
  - injection Hrun as <- <-. simpl. rewrite Hcache0.
    split; [reflexivity|]. split; [reflexivity|].
    intros s [= Hs]. destruct (cache w !! _) as [[c|]|]; simpl in Hs; try discriminate Hs.
    injection Hs as <-. reflexivity.
  - apply queryProviders_cache in Hrun. rewrite <- Hcache0.
    destruct r as [[s|]|e].
    + rewrite Hrun. split; [|split; [discriminate|]].
      * intros key Hkey. apply lookup_insert_ne. congruence.
      * intros s' [= <-]. apply lookup_insert_eq.
    + rewrite Hrun. split; [reflexivity|]. split; [reflexivity | discriminate].
    + split; [|split; discriminate].
      intros key Hkey. destruct Hrun as [-> | ->]; [reflexivity|].
      apply lookup_insert_ne. congruence.
Qed.

Lemma lookup_touches_one_key_witness :
  let w := Sample.cached
             (Sample.world [stormglass] [Responded (Hours [Sample.reading Sample.noon])]) in
  let run := Weather.getLocationWeather Sample.user (Some [Num 51752000; Num (-1257700)])
               (Some Sample.noon) None w in
  cache (snd run) !! Weather.cacheId Sample.london Sample.noon
  = Some (Some Sample.cachedSummary)
  /\ cache (snd run)
       !! Weather.cacheId [toFixed4 51752000; toFixed4 (-1257700)] Sample.noon
     = Some (Some (StormGlass.summaryOf "stormglass" (Sample.reading Sample.noon)
                     Sample.noon StormGlass.noPreferences)).
Proof.
  intros w run.
  destruct (lookup_touches_one_key w (snd run) Sample.user 51752000 (-1257700) Sample.noon
              None (fst run)) as (Hother & _ & Hsome).
  - apply surjective_pairing.
  - split.
    + rewrite Hother; [reflexivity|]. vm_compute. discriminate.
    + apply Hsome. vm_compute. reflexivity.
Defined.

(** X10. When no registered provider is eligible for the date and the cache
    has no entry for the place and the time, the lookup returns null: no
    adapter is called, no request is sent, and the providers and the cache
    are as they were. *)
Theorem no_provider_no_request (w : World) (user : UserData) (c0 c1 dDate : Z)
    (explicit : option string) :
  mjoin (cache w !! Weather.cacheId [toFixed4 c0; toFixed4 c1] dDate) = None ->
  (forall self, self ∈ providers w ->
     eligible (settings w) (clock w) (Dayjs.diffHours (clock w) dDate) self = false) ->
  exists w',
    Weather.getLocationWeather user (Some [Num c0; Num c1]) (Some dDate) explicit w
    = (Ret None, w')
    /\ calls w' = calls w /\ network w' = network w
    /\ providers w' = providers w /\ cache w' = cache w.
Proof.
  intros Hcache Hnone.
  destruct (getLocationWeather_cases w user c0 c1 dDate explicit)
    as (resolved & w0 & _ & Hw0 & Hcases).
  rewrite Hcases, Hcache. simpl.
  unfold Weather.queryProviders. unfold bind at 1.
  rewrite availableProviders_eligible, (available_same _ _ _ _ Hw0).
  assert (Hempty : List.filter
                     (eligibleRef w (clock w) (Dayjs.diffHours (clock w) dDate))
                     (seq 0 (length (providers w))) = []).
  { destruct (List.filter _ _) as [|p rest] eqn:Hf; [reflexivity|]. exfalso.
    assert (Hp : p ∈ List.filter
                       (eligibleRef w (clock w) (Dayjs.diffHours (clock w) dDate))
                       (seq 0 (length (providers w)))) by (rewrite Hf; left).
    apply elem_of_availableProviders in Hp as (self & Hself & Hel).
    rewrite (Hnone self) in Hel; [discriminate Hel|].
    eapply list_elem_of_lookup_2, Hself. }
  rewrite Hempty.
  destruct Hw0 as (_ & Hps & _ & _ & Hc & _ & Hnet & _ & Hcalls).
  eexists. split; [reflexivity|]. simpl. repeat split; assumption.
Qed.

Lemma no_provider_no_request_witness :
  exists w',
    Weather.getLocationWeather Sample.user (Some [Num 51507310; Num (-127660)])
      (Some Sample.noon) None (Sample.world [Sample.usedUp Sample.halfHour] [])
    = (Ret None, w')
    /\ calls w' = [] /\ network w' = [].
Proof.
  destruct (no_provider_no_request (Sample.world [Sample.usedUp Sample.halfHour] [])
              Sample.user 51507310 (-127660) Sample.noon None)
    as (w' & Hrun & Hcalls & Hnet & _).
  - reflexivity.
  - intros self Hself. apply list_elem_of_singleton in Hself. subst self.
    vm_compute. reflexivity.
  - exists w'. split; [exact Hrun|]. split; [exact Hcalls | exact Hnet].
Defined.

(** ** One lookup, step by step *)

Lemma providers_updated (w : World) (i : nat) (f : WeatherProvider -> WeatherProvider)
    (self : WeatherProvider) :
  providers w !! i = Some self ->
  providers (updated i f w) = <[i := f self]> (providers w).
Proof. intros H. rewrite (updateProvider_Some _ _ _ _ H). reflexivity. Qed.

(** The cache does not answer and a provider is eligible: the providers to
    try are asked. *)
Lemma getLocationWeather_asks (w w0 w1 : World) (user : UserData) (c0 c1 dDate : Z)
    (explicit resolved : option string) (isDefaultProvider : bool)
    (current : list (option nat)) (p : nat) :
  let coordinates := [toFixed4 c0; toFixed4 c1] in
  let hours := Dayjs.diffHours (clock w) dDate in
  let available :=
    List.filter (eligibleRef w (clock w) hours) (seq 0 (length (providers w))) in
  Weather.resolveProvider (preferences user) explicit w
  = (Ret (resolved, isDefaultProvider), w0) ->
  Weather.cacheUsable (mjoin (cache w !! Weather.cacheId coordinates dDate))
    isDefaultProvider resolved = false ->
  Weather.selectProviders available resolved w0 = (Ret current, w1) ->
  current !! 0%nat = Some (Some p) ->
  sameButEntropy w w1
  /\ (forall q, Some q ∈ current -> q ∈ available)
  /\ Weather.getLocationWeather user (Some [Num c0; Num c1]) (Some dDate) explicit w
     = (let* flow :=
          tryCatch
            (Weather.firstAttempt (Some p) coordinates dDate (preferences user))
            (Weather.onFailure current (Some p) coordinates dDate (clock w)
               (preferences user)) in
        match flow with
        | Weather.Return value => ret value
        | Weather.GoOn result =>
            cacheSet (Weather.cacheId coordinates dDate) result ;;
            match result with
            | None =>
                throw (TypeError "Cannot read properties of undefined (reading 'provider')")
            | Some _ => logger LogInfo "Weather.getLocationWeather" ;; ret result
            end
        end) w1.
Proof.
  intros coordinates hours available Hres Hunusable Hsel Hfirst.
  pose proof (stepsIn_run sameButEntropy _ _ _ _
                (quiet_resolveProvider sameButEntropy sameButEntropy_entropy _ _) Hres)
    as Hw0.
  pose proof (stepsIn_run sameButEntropy _ _ _ _
                (quiet_selectProviders sameButEntropy sameButEntropy_entropy _ _) Hsel)
    as Hw01.
  assert (Hw1 : sameButEntropy w w1) by (etransitivity; eassumption).
  pose proof (selectProviders_members _ _ _ _ _ Hsel) as Hmembers.
  split; [exact Hw1|]. split; [exact Hmembers|].
  assert (Hinp : p ∈ available).
  { apply Hmembers. eapply list_elem_of_lookup_2, Hfirst. }
  pose proof (available_same w w0 (clock w) hours Hw0) as Hav0.
  destruct Hw0 as (_ & _ & _ & _ & Hcache0 & _ & _ & _ & _).
  unfold Weather.getLocationWeather, Weather.locateWeather.
  unfold bind at 1. unfold gets at 1. unfold bind at 1. rewrite Hres.
  unfold bind at 1. unfold cacheGet, gets. rewrite Hcache0.
  fold coordinates. rewrite Hunusable. fold hours.
  rewrite (queryProviders_asks user coordinates dDate (clock w) hours resolved w0)
    by (rewrite Hav0; intros E; fold available in E; rewrite E in Hinp;
        apply list_elem_of_In in Hinp; destruct Hinp).
  rewrite Hav0. fold available.
  unfold bind at 1. unfold Weather.tryProviders. unfold bind at 1.
  rewrite Hsel, Hfirst. reflexivity.
Qed.

Lemma firstAttempt_summary (w : World) (p : nat) (self : WeatherProvider)
    (coordinates : list Z) (dDate : Z) (preferences : option UserPreferences)
    (rows : list HourData) (timeData : HourData) (rest : list NetReply) :
  providers w !! p = Some self ->
  StormGlass.outOfRange self (clock w) dDate = false ->
  network w = Responded (Hours rows) :: rest ->
  StormGlass.findTimeData rows dDate = Some timeData ->
  Weather.firstAttempt (Some p) coordinates dDate preferences w
  = (Ret (Weather.GoOn
            (Some (StormGlass.summaryOf (name self) timeData dDate
                     (default StormGlass.noPreferences preferences)))),
     updated p (withDisabledTillDate None)
       (called (name self) coordinates dDate GaveSummary
          (logged LogInfo StormGlass.tag (setNetwork rest (requested p self w))))).
Proof.
  intros Hp Hrange Hnet Hfind. unfold Weather.firstAttempt. unfold bind at 1.
  rewrite (callGetWeather_summary w p self coordinates dDate preferences rows timeData rest)
    by assumption.
  reflexivity.
Qed.

Lemma firstAttempt_transport (w : World) (p : nat) (self : WeatherProvider)
    (coordinates : list Z) (dDate : Z) (preferences : option UserPreferences)
    (status : option Z) (rest : list NetReply) :
  providers w !! p = Some self ->
  StormGlass.outOfRange self (clock w) dDate = false ->
  network w = Failed status :: rest ->
  Weather.firstAttempt (Some p) coordinates dDate preferences w
  = (Throw (AxiosError status),
     thrown p (withStats (countRequest (clock w)) self) coordinates dDate
       (setNetwork rest (requested p self w))).
Proof.
  intros Hp Hrange Hnet. unfold Weather.firstAttempt. unfold bind at 1.
  rewrite (callGetWeather_transport w p self coordinates dDate preferences status rest)
    by assumption.
  reflexivity.
Qed.

(** The [catch] when there is a second provider to try. *)
Lemma onFailure_second (w : World) (current : list (option nat)) (p q : nat)
    (failed second : WeatherProvider) (coordinates : list Z) (dDate utcNow : Z)
    (preferences : option UserPreferences) (ex : Exn) :
  current !! 1%nat = Some (Some q) ->
  providers w !! p = Some failed ->
  providers w !! q = Some second ->
  p <> q ->
  let w1 :=
    logged LogWarn "Weather.getLocationWeather"
      (if Weather.is402 ex
       then logged LogWarn "Weather.getLocationWeather"
              (updated p
                 (withDisabledTillDate (Some (Dayjs.addHours (Dayjs.endOfDay utcNow) 1))) w)
       else w) in
  Weather.onFailure current (Some p) coordinates dDate utcNow preferences ex w
  = tryCatch
      (let* result := Weather.callGetWeather (Some q) coordinates dDate preferences in
       ret (Weather.GoOn result))
      (fun retryEx =>
         logger LogError "Weather.getLocationWeather" ;;
         logger LogError "Weather.getLocationWeather" ;;
         ret (Weather.Return None)) w1
  /\ providers w1
     = (if Weather.is402 ex
        then <[p := withDisabledTillDate
                      (Some (Dayjs.addHours (Dayjs.endOfDay utcNow) 1)) failed]> (providers w)
        else providers w)
  /\ providers w1 !! q = Some second
  /\ clock w1 = clock w /\ network w1 = network w /\ calls w1 = calls w
  /\ cache w1 = cache w /\ settings w1 = settings w.
Proof.
  intros Hq Hp Hsecond Hne w1.
  assert (Hlen : (1 <? length current)%nat = true).
  { apply Nat.ltb_lt. eapply lookup_lt_Some, Hq. }
  assert (Hps : providers w1
                = (if Weather.is402 ex
                   then <[p := withDisabledTillDate
                                 (Some (Dayjs.addHours (Dayjs.endOfDay utcNow) 1)) failed]>
                          (providers w)
                   else providers w)).
  { subst w1. destruct (Weather.is402 ex); [|reflexivity].
    unfold logged. simpl. apply providers_updated, Hp. }
  assert (Hq1 : providers w1 !! q = Some second).
  { rewrite Hps. destruct (Weather.is402 ex); [|exact Hsecond].
    rewrite list_lookup_insert_ne by exact Hne. exact Hsecond. }
  split; [|split; [exact Hps|]; split; [exact Hq1|]].
  - unfold Weather.onFailure. unfold bind at 1. rewrite (getProvider_Some _ _ _ Hp).
    rewrite Hlen, Hq. simpl (mjoin _).
    unfold bind at 1.
    assert (Hquota :
              (if Weather.is402 ex
               then Weather.setDisabledTillDate (Some p)
                      (Some (Dayjs.addHours (Dayjs.endOfDay utcNow) 1)) ;;
                    logger LogWarn "Weather.getLocationWeather"
               else ret tt) w
              = (Ret tt,
                 if Weather.is402 ex
                 then logged LogWarn "Weather.getLocationWeather"
                        (updated p
                           (withDisabledTillDate
                              (Some (Dayjs.addHours (Dayjs.endOfDay utcNow) 1))) w)
                 else w)).
    { destruct (Weather.is402 ex); reflexivity. }
    rewrite Hquota. unfold bind at 1.
    assert (Hq0 : providers
                    (if Weather.is402 ex
                     then logged LogWarn "Weather.getLocationWeather"
                            (updated p
                               (withDisabledTillDate
                                  (Some (Dayjs.addHours (Dayjs.endOfDay utcNow) 1))) w)
                     else w) !! q = Some second) by exact Hq1.
    rewrite (getProvider_Some _ _ _ Hq0).
    unfold bind at 1. unfold logger at 1, modify at 1. reflexivity.
  - subst w1. unfold logged, updated.
    destruct (Weather.is402 ex), (providers w !! p); repeat split.
Qed.

(** X11. The first provider to try answers: its summary is what the lookup
    returns and what the cache then holds for the place and the time; the
    request is counted and stamped on that provider, and its
    [disabledTillDate] is cleared. One adapter is called, one reply is used,
    and no other provider is changed. *)
Theorem first_provider_answers (w w0 w1 : World) (user : UserData) (c0 c1 dDate : Z)
    (explicit resolved : option string) (isDefaultProvider : bool)
    (current : list (option nat)) (p : nat) (first : WeatherProvider)
    (rows : list HourData) (timeData : HourData) (more : list NetReply) :
  let coordinates := [toFixed4 c0; toFixed4 c1] in
  let hours := Dayjs.diffHours (clock w) dDate in
  let available :=
    List.filter (eligibleRef w (clock w) hours) (seq 0 (length (providers w))) in
  let s := StormGlass.summaryOf (name first) timeData dDate
             (default StormGlass.noPreferences (preferences user)) in
  Weather.resolveProvider (preferences user) explicit w
  = (Ret (resolved, isDefaultProvider), w0) ->
  Weather.cacheUsable (mjoin (cache w !! Weather.cacheId coordinates dDate))
    isDefaultProvider resolved = false ->
  Weather.selectProviders available resolved w0 = (Ret current, w1) ->
  current !! 0%nat = Some (Some p) ->
  providers w !! p = Some first ->
  network w = Responded (Hours rows) :: more ->
  StormGlass.findTimeData rows dDate = Some timeData ->
  exists w',
    Weather.getLocationWeather user (Some [Num c0; Num c1]) (Some dDate) explicit w
    = (Ret (Some s), w')
    /\ providers w'
       = <[p := withDisabledTillDate None (withStats (countRequest (clock w)) first)]>
           (providers w)
    /\ cache w' = <[Weather.cacheId coordinates dDate := Some s]> (cache w)
    /\ calls w'
       = calls w ++ [{| callee := name first; callCoordinates := coordinates;
                        callDate := dDate; outcome := GaveSummary |}]
    /\ network w' = more.
Proof.
  intros coordinates hours available s Hres Hunusable Hsel Hfirst Hp Hnet Hfind.
  destruct (getLocationWeather_asks w w0 w1 user c0 c1 dDate explicit resolved
              isDefaultProvider current p Hres Hunusable Hsel Hfirst)
    as (Hw1 & Hmembers & ->).
  fold coordinates hours available in Hmembers |- *.
  assert (Hel : eligible (settings w) (clock w) hours first = true).
  { assert (Hin : p ∈ available) by (apply Hmembers; eapply list_elem_of_lookup_2, Hfirst).
    apply elem_of_availableProviders in Hin as (self & Hself & H).
    rewrite Hp in Hself. injection Hself as <-. exact H. }
  destruct Hw1 as (_ & Hps & _ & _ & Hcache & Hclock & Hnet1 & _ & Hcalls1).
  assert (Hlt : (p < length (providers w))%nat) by (eapply lookup_lt_Some; eauto).
  unfold bind at 1. unfold tryCatch at 1.
  rewrite (firstAttempt_summary w1 p first coordinates dDate (preferences user) rows
             timeData more);
    [ | rewrite Hps; exact Hp
      | rewrite Hclock; apply (eligible_in_range _ _ _ _ Hel)
      | rewrite Hnet1; exact Hnet
      | exact Hfind ].
  unfold bind at 1. unfold cacheSet at 1, modify at 1.
  unfold bind at 1. unfold logger at 1, modify at 1. unfold ret.
  eexists. split; [reflexivity|].
  unfold logged, setCache. simpl.
  erewrite providers_updated
    by (unfold called, logged, requested; simpl; rewrite Hps;
        apply list_lookup_insert_eq, Hlt).
  unfold updated, called, logged, requested. simpl.
  rewrite Hps, Hclock, list_lookup_insert_eq by exact Hlt. simpl.
  rewrite list_insert_insert_eq, Hcache, Hcalls1.
  repeat split.
Qed.

Lemma first_provider_answers_witness :
  exists w',
    Weather.getLocationWeather Sample.user (Some [Num 51507310; Num (-127660)])
      (Some Sample.noon) (Some "openmeteo")
      (Sample.world [stormglass; Sample.openmeteo (Some (Sample.noon - Dayjs.msPerDay))]
         [Responded (Hours [Sample.reading Sample.noon])])
    = (Ret (Some (StormGlass.summaryOf "openmeteo" (Sample.reading Sample.noon) Sample.noon
                    StormGlass.noPreferences)), w')
    /\ disabledTillDateOf w' 1 = Some None
    /\ providers w' !! 0%nat = Some stormglass
    /\ network w' = [].
Proof.
  destruct (first_provider_answers
              (Sample.world [stormglass; Sample.openmeteo (Some (Sample.noon - Dayjs.msPerDay))]
                 [Responded (Hours [Sample.reading Sample.noon])])
              (Sample.world [stormglass; Sample.openmeteo (Some (Sample.noon - Dayjs.msPerDay))]
                 [Responded (Hours [Sample.reading Sample.noon])])
              (Sample.world [stormglass; Sample.openmeteo (Some (Sample.noon - Dayjs.msPerDay))]
                 [Responded (Hours [Sample.reading Sample.noon])])
              Sample.user 51507310 (-127660) Sample.noon (Some "openmeteo")
              (Some "openmeteo") false [Some 1%nat; Some 0%nat] 1%nat
              (Sample.openmeteo (Some (Sample.noon - Dayjs.msPerDay)))
              [Sample.reading Sample.noon] (Sample.reading Sample.noon) [])
    as (w' & Hrun & Hps & _ & _ & Hnet).
  - vm_compute. reflexivity.
  - vm_compute. reflexivity.
  - vm_compute. reflexivity.
  - reflexivity.
  - reflexivity.
  - reflexivity.
  - vm_compute. reflexivity.
  - exists w'. split; [exact Hrun|]. unfold disabledTillDateOf. rewrite Hps.
    repeat split. exact Hnet.
Defined.

(** X12. The two providers to try both fail with a transport error: the
    lookup returns null and writes nothing to the cache. Each of the two has
    its request and its error counted; the first one is disabled until one
    hour after the end of the day when its error is a 402, the second one is
    not, whatever its error. Two adapters are called, two replies are used. *)
Theorem both_providers_fail (w w0 w1 : World) (user : UserData) (c0 c1 dDate : Z)
    (explicit resolved : option string) (isDefaultProvider : bool)
    (current : list (option nat)) (p q : nat) (first second : WeatherProvider)
    (status1 status2 : option Z) (more : list NetReply) :
  let coordinates := [toFixed4 c0; toFixed4 c1] in
  let hours := Dayjs.diffHours (clock w) dDate in
  let available :=
    List.filter (eligibleRef w (clock w) hours) (seq 0 (length (providers w))) in
  let failed (self : WeatherProvider) :=
    withStats countError (withStats (countRequest (clock w)) self) in
  Weather.resolveProvider (preferences user) explicit w
  = (Ret (resolved, isDefaultProvider), w0) ->
  Weather.cacheUsable (mjoin (cache w !! Weather.cacheId coordinates dDate))
    isDefaultProvider resolved = false ->
  Weather.selectProviders available resolved w0 = (Ret current, w1) ->
  current !! 0%nat = Some (Some p) ->
  current !! 1%nat = Some (Some q) ->
  p <> q ->
  providers w !! p = Some first ->
  providers w !! q = Some second ->
  network w = Failed status1 :: Failed status2 :: more ->
  exists w',
    Weather.getLocationWeather user (Some [Num c0; Num c1]) (Some dDate) explicit w
    = (Ret None, w')
    /\ cache w' = cache w
    /\ providers w'
       = <[q := failed second]>
           (<[p := if Weather.is402 (AxiosError status1)
                   then withDisabledTillDate
                          (Some (Dayjs.addHours (Dayjs.endOfDay (clock w)) 1)) (failed first)
                   else failed first]> (providers w))
    /\ calls w'
       = calls w ++ [{| callee := name first; callCoordinates := coordinates;
                        callDate := dDate; outcome := Threw |};
                     {| callee := name second; callCoordinates := coordinates;
                        callDate := dDate; outcome := Threw |}]
    /\ network w' = more.
Proof.
  intros coordinates hours available failed Hres Hunusable Hsel Hfirst Hsecond Hne Hp Hq Hnet.
  destruct (getLocationWeather_asks w w0 w1 user c0 c1 dDate explicit resolved
              isDefaultProvider current p Hres Hunusable Hsel Hfirst)
    as (Hw1 & Hmembers & ->).
  fold coordinates hours available in Hmembers |- *.
  assert (Help : eligible (settings w) (clock w) hours first = true).
  { assert (Hin : p ∈ available) by (apply Hmembers; eapply list_elem_of_lookup_2, Hfirst).
    apply elem_of_availableProviders in Hin as (self & Hself & H).
    rewrite Hp in Hself. injection Hself as <-. exact H. }
  assert (Helq : eligible (settings w) (clock w) hours second = true).
  { assert (Hin : q ∈ available) by (apply Hmembers; eapply list_elem_of_lookup_2, Hsecond).
    apply elem_of_availableProviders in Hin as (self & Hself & H).
    rewrite Hq in Hself. injection Hself as <-. exact H. }
  destruct Hw1 as (_ & Hps & _ & _ & Hcache & Hclock & Hnet1 & _ & Hcalls1).
  assert (Hltp : (p < length (providers w))%nat) by (eapply lookup_lt_Some; eauto).
  assert (Hltq : (q < length (providers w))%nat) by (eapply lookup_lt_Some; eauto).
  unfold bind at 1. unfold tryCatch at 1.
  rewrite (firstAttempt_transport w1 p first coordinates dDate (preferences user) status1
             (Failed status2 :: more));
    [ | rewrite Hps; exact Hp
      | rewrite Hclock; apply (eligible_in_range _ _ _ _ Help)
      | rewrite Hnet1; exact Hnet ].
  set (w2 := thrown p (withStats (countRequest (clock w1)) first) coordinates dDate
               (setNetwork (Failed status2 :: more) (requested p first w1))).
  assert (Hps2 : providers w2 = <[p := failed first]> (providers w)).
  { subst w2. unfold thrown, requested, called, logged. simpl.
    rewrite Hps, Hclock, list_insert_insert_eq. reflexivity. }
  assert (Hp2 : providers w2 !! p = Some (failed first)).
  { rewrite Hps2. apply list_lookup_insert_eq, Hltp. }
  assert (Hq2 : providers w2 !! q = Some second).
  { rewrite Hps2, list_lookup_insert_ne by exact Hne. exact Hq. }
  assert (Hclock2 : clock w2 = clock w) by exact Hclock.
  assert (Hnet2 : network w2 = Failed status2 :: more) by reflexivity.
  assert (Hcache2 : cache w2 = cache w) by exact Hcache.
  assert (Hcalls2 : calls w2
                    = calls w ++ [{| callee := name first; callCoordinates := coordinates;
                                     callDate := dDate; outcome := Threw |}]).
  { subst w2. unfold thrown, requested, called, logged. simpl. rewrite Hcalls1.
    reflexivity. }
  clearbody w2.
  destruct (onFailure_second w2 current p q (failed first) second coordinates dDate (clock w)
              (preferences user) (AxiosError status1) Hsecond Hp2 Hq2 Hne)
    as (-> & Hps3 & Hq3 & Hclock3 & Hnet3 & Hcalls3 & Hcache3 & _).
  set (quota := Weather.is402 (AxiosError status1)) in *. clearbody quota.
  set (w3 := logged LogWarn "Weather.getLocationWeather" (if quota then _ else _)) in *.
  clearbody w3.
  unfold tryCatch at 1. unfold bind at 1.
  rewrite (callGetWeather_transport w3 q second coordinates dDate (preferences user) status2
             more);
    [ | exact Hq3
      | rewrite Hclock3, Hclock2; apply (eligible_in_range _ _ _ _ Helq)
      | rewrite Hnet3; exact Hnet2 ].
  unfold bind at 1. unfold logger at 1, modify at 1.
  unfold bind at 1. unfold logger at 1, modify at 1. unfold ret.
  eexists. split; [reflexivity|].
  unfold thrown, requested, called, logged. simpl.
  rewrite Hcache3, Hcache2, Hcalls3, Hcalls2, Hclock3, Hclock2, Hps3, Hps2.
  rewrite list_insert_insert_eq, <- app_assoc.
  split; [reflexivity|]. split; [|split; reflexivity].
  destruct quota; [|reflexivity].
  rewrite list_insert_insert_eq. reflexivity.
Qed.

Lemma both_providers_fail_witness :
  exists w',
    Weather.getLocationWeather Sample.fan (Some [Num 51507310; Num (-127660)])
      (Some Sample.noon) None
      (Sample.world [stormglass; Sample.openmeteo None]
         [Failed (Some 402); Failed (Some 402)])
    = (Ret None, w')
    /\ cache w' = ∅
    /\ disabledTillDateOf w' 0
       = Some (Some (Dayjs.addHours (Dayjs.endOfDay Sample.noon) 1))
    /\ disabledTillDateOf w' 1 = Some None.
Proof.
  destruct (both_providers_fail
              (Sample.world [stormglass; Sample.openmeteo None]
                 [Failed (Some 402); Failed (Some 402)])
              (Sample.world [stormglass; Sample.openmeteo None]
                 [Failed (Some 402); Failed (Some 402)])
              (Sample.world [stormglass; Sample.openmeteo None]
                 [Failed (Some 402); Failed (Some 402)])
              Sample.fan 51507310 (-127660) Sample.noon None (Some "stormglass") true
              [Some 0%nat; Some 1%nat] 0%nat 1%nat stormglass (Sample.openmeteo None)
              (Some 402) (Some 402) [])
    as (w' & Hrun & Hcache & Hps & _).
  - vm_compute. reflexivity.
  - vm_compute. reflexivity.
  - vm_compute. reflexivity.
  - reflexivity.
  - reflexivity.
  - discriminate.
  - reflexivity.
  - reflexivity.
  - reflexivity.
  - exists w'. split; [exact Hrun|]. split; [exact Hcache|].
    unfold disabledTillDateOf. rewrite Hps. split; reflexivity.
Defined.

Lemma endOfDay_bounds (d : Z) : d <= Dayjs.endOfDay d < d + Dayjs.msPerDay.
Proof.
  unfold Dayjs.endOfDay, Dayjs.msPerDay.
  pose proof (Z.div_mod d 86400000 ltac:(lia)).
  pose proof (Z.mod_pos_bound d 86400000 ltac:(lia)).
  lia.
Qed.

(** X13. The first provider to try fails with a transport error and the
    second one answers: the summary of the second is returned and cached,
    and the error counter of the first is one more than before. When the
    status of the error is 402, the first is also disabled until one hour
    after the end of the UTC day, a date more than one hour and less than 25
    hours away; until that date the filter of the next lookups turns it away,
    whatever the date asked for. With any other error its [disabledTillDate]
    is as it was. The [disabledTillDate] of the second provider is as it was,
    too. *)
Theorem transport_error_falls_back (w w0 w1 : World) (user : UserData) (c0 c1 dDate : Z)
    (explicit resolved : option string) (isDefaultProvider : bool)
    (current : list (option nat)) (p q : nat) (first second : WeatherProvider)
    (status : option Z) (rows : list HourData) (timeData : HourData)
    (more : list NetReply) :
  let coordinates := [toFixed4 c0; toFixed4 c1] in
  let hours := Dayjs.diffHours (clock w) dDate in
  let available :=
    List.filter (eligibleRef w (clock w) hours) (seq 0 (length (providers w))) in
  let s := StormGlass.summaryOf (name second) timeData dDate
             (default StormGlass.noPreferences (preferences user)) in
  let till := Dayjs.addHours (Dayjs.endOfDay (clock w)) 1 in
  let failed := withStats countError (withStats (countRequest (clock w)) first) in
  Weather.resolveProvider (preferences user) explicit w
  = (Ret (resolved, isDefaultProvider), w0) ->
  Weather.cacheUsable (mjoin (cache w !! Weather.cacheId coordinates dDate))
    isDefaultProvider resolved = false ->
  Weather.selectProviders available resolved w0 = (Ret current, w1) ->
  current !! 0%nat = Some (Some p) ->
  current !! 1%nat = Some (Some q) ->
  p <> q ->
  providers w !! p = Some first ->
  providers w !! q = Some second ->
  network w = Failed status :: Responded (Hours rows) :: more ->
  StormGlass.findTimeData rows dDate = Some timeData ->
  exists w',
    Weather.getLocationWeather user (Some [Num c0; Num c1]) (Some dDate) explicit w
    = (Ret (Some s), w')
    /\ provider s = name second
    /\ cache w' = <[Weather.cacheId coordinates dDate := Some s]> (cache w)
    /\ providers w'
       = <[q := withStats (countRequest (clock w)) second]>
           (<[p := if Weather.is402 (AxiosError status)
                   then withDisabledTillDate (Some till) failed
                   else failed]> (providers w))
    /\ errorCountOf w' p = Some (errorCount (stats first) + 1)
    /\ calls w'
       = calls w ++ [{| callee := name first; callCoordinates := coordinates;
                        callDate := dDate; outcome := Threw |};
                     {| callee := name second; callCoordinates := coordinates;
                        callDate := dDate; outcome := GaveSummary |}]
    /\ network w' = more
    /\ clock w + Dayjs.msPerHour <= till < clock w + 25 * Dayjs.msPerHour
    /\ (status = Some 402 ->
        forall (later hours' : Z) (self : WeatherProvider),
          providers w' !! p = Some self ->
          later < till ->
          eligible (settings w') later hours' self = false)
    /\ (status <> Some 402 -> disabledTillDateOf w' p = Some (disabledTillDate first))
    /\ disabledTillDateOf w' q = Some (disabledTillDate second).
Proof.
  intros coordinates hours available s till failed Hres Hunusable Hsel Hfirst Hsecond Hne
    Hp Hq Hnet Hfind.
  destruct (getLocationWeather_asks w w0 w1 user c0 c1 dDate explicit resolved
              isDefaultProvider current p Hres Hunusable Hsel Hfirst)
    as (Hw1 & Hmembers & ->).
  fold coordinates hours available in Hmembers |- *.
  assert (Help : eligible (settings w) (clock w) hours first = true).
  { assert (Hin : p ∈ available) by (apply Hmembers; eapply list_elem_of_lookup_2, Hfirst).
    apply elem_of_availableProviders in Hin as (self & Hself & H).
    rewrite Hp in Hself. injection Hself as <-. exact H. }
  assert (Helq : eligible (settings w) (clock w) hours second = true).
  { assert (Hin : q ∈ available) by (apply Hmembers; eapply list_elem_of_lookup_2, Hsecond).
    apply elem_of_availableProviders in Hin as (self & Hself & H).
    rewrite Hq in Hself. injection Hself as <-. exact H. }
  destruct Hw1 as (_ & Hps & _ & _ & Hcache & Hclock & Hnet1 & _ & Hcalls1).
  assert (Hltp : (p < length (providers w))%nat) by (eapply lookup_lt_Some; eauto).
  assert (Hltq : (q < length (providers w))%nat) by (eapply lookup_lt_Some; eauto).
  unfold bind at 1. unfold tryCatch at 1.
  rewrite (firstAttempt_transport w1 p first coordinates dDate (preferences user) status
             (Responded (Hours rows) :: more));
    [ | rewrite Hps; exact Hp
      | rewrite Hclock; apply (eligible_in_range _ _ _ _ Help)
      | rewrite Hnet1; exact Hnet ].
  set (w2 := thrown p (withStats (countRequest (clock w1)) first) coordinates dDate
               (setNetwork (Responded (Hours rows) :: more) (requested p first w1))).
  assert (Hps2 : providers w2 = <[p := failed]> (providers w)).
  { subst w2. unfold thrown, requested, called, logged. simpl.
    rewrite Hps, Hclock, list_insert_insert_eq. reflexivity. }
  assert (Hp2 : providers w2 !! p = Some failed).
  { rewrite Hps2. apply list_lookup_insert_eq, Hltp. }
  assert (Hq2 : providers w2 !! q = Some second).
  { rewrite Hps2, list_lookup_insert_ne by exact Hne. exact Hq. }
  assert (Hclock2 : clock w2 = clock w) by exact Hclock.
  assert (Hnet2 : network w2 = Responded (Hours rows) :: more) by reflexivity.
  assert (Hcache2 : cache w2 = cache w) by exact Hcache.
  assert (Hcalls2 : calls w2
                    = calls w ++ [{| callee := name first; callCoordinates := coordinates;
                                     callDate := dDate; outcome := Threw |}]).
  { subst w2. unfold thrown, requested, called, logged. simpl. rewrite Hcalls1.
    reflexivity. }
  clearbody w2.
  destruct (onFailure_second w2 current p q failed second coordinates dDate (clock w)
              (preferences user) (AxiosError status) Hsecond Hp2 Hq2 Hne)
    as (-> & Hps3 & Hq3 & Hclock3 & Hnet3 & Hcalls3 & Hcache3 & _).
  assert (Hquota : Weather.is402 (AxiosError status) = true <-> status = Some 402).
  { destruct status as [code|]; simpl; [|split; discriminate].
    rewrite Z.eqb_eq. split; congruence. }
  set (quota := Weather.is402 (AxiosError status)) in *. clearbody quota.
  set (w3 := logged LogWarn "Weather.getLocationWeather" (if quota then _ else _)) in *.
  clearbody w3.
  unfold tryCatch at 1. unfold bind at 1.
  rewrite (callGetWeather_summary w3 q second coordinates dDate (preferences user) rows
             timeData more);
    [ | exact Hq3
      | rewrite Hclock3, Hclock2; apply (eligible_in_range _ _ _ _ Helq)
      | rewrite Hnet3; exact Hnet2
      | exact Hfind ].
  unfold ret at 1. unfold bind at 1. unfold cacheSet at 1, modify at 1.
  unfold bind at 1. unfold logger at 1, modify at 1. unfold ret.
  eexists. split; [reflexivity|]. split; [reflexivity|].
  match goal with
  | |- cache ?x = _ /\ _ => set (w' := x)
  end.
  assert (Hfinal : providers w'
                   = <[q := withStats (countRequest (clock w)) second]>
                       (<[p := if quota then withDisabledTillDate (Some till) failed
                               else failed]> (providers w))).
  { subst w'. unfold requested, called, logged. simpl. rewrite Hclock3, Hclock2, Hps3, Hps2.
    destruct quota; [rewrite list_insert_insert_eq|]; reflexivity. }
  assert (Hcached : cache w' = <[Weather.cacheId coordinates dDate := Some s]> (cache w)).
  { subst w'. unfold requested, called, logged. simpl. rewrite Hcache3, Hcache2.
    reflexivity. }
  assert (Hcalled : calls w'
                    = calls w ++ [{| callee := name first; callCoordinates := coordinates;
                                     callDate := dDate; outcome := Threw |};
                                  {| callee := name second; callCoordinates := coordinates;
                                     callDate := dDate; outcome := GaveSummary |}]).
  { subst w'. unfold requested, called, logged. simpl.
    rewrite Hcalls3, Hcalls2, <- app_assoc. reflexivity. }
  assert (Hleft : network w' = more) by reflexivity.
  clearbody w'.
  assert (Hpw' : providers w' !! p
                 = Some (if quota then withDisabledTillDate (Some till) failed else failed)).
  { rewrite Hfinal, list_lookup_insert_ne by congruence.
    apply list_lookup_insert_eq, Hltp. }
  split; [exact Hcached|]. split; [exact Hfinal|].
  split; [unfold errorCountOf; rewrite Hpw'; destruct quota; reflexivity|].
  split; [exact Hcalled|]. split; [exact Hleft|].
  pose proof (endOfDay_bounds (clock w)) as Hday.
  split.
  { subst till. unfold Dayjs.addHours, Dayjs.msPerHour, Dayjs.msPerDay in *. lia. }
  split; [|split].
  - intros Hstatus later hours' self Hself Hlater.
    apply Hquota in Hstatus. rewrite Hstatus in Hpw'.
    rewrite Hpw' in Hself. injection Hself as <-.
    unfold eligible. simpl. unfold Dayjs.isBefore.
    destruct (Z.ltb_spec later till) as [_|Hge]; [|lia].
    rewrite !andb_false_r. reflexivity.
  - intros Hstatus. unfold disabledTillDateOf. rewrite Hpw'.
    destruct quota; [|reflexivity]. exfalso. apply Hstatus, Hquota. reflexivity.
  - unfold disabledTillDateOf. rewrite Hfinal.
    rewrite list_lookup_insert_eq by (rewrite length_insert; exact Hltq). reflexivity.
Qed.

Lemma transport_error_falls_back_witness :
  exists w',
    Weather.getLocationWeather Sample.fan (Some [Num 51507310; Num (-127660)])
      (Some Sample.noon) None
      (Sample.world [stormglass; Sample.openmeteo None]
         [Failed (Some 402); Responded (Hours [Sample.reading Sample.noon])])
    = (Ret (Some (StormGlass.summaryOf "openmeteo" (Sample.reading Sample.noon) Sample.noon
                    (default StormGlass.noPreferences (preferences Sample.fan)))), w')
    /\ errorCountOf w' 0 = Some (0 + 1)
    /\ disabledTillDateOf w' 0 = Some (Some (Sample.noon + 13 * Dayjs.msPerHour - 1))
    /\ (forall self, providers w' !! 0%nat = Some self ->
          eligible (settings w') (Sample.noon + 12 * Dayjs.msPerHour) 0 self = false).
Proof.
  destruct (transport_error_falls_back
              (Sample.world [stormglass; Sample.openmeteo None]
                 [Failed (Some 402); Responded (Hours [Sample.reading Sample.noon])])
              (Sample.world [stormglass; Sample.openmeteo None]
                 [Failed (Some 402); Responded (Hours [Sample.reading Sample.noon])])
              (Sample.world [stormglass; Sample.openmeteo None]
                 [Failed (Some 402); Responded (Hours [Sample.reading Sample.noon])])
              Sample.fan 51507310 (-127660) Sample.noon None (Some "stormglass") true
              [Some 0%nat; Some 1%nat] 0%nat 1%nat stormglass (Sample.openmeteo None)
              (Some 402) [Sample.reading Sample.noon] (Sample.reading Sample.noon) [])
    as (w' & Hrun & _ & _ & Hps & Herr & _ & _ & _ & Hout & _).
  - vm_compute. reflexivity.
  - vm_compute. reflexivity.
  - vm_compute. reflexivity.
  - reflexivity.
  - reflexivity.
  - discriminate.
  - reflexivity.
  - reflexivity.
  - reflexivity.
  - vm_compute. reflexivity.
  - exists w'. split; [exact Hrun|]. split; [exact Herr|]. split.
    + unfold disabledTillDateOf. rewrite Hps. reflexivity.
    + intros self Hself. apply (Hout eq_refl _ _ _ Hself). vm_compute. reflexivity.
Defined.

(** ** Where a summary comes from *)

Lemma names_updated (i : nat) (f : WeatherProvider -> WeatherProvider) (w : World) :
  keepsStatic f ->
  keeps (fun v => name <$> providers v) w (updated i f w).
Proof.
  intros Hf. unfold keeps, updated.
  destruct (providers w !! i) as [self|] eqn:Hi; [|reflexivity]. simpl.
  rewrite list_fmap_insert. apply list_insert_id.
  rewrite list_lookup_fmap, Hi. simpl. f_equal. symmetry. apply Hf.
Qed.

Lemma names_callGetWeather providerModule coordinates dDate preferences :
  stepsIn (keeps (fun v => name <$> providers v))
    (Weather.callGetWeather providerModule coordinates dDate preferences).
Proof.
  apply quiet_callGetWeather; try exact _; try (intros; reflexivity).
  intros i f w Hf. apply names_updated, Hf.
Qed.

Lemma names_setDisabledTillDate providerModule d :
  stepsIn (keeps (fun v => name <$> providers v))
    (Weather.setDisabledTillDate providerModule d).
Proof.
  apply quiet_setDisabledTillDate; try exact _.
  intros i f w Hf. apply names_updated, Hf.
Qed.

(** A summary that an adapter returns carries the name of its provider. *)
Lemma callGetWeather_answer providerModule coordinates dDate preferences w w' s :
  Weather.callGetWeather providerModule coordinates dDate preferences w
  = (Ret (Some s), w') ->
  exists p self,
    providerModule = Some p /\ providers w !! p = Some self /\ provider s = name self.
Proof.
  unfold Weather.callGetWeather. intros H.
  apply bind_inv in H as [(self & w1 & Hget & H) | (e & _ & [=])].
  unfold getProvider in Hget.
  destruct providerModule as [p|]; simpl in Hget; [|discriminate].
  destruct (providers w !! p) as [self'|] eqn:Hp; [|discriminate].
  injection Hget as <- <-.
  destruct (getWeather_effect _ _ _ _ _ _ _ _ Hp H) as (_ & _ & _ & _ & _ & _ & Hs & _).
  exists p, self'. split; [reflexivity|]. split; [exact Hp|]. apply Hs. reflexivity.
Qed.

Lemma tryProviders_answer user coordinates dDate utcNow wanted available w w' s :
  Weather.tryProviders user coordinates dDate utcNow wanted available w
  = (Ret (Weather.GoOn (Some s)), w') ->
  exists p self,
    p ∈ available /\ providers w !! p = Some self /\ provider s = name self.
Proof.
  unfold Weather.tryProviders. intros H.
  apply bind_inv in H as [(current & w1 & Hsel & H) | (e & _ & [=])].
  pose proof (selectProviders_members _ _ _ _ _ Hsel) as Hmembers.
  pose proof (stepsIn_run sameButEntropy _ _ _ _
                (quiet_selectProviders sameButEntropy sameButEntropy_entropy _ _) Hsel)
    as (_ & Hps & _).
  assert (Hin : forall i p, mjoin (current !! i) = Some p -> p ∈ available).
  { intros i p Hi. apply Hmembers.
    destruct (current !! i) as [[p'|]|] eqn:Hc; simpl in Hi; try discriminate Hi.
    injection Hi as ->. eapply list_elem_of_lookup_2, Hc. }
  apply tryCatch_inv in H as [(flow & H & [= <-]) | (e & w2 & Hfirst & H)].
  - unfold Weather.firstAttempt in H.
    apply bind_inv in H as [(result & w2 & Hcall & H) | (e & _ & [=])].
    destruct result as [s0|]; [|discriminate H].
    apply bind_inv in H as [(u & w3 & _ & [= -> _]) | (e & _ & [=])].
    apply callGetWeather_answer in Hcall as (p & self & Hp & Hself & Hs).
    exists p, self. split; [eapply Hin, Hp|]. rewrite <- Hps. split; assumption.
  - assert (Hnames2 : name <$> providers w2 = name <$> providers w).
    { rewrite <- Hps. revert Hfirst.
      apply (keeps_run (fun v => name <$> providers v)).
      unfold Weather.firstAttempt.
      repeat first [ apply names_callGetWeather | apply names_setDisabledTillDate
                   | frame_step ]. }
    unfold Weather.onFailure in H.
    apply bind_inv in H as [(failed & w3 & Hget & H) | (e' & _ & [=])].
    pose proof (keeps_run (fun v => name <$> providers v) _ _ _ _
                  (quiet_getProvider _ _) Hget) as Hnames3.
    apply bind_inv in H as [(u & w4 & Hquota & H) | (e' & _ & [=])].
    assert (Hnames4 : name <$> providers w4 = name <$> providers w3).
    { revert Hquota. apply (keeps_run (fun v => name <$> providers v)).
      destruct (Weather.is402 e);
        repeat first [ apply names_setDisabledTillDate | frame_step ].
      apply quiet_logger; try exact _; [intros; reflexivity | discriminate]. }
    destruct (1 <? length current)%nat.
    + apply bind_inv in H as [(second & w5 & Hget2 & H) | (e' & _ & [=])].
      pose proof (keeps_run (fun v => name <$> providers v) _ _ _ _
                    (quiet_getProvider _ _) Hget2) as Hnames5.
      apply bind_inv in H as [(u' & w6 & [= _ <-] & H) | (e' & _ & [=])].
      apply tryCatch_inv in H as [(flow & H & [= <-]) | (e' & w7 & _ & H)].
      * apply bind_inv in H as [(result & w7 & Hcall & [= -> _]) | (e' & _ & [=])].
        apply callGetWeather_answer in Hcall as (q & self & Hq & Hself & Hs).
        assert (Hname : name <$> providers w !! q = Some (name self)).
        { rewrite <- list_lookup_fmap, <- Hnames2, <- Hnames3, <- Hnames4, <- Hnames5.
          rewrite list_lookup_fmap.
          change (providers (logged LogWarn "Weather.getLocationWeather" w5))
            with (providers w5) in Hself.
          rewrite Hself. reflexivity. }
        destruct (providers w !! q) as [self0|] eqn:Hq0; [|discriminate Hname].
        injection Hname as Hname.
        exists q, self0. split; [eapply Hin, Hq|]. split; [exact Hq0 | congruence].
      * apply bind_inv in H as [(u'' & w8 & _ & H) | (e'' & _ & [=])].
        apply bind_inv in H as [(u3 & w9 & _ & [=]) | (e'' & _ & [=])].
    + apply bind_inv in H as [(u' & w5 & _ & [=]) | (e' & _ & [=])].
Qed.

(** X14. A summary that a lookup returns is the one the cache held for the
    place and the time, and then no adapter was called; or it carries the
    name of a registered provider that was eligible for the date when the
    lookup began: inside its coverage window, not disabled, and under its
    quota or not asked for more than 16 hours. *)
Theorem summary_from_eligible_provider (w w' : World) (user : UserData) (c0 c1 dDate : Z)
    (explicit : option string) (s : WeatherSummary) :
  Weather.getLocationWeather user (Some [Num c0; Num c1]) (Some dDate) explicit w
  = (Ret (Some s), w') ->
  (cache w !! Weather.cacheId [toFixed4 c0; toFixed4 c1] dDate = Some (Some s)
   /\ calls w' = calls w /\ network w' = network w)
  \/ (exists p self,
        providers w !! p = Some self
        /\ eligible (settings w) (clock w) (Dayjs.diffHours (clock w) dDate) self = true
        /\ provider s = name self
        /\ calls w' <> calls w).
Proof.
  intros Hrun.
  pose proof (getLocationWeather_calls _ _ _ _ _ _ _ Hrun) as (extra & Hcalls & Hshape).
  destruct (getLocationWeather_cases w user c0 c1 dDate explicit)
    as (resolved & w0 & _ & Hw0 & Hcases).
  rewrite Hcases in Hrun. clear Hcases.
  pose proof (available_same w w0 (clock w) (Dayjs.diffHours (clock w) dDate) Hw0) as Hav.
  destruct Hw0 as (_ & Hps & _ & _ & Hcache & _ & Hnet & _ & Hcalls0).
  destruct (Weather.cacheUsable _ _ _).
  - left. injection Hrun as Hhit <-. simpl.
    split; [|split; assumption].
    destruct (cache w !! _) as [[c|]|]; simpl in Hhit; try discriminate Hhit.
    injection Hhit as <-. reflexivity.
  - right. unfold Weather.queryProviders in Hrun. unfold bind at 1 in Hrun.
    rewrite availableProviders_eligible, Hav in Hrun.
    destruct (List.filter _ _) as [|a available] eqn:Havailable; [discriminate Hrun|].
    apply bind_inv in Hrun as [(flow & w1 & Htry & H) | (e & _ & [=])].
    destruct flow as [value | [s'|]].
    + apply tryProviders_Return in Htry. subst value. discriminate H.
    + assert (s' = s) as ->.
      { apply bind_inv in H as [(u & w2 & _ & H) | (e & _ & [=])].
        apply bind_inv in H as [(u' & w3 & _ & [= -> _]) | (e & _ & [=])]. reflexivity. }
      pose proof (tryProviders_calls _ _ _ _ _ _ _ _ _ Htry) as (extra1 & Hcalls1 & _).
      assert (Hgrew : calls w1 <> calls w0).
      { clear H. unfold Weather.tryProviders in Htry.
        apply bind_inv in Htry as [(current & v1 & Hsel & Htry) | (e & _ & [=])].
        pose proof (keeps_run calls _ _ _ _
                      (quiet_selectProviders (keeps calls) calls_entropy _ _) Hsel) as E1.
        rewrite <- E1.
        apply tryCatch_inv in Htry as [(flow & Htry & [= <-]) | (e & v2 & Hfirst & Hh)].
        - apply firstAttempt_calls in Htry as (extra2 & -> & Hshape2).
          destruct extra2 as [|c2 rest]; [discriminate Hshape2|].
          intros E. apply (f_equal length) in E. rewrite length_app in E. simpl in E. lia.
        - apply firstAttempt_calls in Hfirst as (extra2 & Hc2 & _).
          unfold Weather.onFailure in Hh.
          apply bind_inv in Hh as [(failed & v3 & Hget & Hh) | (e' & _ & [=])].
          pose proof (keeps_run calls _ _ _ _ (quiet_getProvider (keeps calls) _) Hget) as E3.
          apply bind_inv in Hh as [(u & v4 & Hquota & Hh) | (e' & _ & [=])].
          assert (E4 : calls v4 = calls v3).
          { revert Hquota. apply (keeps_run calls).
            destruct (Weather.is402 e); repeat first [frame_step | quiet]. }
          destruct (1 <? length current)%nat.
          + apply bind_inv in Hh as [(second & v5 & Hget2 & Hh) | (e' & _ & [=])].
            pose proof (keeps_run calls _ _ _ _ (quiet_getProvider (keeps calls) _) Hget2)
              as E5.
            apply bind_inv in Hh as [(u' & v6 & [= _ <-] & Hh) | (e' & _ & [=])].
            apply tryCatch_inv in Hh as [(flow & Hh & [= <-]) | (e' & v7 & _ & Hh)].
            * apply bind_inv in Hh as [(result & v7 & Hcall & [= -> <-]) | (e' & _ & [=])].
              apply callGetWeather_calls in Hcall as (extra3 & Hc3 & Hshape3).
              destruct extra3 as [|c3 rest]; [discriminate Hshape3|].
              change (calls (logged LogWarn "Weather.getLocationWeather" v5))
                with (calls v5) in Hc3.
              rewrite Hc3, E5, E4, E3, Hc2.
              intros E. apply (f_equal length) in E. rewrite !length_app in E.
              simpl in E. lia.
            * apply bind_inv in Hh as [(u'' & v8 & _ & Hh) | (e'' & _ & [=])].
              apply bind_inv in Hh as [(u3 & v9 & _ & [=]) | (e'' & _ & [=])].
          + apply bind_inv in Hh as [(u' & v5 & _ & [=]) | (e' & _ & [=])]. }
      assert (Hlast : calls w' = calls w1).
      { revert H. apply (keeps_run calls). repeat first [frame_step | quiet]. }
      apply tryProviders_answer in Htry as (p & self & Hin & Hself & Hs).
      rewrite <- Havailable in Hin.
      apply elem_of_availableProviders in Hin as (self0 & Hself0 & Hel).
      rewrite Hps in Hself. rewrite Hself in Hself0. injection Hself0 as <-.
      exists p, self. split; [exact Hself|]. split; [exact Hel|]. split; [exact Hs|].
      rewrite Hlast, <- Hcalls0. exact Hgrew.
    + apply bind_inv in H as [(u & w2 & _ & [=]) | (e & _ & [=])].
Qed.

Lemma summary_from_eligible_provider_witness :
  exists p self,
    providers (Sample.world [stormglass] [Responded (Hours [Sample.reading Sample.noon])])
      !! p = Some self
    /\ eligible Sample.cfg Sample.noon 0 self = true
    /\ name self = "stormglass".
Proof.
  destruct (summary_from_eligible_provider
              (Sample.world [stormglass] [Responded (Hours [Sample.reading Sample.noon])])
              (snd (Weather.getLocationWeather Sample.user
                      (Some [Num 51507310; Num (-127660)]) (Some Sample.noon) None
                      (Sample.world [stormglass]
                         [Responded (Hours [Sample.reading Sample.noon])])))
              Sample.user 51507310 (-127660) Sample.noon None
              (StormGlass.summaryOf "stormglass" (Sample.reading Sample.noon) Sample.noon
                 StormGlass.noPreferences))
    as [(Hcached & _) | (p & self & Hself & Hel & Hs & _)].
  - vm_compute. reflexivity.
  - discriminate Hcached.
  - exists p, self. split; [exact Hself|]. split; [exact Hel|]. symmetry. exact Hs.
Defined.

(** ** What the registry keeps *)

(** X15. The field [maxHoursPast] is an invariant of the registry: when it
    is the greatest [hoursPast] of the registered providers, as it is with no
    provider and 0, it still is after [init], after any location lookup and
    after any activity lookup, however they end. *)
Theorem maxHoursPast_invariant (w : World) :
  coherent w ->
  (forall all, coherent (snd (Weather.init all w)))
  /\ (forall user coordinates dDate wanted,
        coherent (snd (Weather.getLocationWeather user coordinates dDate wanted w)))
  /\ (forall user activity,
        coherent (snd (Weather.getActivityWeather user activity w))).
Proof.
  intros H. split; [|split].
  - intros all. apply init_coherent, H.
  - intros. apply getLocationWeather_coherent, H.
  - intros. apply getActivityWeather_coherent, H.
Qed.

Lemma maxHoursPast_invariant_witness :
  maxHoursPast (snd (Weather.init [stormglass; Sample.openmeteo None]
                       (Sample.world [] [])))
  = greatestHoursPast
      (providers (snd (Weather.init [stormglass; Sample.openmeteo None]
                         (Sample.world [] [])))).
Proof.
  destruct (maxHoursPast_invariant (Sample.world [] [])) as (Hinit & _).
  - reflexivity.
  - apply Hinit.
Defined.

#[export] Instance laterProvider_preorder : PreOrder laterProvider.
Proof.
  split.
  - intros p. unfold laterProvider. repeat split; lia.
  - intros p1 p2 p3 (? & ? & ? & ? & ?) (? & ? & ? & ? & ?).
    unfold laterProvider. repeat split; try congruence; lia.
Qed.

#[export] Instance laterRegistry_preorder : PreOrder laterRegistry.
Proof.
  split.
  - intros w. unfold laterRegistry. repeat split. reflexivity.
  - intros w1 w2 w3 (? & ? & ? & H12) (? & ? & ? & H23).
    unfold laterRegistry. repeat split; try congruence.
    etransitivity; eassumption.
Qed.

Lemma laterRegistry_same (w w' : World) :
  settings w' = settings w -> clock w' = clock w -> maxHoursPast w' = maxHoursPast w ->
  providers w' = providers w ->
  laterRegistry w w'.
Proof.
  intros Hs Hc Hm Hp. unfold laterRegistry. rewrite Hp. repeat split; try assumption.
  apply (reflexivity (R := laterRegistry) w).
Qed.

Lemma laterRegistry_updated (i : nat) (f : WeatherProvider -> WeatherProvider) (w : World) :
  bumps f -> laterRegistry w (updated i f w).
Proof.
  intros Hf. unfold updated.
  destruct (providers w !! i) as [self|] eqn:Hi; [|reflexivity].
  unfold laterRegistry. simpl. repeat split.
  rewrite <- (list_insert_id (providers w) i self Hi) at 1.
  apply Forall2_insert; [apply (reflexivity (R := laterRegistry) w)|].
  apply Hf.
Qed.

Lemma bumps_countRequest (now : Z) : bumps (withStats (countRequest now)).
Proof. intros p. simpl. repeat split; lia. Qed.

Lemma bumps_countError : bumps (withStats countError).
Proof. intros p. simpl. repeat split; lia. Qed.

Lemma bumps_withDisabledTillDate (d : option Z) : bumps (withDisabledTillDate d).
Proof. intros p. simpl. repeat split; lia. Qed.

Lemma later_logger (l : Level) (o : string) : stepsIn laterRegistry (logger l o).
Proof. intros w. apply laterRegistry_same; reflexivity. Qed.

Lemma later_updateProvider (i : nat) (f : WeatherProvider -> WeatherProvider) :
  bumps f -> stepsIn laterRegistry (updateProvider i f).
Proof. intros Hf w. apply laterRegistry_updated, Hf. Qed.

Lemma later_apiRequest (this : nat) : stepsIn laterRegistry (apiRequest this).
Proof.
  unfold apiRequest. repeat frame_step.
  - apply later_updateProvider, bumps_countRequest.
  - intros w. destruct (network w) as [|[body|status] rest]; simpl;
      apply laterRegistry_same; reflexivity.
Qed.

Ltac later_step :=
  first [ frame_step
        | apply later_logger
        | apply later_apiRequest
        | apply later_updateProvider;
          first [ apply bumps_countRequest | apply bumps_countError
                | apply bumps_withDisabledTillDate ]
        | apply (quiet_getProvider laterRegistry)
        | apply (quiet_toWeatherSummary laterRegistry)
        | apply (quiet_availableProviders laterRegistry)
        | apply (quiet_recordCall laterRegistry);
          intros; apply laterRegistry_same; reflexivity
        | apply (quiet_cacheSet laterRegistry);
          intros; apply laterRegistry_same; reflexivity
        | apply (quiet_selectProviders laterRegistry);
          intros; apply laterRegistry_same; reflexivity
        | apply (quiet_resolveProvider laterRegistry);
          intros; apply laterRegistry_same; reflexivity ].

Lemma later_getWeather this coordinates dDate preferences :
  stepsIn laterRegistry (StormGlass.getWeather this coordinates dDate preferences).
Proof. unfold StormGlass.getWeather. repeat later_step. Qed.

Lemma later_getLocationWeather user coordinates dDate wanted :
  stepsIn laterRegistry (Weather.getLocationWeather user coordinates dDate wanted).
Proof.
  unfold Weather.getLocationWeather, Weather.locateWeather, Weather.queryProviders,
    Weather.tryProviders, Weather.firstAttempt, Weather.onFailure, Weather.callGetWeather,
    Weather.setDisabledTillDate, cacheGet.
  repeat first [apply later_getWeather | later_step].
Qed.

(** X16. Over a location lookup and over an activity lookup, however they
    end, the registry only grows older: the same providers at the same
    places, each with the name and the coverage window it had, and with a
    request counter and an error counter that are not lower than before. The
    settings, the clock and [maxHoursPast] are the same. *)
Theorem registry_only_ages (w : World) :
  (forall user coordinates dDate wanted,
     laterRegistry w (snd (Weather.getLocationWeather user coordinates dDate wanted w)))
  /\ (forall user activity,
        laterRegistry w (snd (Weather.getActivityWeather user activity w)))
  /\ (forall w', laterRegistry w w' ->
        length (providers w') = length (providers w)
        /\ forall p self self',
             providers w !! p = Some self -> providers w' !! p = Some self' ->
             name self' = name self
             /\ hoursPast self' = hoursPast self /\ hoursFuture self' = hoursFuture self
             /\ requestCount (stats self) <= requestCount (stats self')
             /\ errorCount (stats self) <= errorCount (stats self')).
Proof.
  split; [|split].
  - intros. apply later_getLocationWeather.
  - intros user activity. revert w.
    change (stepsIn laterRegistry (Weather.getActivityWeather user activity)).
    unfold Weather.getActivityWeather, Weather.lookupStartEnd, Weather.lookupMid.
    repeat first [apply later_getLocationWeather | later_step].
  - intros w' (_ & _ & _ & Hps). split.
    + symmetry. eapply Forall2_length, Hps.
    + intros p self self' Hself Hself'.
      exact (Forall2_lookup_lr _ _ _ _ _ _ Hps Hself Hself').
Qed.

(** ** The adapter calls of an activity lookup *)

Lemma asksUpTo_same (n : nat) (w w' : World) : calls w' = calls w -> asksUpTo n w w'.
Proof. intros H. exists []. rewrite app_nil_r. split; [exact H | simpl; lia]. Qed.

Lemma asksUpTo_trans (n m k : nat) (w w1 w2 : World) :
  asksUpTo n w w1 -> asksUpTo m w1 w2 -> (n + m <= k)%nat -> asksUpTo k w w2.
Proof.
  intros (e1 & H1 & L1) (e2 & H2 & L2) Hk. exists (e1 ++ e2).
  rewrite H2, H1, app_assoc, length_app. split; [reflexivity | lia].
Qed.

Lemma getLocationWeather_asks_twice user coordinates dDate wanted :
  stepsIn (asksUpTo 2) (Weather.getLocationWeather user coordinates dDate wanted).
Proof.
  intros w.
  destruct (Weather.getLocationWeather user coordinates dDate wanted w) as [r w'] eqn:H.
  apply getLocationWeather_calls in H as (extra & Hcalls & Hshape).
  exists extra. split; [exact Hcalls|].
  destruct extra as [|c1 [|c2 [|c3 rest]]]; simpl in *; lia.
Qed.

Lemma lookupStartEnd_asks user activity dateStart' dateEnd' :
  stepsIn (asksUpTo 4) (Weather.lookupStartEnd user activity dateStart' dateEnd').
Proof.
  intros w. unfold Weather.lookupStartEnd, tryCatch, bind, ret, logger, modify.
  pose proof (getLocationWeather_asks_twice user (locationStart activity)
                (Some dateStart') None w) as H1.
  destruct (Weather.getLocationWeather user (locationStart activity) (Some dateStart')
              None w) as [[s|ex] w1]; simpl in *.
  - pose proof (getLocationWeather_asks_twice user (locationEnd activity)
                  (Some dateEnd') None w1) as H2.
    destruct (Weather.getLocationWeather user (locationEnd activity) (Some dateEnd')
                None w1) as [[e|ex] w2]; simpl in *;
      eapply asksUpTo_trans; try exact H1; try exact H2; lia.
  - eapply asksUpTo_trans; [exact H1 | apply (asksUpTo_same 0); reflexivity | lia].
Qed.

Lemma lookupMid_asks user activity weather :
  stepsIn (asksUpTo (if wantsMid user activity then 2 else 0))
    (Weather.lookupMid user activity weather).
Proof.
  intros w. unfold Weather.lookupMid, wantsMid, tryCatch, bind, ret, logger, modify.
  destruct (isPro user && (10800 <? totalTime activity)); simpl;
    [|apply asksUpTo_same; reflexivity].
  pose proof (getLocationWeather_asks_twice user (locationMid activity)
                (Some (dateStart activity + totalTime activity * 500)) None w) as H.
  destruct (Weather.getLocationWeather user (locationMid activity) _ None w)
    as [[m|ex] w1]; simpl in *; exact H.
Qed.

(** X17. An activity lookup calls the adapters at most four times: two
    lookups of at most two attempts each; and at most six times when the user
    is PRO and the activity lasted more than three hours, the only case in
    which the weather in the middle is looked up. In every other case the
    result has no weather for the middle. An activity without location calls
    no adapter. *)
Theorem activity_lookup_budget (w : World) (user : UserData) (activity : StravaActivity) :
  asksUpTo (if wantsMid user activity then 6 else 4) w
    (snd (Weather.getActivityWeather user activity w))
  /\ (wantsMid user activity = false ->
      forall weather,
        fst (Weather.getActivityWeather user activity w) = Ret (Some weather) ->
        mid weather = None)
  /\ (hasLocation activity = false ->
      calls (snd (Weather.getActivityWeather user activity w)) = calls w).
Proof.
  split; [|split].
  - unfold Weather.getActivityWeather. unfold tryCatch at 1.
    destruct (hasLocation activity); simpl; [|apply asksUpTo_same; reflexivity].
    unfold bind at 1. unfold gets at 1. unfold bind at 1. unfold gets at 1.
    destruct (Dayjs.isAfter _ _); [apply asksUpTo_same; reflexivity|].
    unfold bind at 1.
    pose proof (lookupStartEnd_asks user activity (dateStart activity) (dateStart activity) w)
      as Hse.
    pose proof (lookupStartEnd_produced user activity w) as Hr.
    destruct (Weather.lookupStartEnd user activity (dateStart activity)
                (dateStart activity) w) as [r w2]. simpl in Hse, Hr. subst r.
    unfold bind at 1.
    match goal with
    | |- context [Weather.lookupMid user activity ?x w2] =>
        pose proof (lookupMid_asks user activity x w2) as Hm;
        pose proof (lookupMid_produced user activity x w2 eq_refl) as Hr;
        destruct (Weather.lookupMid user activity x w2) as [r w3]
    end.
    simpl in Hm, Hr. subst r.
    assert (Hboth : asksUpTo (if wantsMid user activity then 6 else 4) w w3).
    { eapply asksUpTo_trans; [exact Hse | exact Hm|].
      destruct (wantsMid user activity); lia. }
    clear Hse Hm. simpl.
    destruct (produced (fst (startLookup user activity w))) as [s|]; [exact Hboth|].
    destruct (startLookup user activity w) as [[v|ex] w1]; simpl; [|exact Hboth].
    destruct (produced (fst (endLookup user activity w1))); exact Hboth.
  - intros Hgate weather Hrun. rewrite getActivityWeather_produced in Hrun.
    unfold wantsMid in Hgate.
    assert (Hmid : midProduced user activity w = None).
    { unfold midProduced. rewrite Hgate. destruct (turnedAway activity w); reflexivity. }
    destruct (startProduced user activity w), (endProduced user activity w);
      try discriminate Hrun; injection Hrun as <-; exact Hmid.
  - intros Hloc. unfold Weather.getActivityWeather. unfold tryCatch at 1.
    rewrite Hloc. reflexivity.
Qed.

Lemma activity_lookup_budget_witness :
  let w := Sample.world [stormglass]
             [Responded (Hours [Sample.reading Sample.noon]);
              Responded (Hours [Sample.reading Sample.noon])] in
  let nowhere :=
    {| activityId := 4; hasLocation := false; dateStart := Sample.noon;
       dateEnd := Some (Sample.noon + Dayjs.msPerHour); utcStartOffset := 0;
       totalTime := 3600; locationStart := None; locationMid := None;
       locationEnd := None |} in
  (exists weather,
     fst (Weather.getActivityWeather Sample.user (Sample.ride Sample.noon) w)
     = Ret (Some weather)
     /\ mid weather = None)
  /\ calls (snd (Weather.getActivityWeather Sample.user nowhere w)) = [].
Proof.
  intros w nowhere. split.
  - destruct (activity_lookup_budget w Sample.user (Sample.ride Sample.noon))
      as (_ & Hmid & _).
    assert (Hrun : exists weather,
               fst (Weather.getActivityWeather Sample.user (Sample.ride Sample.noon) w)
               = Ret (Some weather)).
    { eexists. vm_compute. reflexivity. }
    destruct Hrun as [weather Hrun]. exists weather.
    split; [exact Hrun | exact (Hmid eq_refl weather Hrun)].
  - destruct (activity_lookup_budget w Sample.user nowhere) as (_ & _ & Hnone).
    apply Hnone. reflexivity.
Defined.

Lemma registry_only_ages_witness :
  length (providers (snd (Weather.getLocationWeather Sample.user
                            (Some [Num 51507310; Num (-127660)]) (Some Sample.noon) None
                            (Sample.world [stormglass; Sample.openmeteo None]
                               [Failed (Some 402)]))))
  = 2%nat.
Proof.
  destruct (registry_only_ages
              (Sample.world [stormglass; Sample.openmeteo None] [Failed (Some 402)]))
    as (Hlookup & _ & Hmeans).
  destruct (Hmeans _ (Hlookup Sample.user (Some [Num 51507310; Num (-127660)])
                        (Some Sample.noon) None)) as [Hlen _].
  exact Hlen.
Defined.

(** ** An activity that ends where it began *)

(** X18. The end lookup of an activity is made at the start date. So when
    the end location rounds to the coordinates of the start location and the
    start lookup returned a summary, the cache answers the end lookup: the
    activity gets that summary for its start and for its end, and the end
    lookup calls no adapter, sends no request and changes no provider. *)
Theorem end_lookup_from_cache (w w1 : World) (user : UserData) (activity : StravaActivity)
    (a0 a1 b0 b1 : Z) (s : WeatherSummary) :
  turnedAway activity w = false ->
  wantsMid user activity = false ->
  locationStart activity = Some [Num a0; Num a1] ->
  locationEnd activity = Some [Num b0; Num b1] ->
  toFixed4 b0 = toFixed4 a0 ->
  toFixed4 b1 = toFixed4 a1 ->
  startLookup user activity w = (Ret (Some s), w1) ->
  exists w',
    Weather.getActivityWeather user activity w
    = (Ret (Some {| start := Some s; mid := None; end_ := Some s |}), w')
    /\ calls w' = calls w1 /\ network w' = network w1 /\ providers w' = providers w1.
Proof.
  intros Hturned Hgate Hstart Hend Hb0 Hb1 Hrun.
  unfold turnedAway in Hturned. apply orb_false_iff in Hturned as [Hloc Hold].
  apply negb_false_iff in Hloc.
  unfold startLookup in Hrun. rewrite Hstart in Hrun.
  pose proof (lookup_caches_summary _ _ _ _ _ _ _ _ Hrun) as Hheld.
  rewrite <- Hb0, <- Hb1 in Hheld.
  destruct (lookup_from_cache w1 user b0 b1 (dateStart activity) None s Hheld
              (or_introl eq_refl))
    as (w2 & Hagain & Hcalls & Hnet & Hps & _).
  unfold Weather.getActivityWeather. unfold tryCatch at 1. rewrite Hloc.
  change (negb true) with false. cbv iota. unfold bind at 1. unfold gets at 1. unfold bind at 1. unfold gets at 1.
  cbv zeta. rewrite Hold. unfold bind at 1.
  unfold Weather.lookupStartEnd. unfold tryCatch at 1. unfold bind at 1.
  rewrite Hstart, Hrun. unfold tryCatch at 1. unfold bind at 1.
  rewrite Hend, Hagain. unfold ret at 1.
  unfold bind at 1. unfold Weather.lookupMid.
  unfold wantsMid in Hgate. rewrite Hgate. unfold ret at 1. simpl.
  eexists. split; [reflexivity|]. simpl. repeat split; assumption.
Qed.

Lemma end_lookup_from_cache_witness :
  exists w',
    Weather.getActivityWeather Sample.user
      {| activityId := 3; hasLocation := true; dateStart := Sample.noon;
         dateEnd := Some (Sample.noon + Dayjs.msPerHour); utcStartOffset := 0;
         totalTime := 3600;
         locationStart := Some [Num 51507310; Num (-127660)];
         locationMid := None;
         locationEnd := Some [Num 51507349; Num (-127651)] |}
      (Sample.world [stormglass] [Responded (Hours [Sample.reading Sample.noon])])
    = (Ret (Some {| start := Some (StormGlass.summaryOf "stormglass"
                                     (Sample.reading Sample.noon) Sample.noon
                                     StormGlass.noPreferences);
                    mid := None;
                    end_ := Some (StormGlass.summaryOf "stormglass"
                                    (Sample.reading Sample.noon) Sample.noon
                                    StormGlass.noPreferences) |}), w')
    /\ length (calls w') = 1%nat.
Proof.
  destruct (end_lookup_from_cache
              (Sample.world [stormglass] [Responded (Hours [Sample.reading Sample.noon])])
              (snd (Weather.getLocationWeather Sample.user
                      (Some [Num 51507310; Num (-127660)]) (Some Sample.noon) None
                      (Sample.world [stormglass]
                         [Responded (Hours [Sample.reading Sample.noon])])))
              Sample.user
              {| activityId := 3; hasLocation := true; dateStart := Sample.noon;
                 dateEnd := Some (Sample.noon + Dayjs.msPerHour); utcStartOffset := 0;
                 totalTime := 3600;
                 locationStart := Some [Num 51507310; Num (-127660)];
                 locationMid := None;
                 locationEnd := Some [Num 51507349; Num (-127651)] |}
              51507310 (-127660) 51507349 (-127651)
              (StormGlass.summaryOf "stormglass" (Sample.reading Sample.noon) Sample.noon
                 StormGlass.noPreferences))
    as (w' & Hrun & Hcalls & _).
  - vm_compute. reflexivity.
  - reflexivity.
  - reflexivity.
  - reflexivity.
  - reflexivity.
  - reflexivity.
  - vm_compute. reflexivity.
  - exists w'. split; [exact Hrun|]. rewrite Hcalls. reflexivity.
Defined.

(** ** A provider that answers with nothing *)

Lemma firstAttempt_nothing (w : World) (p : nat) (self : WeatherProvider)
    (coordinates : list Z) (dDate : Z) (preferences : option UserPreferences)
    (body : ResponseBody) (rest : list NetReply) :
  providers w !! p = Some self ->
  StormGlass.outOfRange self (clock w) dDate = false ->
  network w = Responded body :: rest ->
  body = NoBody
  \/ (exists rows, body = Hours rows /\ StormGlass.findTimeData rows dDate = None) ->
  Weather.firstAttempt (Some p) coordinates dDate preferences w
  = (Throw (JsError "No weather summary returned"),
     called (name self) coordinates dDate GaveNothing
       (setNetwork rest (requested p self w))).
Proof.
  intros Hp Hrange Hnet Hbody.
  unfold Weather.firstAttempt, Weather.callGetWeather. unfold bind at 1. unfold bind at 1.
  rewrite (getProvider_Some _ _ _ Hp), (getWeather_cases _ _ _ _ _ _ Hp), Hrange, Hnet.
  cbv zeta. destruct Hbody as [-> | (rows & -> & Hfind)]; [reflexivity|].
  rewrite Hfind. reflexivity.
Qed.

(** X19. The first provider to try answers, but with no reading for the
    hour of the date (or with an empty body), and the second one has one: the
    lookup returns and caches the summary of the second provider. The answer
    of the first counts as a failure of the lookup, not of the provider: its
    request is counted, its error counter and its [disabledTillDate] are as
    they were. *)
Theorem empty_answer_falls_back (w w0 w1 : World) (user : UserData) (c0 c1 dDate : Z)
    (explicit resolved : option string) (isDefaultProvider : bool)
    (current : list (option nat)) (p q : nat) (first second : WeatherProvider)
    (body : ResponseBody) (rows : list HourData) (timeData : HourData)
    (more : list NetReply) :
  let coordinates := [toFixed4 c0; toFixed4 c1] in
  let hours := Dayjs.diffHours (clock w) dDate in
  let available :=
    List.filter (eligibleRef w (clock w) hours) (seq 0 (length (providers w))) in
  let s := StormGlass.summaryOf (name second) timeData dDate
             (default StormGlass.noPreferences (preferences user)) in
  Weather.resolveProvider (preferences user) explicit w
  = (Ret (resolved, isDefaultProvider), w0) ->
  Weather.cacheUsable (mjoin (cache w !! Weather.cacheId coordinates dDate))
    isDefaultProvider resolved = false ->
  Weather.selectProviders available resolved w0 = (Ret current, w1) ->
  current !! 0%nat = Some (Some p) ->
  current !! 1%nat = Some (Some q) ->
  p <> q ->
  providers w !! p = Some first ->
  providers w !! q = Some second ->
  network w = Responded body :: Responded (Hours rows) :: more ->
  body = NoBody
  \/ (exists rows', body = Hours rows' /\ StormGlass.findTimeData rows' dDate = None) ->
  StormGlass.findTimeData rows dDate = Some timeData ->
  exists w',
    Weather.getLocationWeather user (Some [Num c0; Num c1]) (Some dDate) explicit w
    = (Ret (Some s), w')
    /\ cache w' = <[Weather.cacheId coordinates dDate := Some s]> (cache w)
    /\ providers w'
       = <[q := withStats (countRequest (clock w)) second]>
           (<[p := withStats (countRequest (clock w)) first]> (providers w))
    /\ calls w'
       = calls w ++ [{| callee := name first; callCoordinates := coordinates;
                        callDate := dDate; outcome := GaveNothing |};
                     {| callee := name second; callCoordinates := coordinates;
                        callDate := dDate; outcome := GaveSummary |}]
    /\ network w' = more.
Proof.
  intros coordinates hours available s Hres Hunusable Hsel Hfirst Hsecond Hne Hp Hq
    Hnet Hbody Hfind.
  destruct (getLocationWeather_asks w w0 w1 user c0 c1 dDate explicit resolved
              isDefaultProvider current p Hres Hunusable Hsel Hfirst)
    as (Hw1 & Hmembers & ->).
  fold coordinates hours available in Hmembers |- *.
  assert (Help : eligible (settings w) (clock w) hours first = true).
  { assert (Hin : p ∈ available) by (apply Hmembers; eapply list_elem_of_lookup_2, Hfirst).
    apply elem_of_availableProviders in Hin as (self & Hself & H).
    rewrite Hp in Hself. injection Hself as <-. exact H. }
  assert (Helq : eligible (settings w) (clock w) hours second = true).
  { assert (Hin : q ∈ available) by (apply Hmembers; eapply list_elem_of_lookup_2, Hsecond).
    apply elem_of_availableProviders in Hin as (self & Hself & H).
    rewrite Hq in Hself. injection Hself as <-. exact H. }
  destruct Hw1 as (_ & Hps & _ & _ & Hcache & Hclock & Hnet1 & _ & Hcalls1).
  assert (Hltp : (p < length (providers w))%nat) by (eapply lookup_lt_Some; eauto).
  unfold bind at 1. unfold tryCatch at 1.
  rewrite (firstAttempt_nothing w1 p first coordinates dDate (preferences user) body
             (Responded (Hours rows) :: more));
    [ | rewrite Hps; exact Hp
      | rewrite Hclock; apply (eligible_in_range _ _ _ _ Help)
      | rewrite Hnet1; exact Hnet
      | exact Hbody ].
  set (asked := withStats (countRequest (clock w)) first).
  set (w2 := called (name first) coordinates dDate GaveNothing
               (setNetwork (Responded (Hours rows) :: more) (requested p first w1))).
  assert (Hps2 : providers w2 = <[p := asked]> (providers w)).
  { subst w2. unfold requested, called, logged. simpl. rewrite Hps, Hclock. reflexivity. }
  assert (Hp2 : providers w2 !! p = Some asked).
  { rewrite Hps2. apply list_lookup_insert_eq, Hltp. }
  assert (Hq2 : providers w2 !! q = Some second).
  { rewrite Hps2, list_lookup_insert_ne by exact Hne. exact Hq. }
  assert (Hclock2 : clock w2 = clock w) by exact Hclock.
  assert (Hnet2 : network w2 = Responded (Hours rows) :: more) by reflexivity.
  assert (Hcache2 : cache w2 = cache w) by exact Hcache.
  assert (Hcalls2 : calls w2
                    = calls w ++ [{| callee := name first; callCoordinates := coordinates;
                                     callDate := dDate; outcome := GaveNothing |}]).
  { subst w2. unfold requested, called, logged. simpl. rewrite Hcalls1. reflexivity. }
  clearbody w2.
  destruct (onFailure_second w2 current p q asked second coordinates dDate (clock w)
              (preferences user) (JsError "No weather summary returned")
              Hsecond Hp2 Hq2 Hne)
    as (-> & Hps3 & Hq3 & Hclock3 & Hnet3 & Hcalls3 & Hcache3 & _).
  change (Weather.is402 (JsError "No weather summary returned")) with false in *.
  cbv iota in *.
  set (w3 := logged LogWarn "Weather.getLocationWeather" w2) in *.
  clearbody w3.
  unfold tryCatch at 1. unfold bind at 1.
  rewrite (callGetWeather_summary w3 q second coordinates dDate (preferences user) rows
             timeData more);
    [ | exact Hq3
      | rewrite Hclock3, Hclock2; apply (eligible_in_range _ _ _ _ Helq)
      | rewrite Hnet3; exact Hnet2
      | exact Hfind ].
  unfold ret at 1. unfold bind at 1. unfold cacheSet at 1, modify at 1.
  unfold bind at 1. unfold logger at 1, modify at 1. unfold ret.
  eexists. split; [reflexivity|].
  unfold requested, called, logged. simpl.
  rewrite Hcache3, Hcache2, Hcalls3, Hcalls2, Hclock3, Hclock2, Hps3, Hps2, <- app_assoc.
  repeat split.
Qed.

Lemma empty_answer_falls_back_witness :
  exists w',
    Weather.getLocationWeather Sample.fan (Some [Num 51507310; Num (-127660)])
      (Some Sample.noon) None
      (Sample.world [stormglass; Sample.openmeteo None]
         [Responded (Hours [Sample.reading (Sample.noon - Dayjs.msPerDay)]);
          Responded (Hours [Sample.reading Sample.noon])])
    = (Ret (Some (StormGlass.summaryOf "openmeteo" (Sample.reading Sample.noon) Sample.noon
                    (default StormGlass.noPreferences (preferences Sample.fan)))), w')
    /\ errorCountOf w' 0 = Some 0
    /\ requestCountOf w' 0 = Some 1.
Proof.
  destruct (empty_answer_falls_back
              (Sample.world [stormglass; Sample.openmeteo None]
                 [Responded (Hours [Sample.reading (Sample.noon - Dayjs.msPerDay)]);
                  Responded (Hours [Sample.reading Sample.noon])])
              (Sample.world [stormglass; Sample.openmeteo None]
                 [Responded (Hours [Sample.reading (Sample.noon - Dayjs.msPerDay)]);
                  Responded (Hours [Sample.reading Sample.noon])])
              (Sample.world [stormglass; Sample.openmeteo None]
                 [Responded (Hours [Sample.reading (Sample.noon - Dayjs.msPerDay)]);
                  Responded (Hours [Sample.reading Sample.noon])])
              Sample.fan 51507310 (-127660) Sample.noon None (Some "stormglass") true
              [Some 0%nat; Some 1%nat] 0%nat 1%nat stormglass (Sample.openmeteo None)
              (Hours [Sample.reading (Sample.noon - Dayjs.msPerDay)])
              [Sample.reading Sample.noon] (Sample.reading Sample.noon) [])
    as (w' & Hrun & _ & Hps & _).
  - vm_compute. reflexivity.
  - vm_compute. reflexivity.
  - vm_compute. reflexivity.
  - reflexivity.
  - reflexivity.
  - discriminate.
  - reflexivity.
  - reflexivity.
  - reflexivity.
  - right. eexists. split; [reflexivity|]. vm_compute. reflexivity.
  - vm_compute. reflexivity.
  - exists w'. split; [exact Hrun|].
    unfold errorCountOf, requestCountOf. rewrite Hps. split; reflexivity.
Defined.

(** ** The providers to try *)

(** X20. The preferred provider is registered and eligible, and no other
    eligible provider has its name: the providers to try are the preferred
    one, and then what [_.sample] picks among the other eligible providers.
    That is another eligible provider when there is one; when the preferred
    provider is the only eligible one it is [undefined], which is pushed as
    a second provider to try all the same. *)
Theorem candidates_of_preferred (w : World) (utcNow hours : Z) (wanted : string)
    (p : nat) (self : WeatherProvider) :
  let available :=
    List.filter (eligibleRef w utcNow hours) (seq 0 (length (providers w))) in
  let others := List.filter (fun q => negb (q =? p)%nat) available in
  providers w !! p = Some self ->
  name self = wanted ->
  eligible (settings w) utcNow hours self = true ->
  (forall q other,
     q <> p -> providers w !! q = Some other ->
     eligible (settings w) utcNow hours other = true -> name other <> wanted) ->
  exists second w1,
    Weather.selectProviders available (Some wanted) w = (Ret [Some p; second], w1)
    /\ sample others w = (Ret second, w1)
    /\ match second with
       | Some q =>
           q <> p
           /\ exists other, providers w !! q = Some other
                            /\ eligible (settings w) utcNow hours other = true
       | None =>
           forall q other,
             providers w !! q = Some other ->
             eligible (settings w) utcNow hours other = true -> q = p
       end.
Proof.
  intros available others Hp Hname Hel Hunique.
  assert (Hin : p ∈ available).
  { apply elem_of_availableProviders. eauto. }
  assert (Hmatch : forall q, In q available ->
            Weather.matchesName w (Some wanted) q = (q =? p)%nat).
  { intros q Hq. apply list_elem_of_In, elem_of_availableProviders in Hq
      as (other & Hother & Helq).
    unfold Weather.matchesName. rewrite Hother.
    destruct (Nat.eqb_spec q p) as [->|Hne].
    - rewrite Hp in Hother. injection Hother as <-.
      apply bool_decide_eq_true_2. congruence.
    - apply bool_decide_eq_false_2. intros [= E].
      exact (Hunique q other Hne Hother Helq E). }
  assert (Hmatched : List.filter (Weather.matchesName w (Some wanted)) available = [p]).
  { rewrite (List.filter_ext_in _ _ _ Hmatch).
    apply filter_only; [apply available_NoDup | exact Hin]. }
  assert (Hrest : List.filter (fun x => negb (Weather.matchesName w (Some wanted) x))
                    available = others).
  { apply List.filter_ext_in. intros q Hq. rewrite (Hmatch q Hq). reflexivity. }
  destruct (selectProviders_preferred w available wanted p Hmatched) as [Hsel _].
  rewrite Hrest in Hsel. rewrite Hsel. unfold bind, ret.
  destruct (sample_cases others w) as (picked & w1 & Hsample & _ & Hpicked).
  rewrite Hsample. exists picked, w1. split; [reflexivity|]. split; [reflexivity|].
  destruct picked as [q|].
  - apply list_elem_of_In, filter_In in Hpicked as [Hq Hne].
    apply list_elem_of_In, elem_of_availableProviders in Hq.
    split; [|exact Hq]. intros ->. rewrite Nat.eqb_refl in Hne. discriminate Hne.
  - intros q other Hother Helq.
    destruct (Nat.eq_dec q p) as [E|Hne]; [exact E|]. exfalso.
    assert (Hq : q ∈ others).
    { apply list_elem_of_In, filter_In. split.
      - apply list_elem_of_In, elem_of_availableProviders. eauto.
      - apply negb_true_iff, Nat.eqb_neq, Hne. }
    rewrite Hpicked in Hq. inversion Hq.
Qed.

Lemma candidates_of_preferred_witness :
  (exists w1,
     Weather.selectProviders [0%nat] (Some "stormglass") (Sample.world [stormglass] [])
     = (Ret [Some 0%nat; None], w1))
  /\ (exists second w1,
        Weather.selectProviders [0%nat; 1%nat] (Some "openmeteo")
          (Sample.world [stormglass; Sample.openmeteo None] [])
        = (Ret [Some 1%nat; second], w1)
        /\ second = Some 0%nat).
Proof.
  split.
  - destruct (candidates_of_preferred (Sample.world [stormglass] []) Sample.noon 0
                "stormglass" 0%nat stormglass)
      as (second & w1 & Hsel & Hsample & _).
    + reflexivity.
    + reflexivity.
    + reflexivity.
    + intros [|q] other Hne Hother; [contradiction | discriminate Hother].
    + exists w1. injection Hsample as <- _. exact Hsel.
  - destruct (candidates_of_preferred
                (Sample.world [stormglass; Sample.openmeteo None] []) Sample.noon 0
                "openmeteo" 1%nat (Sample.openmeteo None))
      as (second & w1 & Hsel & Hsample & _).
    + reflexivity.
    + reflexivity.
    + reflexivity.
    + intros [|[|q]] other Hne Hother _;
        [injection Hother as <-; discriminate | contradiction | discriminate Hother].
    + exists second, w1. split; [exact Hsel|]. injection Hsample as <- _. reflexivity.
Defined.

(** X21. One lookup calls an adapter twice at most, and the second time
    only after the first call did not give a summary: there is never a third
    call, and no call after a summary. *)
Theorem lookup_attempts (w w' : World) (user : UserData)
    (coordinates : option (list JsNumber)) (dDate : option Z) (wanted : option string)
    (r : Result (option WeatherSummary)) :
  Weather.getLocationWeather user coordinates dDate wanted w = (r, w') ->
  exists extra,
    calls w' = calls w ++ extra
    /\ (length extra <= 2)%nat
    /\ (forall first second, extra = [first; second] -> outcome first <> GaveSummary).
Proof.
  intros Hrun. apply getLocationWeather_calls in Hrun as (extra & Hcalls & Hshape).
  exists extra. split; [exact Hcalls|].
  destruct extra as [|c1 [|c2 [|c3 rest]]]; simpl in Hshape; try contradiction.
  - split; [simpl; lia | discriminate].
  - split; [simpl; lia | discriminate].
  - split; [simpl; lia|]. intros first second [= <- <-]. exact Hshape.
Qed.

Lemma lookup_attempts_witness :
  exists extra,
    calls (snd (Weather.getLocationWeather Sample.fan (Some [Num 51507310; Num (-127660)])
                  (Some Sample.noon) None
                  (Sample.world [stormglass; Sample.openmeteo None]
                     [Failed None; Responded (Hours [Sample.reading Sample.noon])])))
    = [] ++ extra
    /\ (length extra <= 2)%nat.
Proof.
  destruct (lookup_attempts
              (Sample.world [stormglass; Sample.openmeteo None]
                 [Failed None; Responded (Hours [Sample.reading Sample.noon])])
              (snd (Weather.getLocationWeather Sample.fan
                      (Some [Num 51507310; Num (-127660)]) (Some Sample.noon) None
                      (Sample.world [stormglass; Sample.openmeteo None]
                         [Failed None; Responded (Hours [Sample.reading Sample.noon])])))
              Sample.fan (Some [Num 51507310; Num (-127660)]) (Some Sample.noon) None
              (fst (Weather.getLocationWeather Sample.fan
                      (Some [Num 51507310; Num (-127660)]) (Some Sample.noon) None
                      (Sample.world [stormglass; Sample.openmeteo None]
                         [Failed None; Responded (Hours [Sample.reading Sample.noon])]))))
    as (extra & Hcalls & Hlen & _).
  - vm_compute. reflexivity.
  - exists extra. split; [exact Hcalls | exact Hlen].
Defined.
